(** * 1dca: elementary cellular automaton explorer

    A shallow embedding of the simulation stores (rule application, history
    window, viewport metrics), of the renderers (Canvas2D, WebGL, WebGL
    compute) and of the renderer factory, followed by the properties of the
    specification that were checked against them.

    Conventions of the embedding.
    - A JavaScript array of cells is a [list jsbool]; an element read out of
      range is [undefined], here [None].
    - JavaScript numbers are modelled for integer-valued inputs: a finite
      value is a [Z]; the non-finite results of a division by zero are the
      other constructors of [num].  Magnitudes are assumed below 2^53, where
      [Math.floor (a / b)] is the exact floor of the quotient.
    - A function that can throw returns an [outcome]; a method of an object
      returns the object after the call together with the outcome, because
      the fields assigned before a [throw] stay assigned. *)

From Stdlib Require Import ZArith Lia Bool String.
From stdpp Require Import base tactics option list numbers.

Local Open Scope Z_scope.

(** ** JavaScript values and control *)

Module JS.

(** A cell as the arrays hold it at run time: [true], [false], or
    [undefined] (read past the end of an array). *)
Definition jsbool := option bool.

Definition undefined : jsbool := None.

(** Truthiness, as in [cell ? a : b] and [if (cell)]. *)
Definition truthy (v : jsbool) : bool :=
  match v with
  | Some true => true
  | _ => false
  end.

(** [a[k]] for a number [k]: [undefined] outside [0 .. length-1]. *)
Definition at_index {A : Type} (a : list A) (k : Z) : option A :=
  if k <? 0 then None else a !! Z.to_nat k.

Definition read (a : list jsbool) (k : Z) : jsbool :=
  mjoin (at_index a k).

(** [a % b] on integer-valued numbers: the sign follows the dividend. *)
Definition rem (a b : Z) : Z := Z.rem a b.

(** 32-bit operators: [ToInt32], [a >> k], [a << k], [a & b]. *)
Definition toInt32 (z : Z) : Z := (z + 2 ^ 31) mod 2 ^ 32 - 2 ^ 31.

Definition shr (a k : Z) : Z := Z.shiftr (toInt32 a) (k mod 32).

Definition shl (a k : Z) : Z := toInt32 (Z.shiftl (toInt32 a) (k mod 32)).

Definition and32 (a b : Z) : Z := Z.land (toInt32 a) (toInt32 b).

(** [a[k] = v].  The stores only assign inside their arrays; a typed
    array drops an assignment past its end; in both cases a list update
    that ignores other indices is what happens. *)
Definition write {A : Type} (a : list A) (k : Z) (v : A) : list A :=
  if k <? 0 then a else <[Z.to_nat k := v]> a.

(** [a.forEach((v, i) => ...)] threading the state the callback mutates. *)
Fixpoint forEach_from {A T : Type} (i : nat) (a : list A)
    (body : T -> A -> nat -> T) (s : T) : T :=
  match a with
  | [] => s
  | v :: rest => forEach_from (S i) rest body (body s v i)
  end.

Definition forEach {A T : Type} (a : list A) (body : T -> A -> nat -> T)
    (s : T) : T :=
  forEach_from 0 a body s.

(** [a.shift()], result discarded. *)
Definition shift {A : Type} (a : list A) : list A := tail a.

(** [a.slice(k)] for an integer [k]; a negative [k] counts from the end. *)
Definition slice_from {A : Type} (k : Z) (a : list A) : list A :=
  let len := Z.of_nat (length a) in
  let start := if k <? 0 then Z.max (len + k) 0 else Z.min k len in
  drop (Z.to_nat start) a.

(** Numbers that arise from integer inputs. *)
Inductive num : Type :=
| Fin (z : Z)
| PosInf
| NegInf
| NaN.

(** [Math.floor(a / b)]. *)
Definition floor_div (a b : Z) : num :=
  if b =? 0 then
    (if 0 <? a then PosInf else if a <? 0 then NegInf else NaN)
  else Fin (a / b).

(** [x * b]. *)
Definition mul_int (x : num) (b : Z) : num :=
  match x with
  | Fin n => Fin (n * b)
  | PosInf => if 0 <? b then PosInf else if b <? 0 then NegInf else NaN
  | NegInf => if 0 <? b then NegInf else if b <? 0 then PosInf else NaN
  | NaN => NaN
  end.

(** [a - x]. *)
Definition int_sub (a : Z) (x : num) : num :=
  match x with
  | Fin n => Fin (a - n)
  | PosInf => NegInf
  | NegInf => PosInf
  | NaN => NaN
  end.

(** [Math.floor(x / 2)]. *)
Definition floor_half (x : num) : num :=
  match x with
  | Fin n => Fin (n / 2)
  | other => other
  end.

(** [x === y]: [NaN] equals nothing. *)
Definition num_eqb (x y : num) : bool :=
  match x, y with
  | Fin a, Fin b => a =? b
  | PosInf, PosInf | NegInf, NegInf => true
  | _, _ => false
  end.

(** A number passed where WebGL expects a [GLsizei]. *)
Definition to_glsizei (x : num) : Z :=
  match x with
  | Fin z => z
  | _ => 0
  end.

(** [Math.pow(2, Math.ceil(Math.log2(n)))]: the least power of two that
    is at least [n]; 0 for 0; [NaN] below 0. *)
Definition pow2ceil (n : Z) : num :=
  if n <? 0 then NaN
  else if n =? 0 then Fin 0
  else Fin (2 ^ Z.log2_up n).

(** [n >= x] and [n > x] for an array length [n]. *)
Definition len_ge (n : nat) (x : num) : bool :=
  match x with
  | Fin m => m <=? Z.of_nat n
  | NegInf => true
  | PosInf | NaN => false
  end.

Definition len_gt (n : nat) (x : num) : bool :=
  match x with
  | Fin m => m <? Z.of_nat n
  | NegInf => true
  | PosInf | NaN => false
  end.

(** What a [throw] carries. *)
Inductive error : Type :=
| RangeError
| WebGL2NotSupported
| No2DContext
| CreateShaderFailed
| ShaderCompileError
| CreateProgramFailed
| ProgramLinkError
| TypeError.

Inductive outcome (A : Type) : Type :=
| Returns (a : A)
| Throws (e : error).
Arguments Returns {A} a.
Arguments Throws {A} e.

Definition bind {A B : Type} (o : outcome A) (k : A -> outcome B) : outcome B :=
  match o with
  | Returns a => k a
  | Throws e => Throws e
  end.

(** [new Uint8Array(n)], zero-filled: [NaN] is length 0, a negative or
    unrepresentable length is a [RangeError]. *)
Definition new_Uint8Array (n : num) : outcome (list Z) :=
  match n with
  | Fin k =>
      if (0 <=? k) && (k <? 2 ^ 53) then Returns (replicate (Z.to_nat k) 0)
      else Throws RangeError
  | NaN => Returns []
  | _ => Throws RangeError
  end.

(** [a[i] = v] on an ordinary array: past the end the array grows, the
    skipped slots stay empty.  Array indices end at 2^32 - 2: from
    2^32 - 1 on the number names a property of the array object, the
    elements and the length stay as they are, and a copy by spread does
    not carry the property. *)
Definition assign {A : Type} (a : list (option A)) (i : nat) (v : option A)
    : list (option A) :=
  if decide (i < length a)%nat then <[i := v]> a
  else if Z.of_nat i <? 2 ^ 32 - 1
       then a ++ replicate (i - length a) None ++ [v]
       else a.

(** Methods: the object after the call, and how the call ended. *)
Definition M (S A : Type) : Type := S -> S * outcome A.

Definition ret {S A : Type} (a : A) : M S A := fun s => (s, Returns a).

Definition throw {S A : Type} (e : error) : M S A := fun s => (s, Throws e).

Definition then_ {S A B : Type} (m : M S A) (k : A -> M S B) : M S B :=
  fun s => match m s with
           | (s', Returns a) => k a s'
           | (s', Throws e) => (s', Throws e)
           end.

Definition get {S : Type} : M S S := fun s => (s, Returns s).

Definition modify {S : Type} (f : S -> S) : M S unit :=
  fun s => (f s, Returns tt).

(** [try { body } catch (e) { handler e }]. *)
Definition try_catch {S A : Type} (body : M S A) (handler : error -> M S A)
    : M S A :=
  fun s => match body s with
           | (s', Returns a) => (s', Returns a)
           | (s', Throws e) => handler e s'
           end.

(** [new Array(n).fill(v)]: a [RangeError] unless [n] is an array length. *)
Definition new_Array {A : Type} (n : num) (v : A) : outcome (list A) :=
  match n with
  | Fin k =>
      if (0 <=? k) && (k <? 2 ^ 32) then Returns (replicate (Z.to_nat k) v)
      else Throws RangeError
  | _ => Throws RangeError
  end.

End JS.

Export JS.

Notation "x <- o ;; k" := (JS.bind o (fun x => k))
  (at level 100, o at next level, right associativity).

Notation "'do' x <- m ; k" := (JS.then_ m (fun x => k))
  (at level 100, x name, m at next level, k at level 100,
   right associativity).

(** ** Rule engine: the loop shared by every store variant *)

Module RuleEngine.

(** [(left ? 4 : 0) + (center ? 2 : 0) + (right ? 1 : 0)]. *)
Definition neighbourhood (left center right : jsbool) : Z :=
  (if truthy left then 4 else 0)
  + (if truthy center then 2 else 0)
  + (if truthy right then 1 else 0).

(** The body of the [for] loop of [step] at index [i]. *)
Definition next_cell (cells ruleToggles : list jsbool) (i : Z) : jsbool :=
  let n := Z.of_nat (length cells) in
  let left := read cells (rem (i - 1 + n) n) in
  let center := read cells i in
  let right := read cells (rem (i + 1) n) in
  let idx := neighbourhood left center right in
  read ruleToggles (7 - idx).

(** [nextCells = new Array(cells.length).fill(false)] followed by the loop
    [for (i = 0; i < cells.length; i++) nextCells[i] = ...]. *)
Definition nextCells (cells ruleToggles : list jsbool) : list jsbool :=
  foldl (fun next i => write next (Z.of_nat i)
                         (next_cell cells ruleToggles (Z.of_nat i)))
        (replicate (length cells) (Some false))
        (seq 0 (length cells)).

(** [setPresetRule] of useStore:
    [toggles[7 - i] = ((ruleNumber >> i) & 1) === 1] for [i = 0 .. 7]. *)
Definition presetToggles (ruleNumber : Z) : list jsbool :=
  foldl (fun toggles i =>
           write toggles (7 - Z.of_nat i)
             (Some (and32 (shr ruleNumber (Z.of_nat i)) 1 =? 1)))
        (replicate 8 (Some false)) (seq 0 8).

(** [setPresetRule] of useSimulationStore:
    [toggles[7 - i] = Boolean(ruleNumber & (1 << i))]. *)
Definition presetToggles_mask (ruleNumber : Z) : list jsbool :=
  foldl (fun toggles i =>
           write toggles (7 - Z.of_nat i)
             (Some (negb (and32 ruleNumber (shl 1 (Z.of_nat i)) =? 0))))
        (replicate 8 (Some false)) (seq 0 8).

(** The initial [ruleToggles] of the store with renderer selection:
    [toggles[i] = Boolean(DEFAULT_RULE & (1 << i))]. *)
Definition initialToggles (defaultRule : Z) : list jsbool :=
  foldl (fun toggles i =>
           write toggles (Z.of_nat i)
             (Some (negb (and32 defaultRule (shl 1 (Z.of_nat i)) =? 0))))
        (replicate 8 (Some false)) (seq 0 8).

End RuleEngine.

Export RuleEngine.

(** ** Viewport metrics *)

Module Viewport.

Definition SIDEBAR_WIDTH : Z := 300.

(** The globals [window.innerWidth] and [window.innerHeight]. *)
Record Window : Type := {
  innerWidth : Z;
  innerHeight : Z
}.

Record Metrics : Type := {
  m_availableWidth : Z;
  m_maxCells : num;
  m_renderWidth : num;
  m_renderMargin : num;
  m_maxVisibleGenerations : num
}.

(** [calculateCanvasMetrics] of useStore (both versions of that file). *)
Definition calculateCanvasMetrics (win : Window)
    (windowWidth cellSize cellMargin : Z) : Metrics :=
  let availableWidth := windowWidth - SIDEBAR_WIDTH in
  let maxCells := floor_div availableWidth (cellSize + cellMargin) in
  let renderWidth := mul_int maxCells (cellSize + cellMargin) in
  let renderMargin := floor_half (int_sub availableWidth renderWidth) in
  let maxVisibleGenerations :=
    floor_div (innerHeight win) (cellSize + cellMargin) in
  {| m_availableWidth := availableWidth;
     m_maxCells := maxCells;
     m_renderWidth := renderWidth;
     m_renderMargin := renderMargin;
     m_maxVisibleGenerations := maxVisibleGenerations |}.

(** [calculateCanvasMetrics] of useRenderStore: the height loses a padding
    of 100 and is divided by [cellSize]. *)
Definition calculateCanvasMetrics_render (win : Window)
    (windowWidth cellSize cellMargin : Z) : Metrics :=
  let availableWidth := windowWidth - SIDEBAR_WIDTH in
  let maxCells := floor_div availableWidth (cellSize + cellMargin) in
  let renderWidth := mul_int maxCells (cellSize + cellMargin) in
  let renderMargin := floor_half (int_sub availableWidth renderWidth) in
  let maxVisibleGenerations := floor_div (innerHeight win - 100) cellSize in
  {| m_availableWidth := availableWidth;
     m_maxCells := maxCells;
     m_renderWidth := renderWidth;
     m_renderMargin := renderMargin;
     m_maxVisibleGenerations := maxVisibleGenerations |}.

(** The resize shared by [setCellSize], [setCellMargin], [updateCanvasSize]
    and [updateMaxCells]:
    [newCells = new Array(maxCells).fill(false)], then every old cell is
    copied to [i + offset] when that index is inside the new array. *)
Definition recenter (n : Z) (cells newCells : list jsbool) : list jsbool :=
  let offset := (n - Z.of_nat (length cells)) / 2 in
  forEach cells
    (fun acc cell i =>
       if (0 <=? Z.of_nat i + offset) && (Z.of_nat i + offset <? n)
       then write acc (Z.of_nat i + offset) cell
       else acc)
    newCells.

Definition resizeCells (maxCells : num) (cells : list jsbool)
    : outcome (list jsbool) :=
  newCells <- new_Array maxCells (Some false) ;;
  match maxCells with
  | Fin n => Returns (recenter n cells newCells)
  | _ => Throws RangeError
  end.

End Viewport.

Export Viewport.

Inductive Pattern : Type := single | random | filled | empty | alternating.

Inductive RendererType : Type := webgl | canvas2d.

(** ** The single store (useStore) *)

Module UseStore.

Record Store : Type := {
  cells : list jsbool;
  previousGenerations : list (list jsbool);
  rule : Z;
  ruleToggles : list jsbool;
  isPlaying : bool;
  generation : Z;
  speed : Z;
  lastInitPattern : Pattern;
  cellSize : Z;
  cellMargin : Z;
  availableWidth : Z;
  maxCells : num;
  renderWidth : num;
  renderMargin : num;
  maxVisibleGenerations : num;
  activeRenderer : RendererType
}.

(** [set({ cells, previousGenerations, generation })]. *)
Definition set_simulation (c : list jsbool) (p : list (list jsbool)) (g : Z)
    (s : Store) : Store :=
  {| cells := c; previousGenerations := p; rule := rule s;
     ruleToggles := ruleToggles s; isPlaying := isPlaying s;
     generation := g; speed := speed s;
     lastInitPattern := lastInitPattern s; cellSize := cellSize s;
     cellMargin := cellMargin s; availableWidth := availableWidth s;
     maxCells := maxCells s; renderWidth := renderWidth s;
     renderMargin := renderMargin s;
     maxVisibleGenerations := maxVisibleGenerations s;
     activeRenderer := activeRenderer s |}.

(** [set({ rule, ruleToggles })]. *)
Definition set_rule (r : Z) (t : list jsbool) (s : Store) : Store :=
  {| cells := cells s; previousGenerations := previousGenerations s;
     rule := r; ruleToggles := t; isPlaying := isPlaying s;
     generation := generation s; speed := speed s;
     lastInitPattern := lastInitPattern s; cellSize := cellSize s;
     cellMargin := cellMargin s; availableWidth := availableWidth s;
     maxCells := maxCells s; renderWidth := renderWidth s;
     renderMargin := renderMargin s;
     maxVisibleGenerations := maxVisibleGenerations s;
     activeRenderer := activeRenderer s |}.

(** [set({ cellSize, cellMargin, cells, ...metrics })]. *)
Definition set_viewport (size margin : Z) (c : list jsbool) (m : Metrics)
    (s : Store) : Store :=
  {| cells := c; previousGenerations := previousGenerations s;
     rule := rule s; ruleToggles := ruleToggles s; isPlaying := isPlaying s;
     generation := generation s; speed := speed s;
     lastInitPattern := lastInitPattern s; cellSize := size;
     cellMargin := margin; availableWidth := m_availableWidth m;
     maxCells := m_maxCells m; renderWidth := m_renderWidth m;
     renderMargin := m_renderMargin m;
     maxVisibleGenerations := m_maxVisibleGenerations m;
     activeRenderer := activeRenderer s |}.

(** [step]: the rule loop, then the history update
    [if (length >= maxVisibleGenerations) shift(); push(state.cells)]. *)
Definition step (s : Store) : outcome Store :=
  let next := nextCells (cells s) (ruleToggles s) in
  let newPreviousGenerations := previousGenerations s in
  let newPreviousGenerations :=
    if len_ge (length newPreviousGenerations) (maxVisibleGenerations s)
    then shift newPreviousGenerations
    else newPreviousGenerations in
  let newPreviousGenerations := newPreviousGenerations ++ [cells s] in
  Returns (set_simulation next newPreviousGenerations (generation s + 1) s).

(** [incrementGeneration]: push first, then
    [if (length > maxVisibleGenerations) shift()]. *)
Definition incrementGeneration (s : Store) : outcome Store :=
  let newPreviousGenerations := previousGenerations s ++ [cells s] in
  let newPreviousGenerations :=
    if len_gt (length newPreviousGenerations) (maxVisibleGenerations s)
    then shift newPreviousGenerations
    else newPreviousGenerations in
  Returns (set_simulation (cells s) newPreviousGenerations
             (generation s + 1) s).

Definition setPresetRule (ruleNumber : Z) (s : Store) : outcome Store :=
  Returns (set_rule ruleNumber (presetToggles ruleNumber) s).

Definition setCellSize (win : Window) (size : Z) (s : Store)
    : outcome Store :=
  let metrics :=
    calculateCanvasMetrics win (innerWidth win) size (cellMargin s) in
  newCells <- resizeCells (m_maxCells metrics) (cells s) ;;
  Returns (set_viewport size (cellMargin s) newCells metrics s).

Definition setCellMargin (win : Window) (margin : Z) (s : Store)
    : outcome Store :=
  let metrics :=
    calculateCanvasMetrics win (innerWidth win) (cellSize s) margin in
  newCells <- resizeCells (m_maxCells metrics) (cells s) ;;
  Returns (set_viewport (cellSize s) margin newCells metrics s).

Definition updateCanvasSize (win : Window) (windowWidth : Z) (s : Store)
    : outcome Store :=
  let metrics :=
    calculateCanvasMetrics win windowWidth (cellSize s) (cellMargin s) in
  newCells <- resizeCells (m_maxCells metrics) (cells s) ;;
  Returns (set_viewport (cellSize s) (cellMargin s) newCells metrics s).

(** The rule table the store with renderer selection starts from. *)
Definition DEFAULT_RULE : Z := 110.

Definition initialRuleToggles : list jsbool := initialToggles DEFAULT_RULE.

(** [!v]. *)
Definition js_not (v : jsbool) : jsbool := Some (negb (truthy v)).

(** [toggleRule(index)]: [toggles = [...ruleToggles];
    toggles[index] = !toggles[index]].  A negative index, like one from
    2^32 - 1 on, names a property of the array object, not an element:
    the elements, which are what the list holds, stay as they are. *)
Definition toggled (toggles : list jsbool) (index : Z) : list jsbool :=
  if index <? 0 then toggles
  else assign toggles (Z.to_nat index) (js_not (read toggles index)).

Definition toggleRule (index : Z) (s : Store) : outcome Store :=
  Returns (set_rule (rule s) (toggled (ruleToggles s) index) s).

(** The cells [initializePattern] builds from [new Array(maxCells).fill(false)];
    [draws i] is the outcome of the [i]-th [Math.random() > 0.5]. *)
Definition patternCells (draws : nat -> bool) (pattern : Pattern) (n : Z)
    (newCells : list jsbool) : list jsbool :=
  match pattern with
  | single => assign newCells (Z.to_nat (n / 2)) (Some true)
  | random =>
      foldl (fun cells i => write cells (Z.of_nat i) (Some (draws i)))
        newCells (seq 0 (Z.to_nat n))
  | filled => replicate (length newCells) (Some true)
  | empty => newCells
  | alternating =>
      foldl (fun cells i =>
               write cells (Z.of_nat i) (Some (rem (Z.of_nat i) 2 =? 0)))
        newCells (seq 0 (Z.to_nat n))
  end.

(** [set({ cells, lastInitPattern, generation: 0, previousGenerations: [] })]. *)
Definition set_pattern (c : list jsbool) (p : Pattern) (s : Store) : Store :=
  {| cells := c; previousGenerations := []; rule := rule s;
     ruleToggles := ruleToggles s; isPlaying := isPlaying s;
     generation := 0; speed := speed s;
     lastInitPattern := p; cellSize := cellSize s;
     cellMargin := cellMargin s; availableWidth := availableWidth s;
     maxCells := maxCells s; renderWidth := renderWidth s;
     renderMargin := renderMargin s;
     maxVisibleGenerations := maxVisibleGenerations s;
     activeRenderer := activeRenderer s |}.

Definition initializePattern (draws : nat -> bool) (pattern : Pattern)
    (s : Store) : outcome Store :=
  newCells <- new_Array (maxCells s) (Some false) ;;
  match maxCells s with
  | Fin n => Returns (set_pattern (patternCells draws pattern n newCells)
                        pattern s)
  | _ => Throws RangeError
  end.

(** [resetGeneration]: [initializePattern(lastInitPattern)], then
    [set({ generation: 0, previousGenerations: [] })]. *)
Definition resetGeneration (draws : nat -> bool) (s : Store) : outcome Store :=
  s' <- initializePattern draws (lastInitPattern s) s ;;
  Returns (set_simulation (cells s') [] 0 s').

End UseStore.

(** ** The split stores (useSimulationStore and useRenderStore) *)

Module SimulationStore.

Record Store : Type := {
  cells : list jsbool;
  previousGenerations : list (list jsbool);
  rule : Z;
  ruleToggles : list jsbool;
  generation : Z;
  isPlaying : bool;
  speed : Z;
  lastInitPattern : Pattern;
  maxCells : num
}.

Definition set_simulation (c : list jsbool) (p : list (list jsbool)) (g : Z)
    (s : Store) : Store :=
  {| cells := c; previousGenerations := p; rule := rule s;
     ruleToggles := ruleToggles s; generation := g;
     isPlaying := isPlaying s; speed := speed s;
     lastInitPattern := lastInitPattern s; maxCells := maxCells s |}.

(** [step]: the rule loop, then
    [previousGenerations: [...state.previousGenerations, [...cells]]]. *)
Definition step (s : Store) : outcome Store :=
  let next := nextCells (cells s) (ruleToggles s) in
  Returns (set_simulation next (previousGenerations s ++ [cells s])
             (generation s + 1) s).

Definition incrementGeneration (s : Store) : outcome Store :=
  Returns (set_simulation (cells s) (previousGenerations s ++ [cells s])
             (generation s + 1) s).

Definition setPresetRule (ruleNumber : Z) (s : Store) : outcome Store :=
  Returns
    {| cells := cells s; previousGenerations := previousGenerations s;
       rule := ruleNumber; ruleToggles := presetToggles_mask ruleNumber;
       generation := generation s; isPlaying := isPlaying s;
       speed := speed s; lastInitPattern := lastInitPattern s;
       maxCells := maxCells s |}.

Definition updateMaxCells (n : num) (s : Store) : outcome Store :=
  newCells <- resizeCells n (cells s) ;;
  Returns
    {| cells := newCells; previousGenerations := previousGenerations s;
       rule := rule s; ruleToggles := ruleToggles s;
       generation := generation s; isPlaying := isPlaying s;
       speed := speed s; lastInitPattern := lastInitPattern s;
       maxCells := n |}.

End SimulationStore.

Module RenderStore.

Record Store : Type := {
  cellSize : Z;
  cellMargin : Z;
  availableWidth : Z;
  renderWidth : num;
  renderMargin : num;
  maxVisibleGenerations : num
}.

Definition set_viewport (size margin : Z) (m : Metrics) : Store :=
  {| cellSize := size; cellMargin := margin;
     availableWidth := m_availableWidth m;
     renderWidth := m_renderWidth m;
     renderMargin := m_renderMargin m;
     maxVisibleGenerations := m_maxVisibleGenerations m |}.

(** Each action first resizes the simulation store, then stores the
    metrics. *)
Definition updateCanvasSize (win : Window) (windowWidth : Z)
    (rs : Store * SimulationStore.Store)
    : outcome (Store * SimulationStore.Store) :=
  let metrics :=
    calculateCanvasMetrics_render win windowWidth
      (cellSize (fst rs)) (cellMargin (fst rs)) in
  sim <- SimulationStore.updateMaxCells (m_maxCells metrics) (snd rs) ;;
  Returns (set_viewport (cellSize (fst rs)) (cellMargin (fst rs)) metrics,
           sim).

Definition setCellSize (win : Window) (size : Z)
    (rs : Store * SimulationStore.Store)
    : outcome (Store * SimulationStore.Store) :=
  let metrics :=
    calculateCanvasMetrics_render win (innerWidth win)
      size (cellMargin (fst rs)) in
  sim <- SimulationStore.updateMaxCells (m_maxCells metrics) (snd rs) ;;
  Returns (set_viewport size (cellMargin (fst rs)) metrics, sim).

Definition setCellMargin (win : Window) (margin : Z)
    (rs : Store * SimulationStore.Store)
    : outcome (Store * SimulationStore.Store) :=
  let metrics :=
    calculateCanvasMetrics_render win (innerWidth win)
      (cellSize (fst rs)) margin in
  sim <- SimulationStore.updateMaxCells (m_maxCells metrics) (snd rs) ;;
  Returns (set_viewport (cellSize (fst rs)) margin metrics, sim).

End RenderStore.

(** ** Sequences of history updates on the single store *)

Module History.

Import UseStore.

Inductive op : Type := Step | Append.

Definition apply (o : op) (s : Store) : outcome Store :=
  match o with
  | Step => step s
  | Append => incrementGeneration s
  end.

Fixpoint run (ops : list op) (s : Store) : outcome Store :=
  match ops with
  | [] => Returns s
  | o :: rest => s' <- apply o s ;; run rest s'
  end.

(** The generations pushed by [ops], in push order. *)
Fixpoint pushed (ops : list op) (s : Store) : list (list jsbool) :=
  match ops with
  | [] => []
  | o :: rest =>
      cells s :: match apply o s with
                 | Returns s' => pushed rest s'
                 | Throws _ => []
                 end
  end.

(** The last [m] elements of a list. *)
Definition last_n {A : Type} (m : nat) (l : list A) : list A :=
  drop (length l - m) l.

Fixpoint run_sim (n : nat) (s : SimulationStore.Store)
    : outcome SimulationStore.Store :=
  match n with
  | O => Returns s
  | S k => s' <- SimulationStore.step s ;; run_sim k s'
  end.

End History.

(** ** The arithmetic the specification refers to *)

Module Spec.

(** [r] is [floor (a / b)] in the arithmetic of JavaScript numbers: the
    integer [q] with [q <= a / b < q + 1] when [b] is not zero, and the
    IEEE result of a division by zero otherwise. *)
Definition floor_of_quotient (a b : Z) (r : num) : Prop :=
  match r with
  | Fin q => (0 < b /\ b * q <= a < b * (q + 1))
             \/ (b < 0 /\ b * (q + 1) < a <= b * q)
  | PosInf => b = 0 /\ 0 < a
  | NegInf => b = 0 /\ a < 0
  | NaN => b = 0 /\ a = 0
  end.

(** An 8-entry table whose entry [7 - i] is bit [i] of [r], as a check
    that can be run. *)
Definition table_reads_bits (table : list jsbool) (r : Z) : bool :=
  bool_decide (length table = 8%nat)
  && forallb (fun i => bool_decide
                (read table (7 - Z.of_nat i)
                 = Some (Z.testbit r (Z.of_nat i))))
       (seq 0 8).

End Spec.

Export Spec.

(** ** The WebGL2 context, as far as the renderers observe it

    Calls that only configure rasterisation ([pixelStorei], [texParameteri],
    vertex attributes, uniforms, [viewport], [clearColor], [clear],
    [enable], [blendFunc], buffer uploads) and [getError], whose result is
    only logged, do not change the state modelled here and are left out of
    the method bodies.  No WebGL call throws. *)

Module GL.

Definition handle : Type := nat.

(** The three GLSL texts of a renderer. *)
Inductive ShaderSource : Type := VertexSource | DisplaySource | ComputeSource.

(** How the implementation answers: whether the [n]-th [create*] call on
    the context returns an object or [null], which sources compile, which
    fragment shaders link. *)
Record Driver : Type := {
  creates_objects : nat -> bool;
  compiles : ShaderSource -> bool;
  links : ShaderSource -> bool
}.

(** A texture image: its size and its bytes, row-major. *)
Record Image : Type := {
  img_width : Z;
  img_height : Z;
  img_channels : Z;
  img_data : list Z
}.

(** One [drawArrays]: the program, the texture bound to unit 0, the bound
    framebuffer ([None]: the canvas) and the texture attached to it. *)
Record Draw : Type := {
  draw_program : handle;
  draw_source : option handle;
  draw_target : option handle;
  draw_target_texture : option handle
}.

Record Context : Type := {
  driver : Driver;
  canvas_width : Z;
  canvas_height : Z;
  next_handle : handle;
  current_program : option handle;
  bound_texture : option handle;
  bound_framebuffer : option handle;
  attachments : list (handle * option handle);
  images : list (handle * Image);
  deleted : list handle;
  draws : list Draw
}.

Definition set_canvas_size (w h : Z) (c : Context) : Context :=
  {| driver := driver c; canvas_width := w; canvas_height := h;
     next_handle := next_handle c; current_program := current_program c;
     bound_texture := bound_texture c;
     bound_framebuffer := bound_framebuffer c;
     attachments := attachments c; images := images c;
     deleted := deleted c; draws := draws c |}.

Definition set_next_handle (n : handle) (c : Context) : Context :=
  {| driver := driver c; canvas_width := canvas_width c;
     canvas_height := canvas_height c;
     next_handle := n; current_program := current_program c;
     bound_texture := bound_texture c;
     bound_framebuffer := bound_framebuffer c;
     attachments := attachments c; images := images c;
     deleted := deleted c; draws := draws c |}.

Definition set_current_program (p : option handle) (c : Context) : Context :=
  {| driver := driver c; canvas_width := canvas_width c;
     canvas_height := canvas_height c;
     next_handle := next_handle c; current_program := p;
     bound_texture := bound_texture c;
     bound_framebuffer := bound_framebuffer c;
     attachments := attachments c; images := images c;
     deleted := deleted c; draws := draws c |}.

Definition set_bound_texture (t : option handle) (c : Context) : Context :=
  {| driver := driver c; canvas_width := canvas_width c;
     canvas_height := canvas_height c;
     next_handle := next_handle c; current_program := current_program c;
     bound_texture := t;
     bound_framebuffer := bound_framebuffer c;
     attachments := attachments c; images := images c;
     deleted := deleted c; draws := draws c |}.

Definition set_bound_framebuffer (f : option handle) (c : Context) : Context :=
  {| driver := driver c; canvas_width := canvas_width c;
     canvas_height := canvas_height c;
     next_handle := next_handle c; current_program := current_program c;
     bound_texture := bound_texture c;
     bound_framebuffer := f;
     attachments := attachments c; images := images c;
     deleted := deleted c; draws := draws c |}.

Definition set_attachments (a : list (handle * option handle)) (c : Context)
    : Context :=
  {| driver := driver c; canvas_width := canvas_width c;
     canvas_height := canvas_height c;
     next_handle := next_handle c; current_program := current_program c;
     bound_texture := bound_texture c;
     bound_framebuffer := bound_framebuffer c;
     attachments := a; images := images c;
     deleted := deleted c; draws := draws c |}.

Definition set_images (i : list (handle * Image)) (c : Context) : Context :=
  {| driver := driver c; canvas_width := canvas_width c;
     canvas_height := canvas_height c;
     next_handle := next_handle c; current_program := current_program c;
     bound_texture := bound_texture c;
     bound_framebuffer := bound_framebuffer c;
     attachments := attachments c; images := i;
     deleted := deleted c; draws := draws c |}.

Definition set_deleted (d : list handle) (c : Context) : Context :=
  {| driver := driver c; canvas_width := canvas_width c;
     canvas_height := canvas_height c;
     next_handle := next_handle c; current_program := current_program c;
     bound_texture := bound_texture c;
     bound_framebuffer := bound_framebuffer c;
     attachments := attachments c; images := images c;
     deleted := d; draws := draws c |}.

Definition set_draws (d : list Draw) (c : Context) : Context :=
  {| driver := driver c; canvas_width := canvas_width c;
     canvas_height := canvas_height c;
     next_handle := next_handle c; current_program := current_program c;
     bound_texture := bound_texture c;
     bound_framebuffer := bound_framebuffer c;
     attachments := attachments c; images := images c;
     deleted := deleted c; draws := d |}.

(** Association lists keyed by handle: the first binding wins. *)
Fixpoint assoc {V : Type} (k : handle) (l : list (handle * V)) : option V :=
  match l with
  | [] => None
  | (k', v) :: rest => if Nat.eqb k k' then Some v else assoc k rest
  end.

Definition is_deleted (h : handle) (c : Context) : bool :=
  existsb (Nat.eqb h) (deleted c).

(** The context a canvas hands out. *)
Definition fresh (d : Driver) (w h : Z) : Context :=
  {| driver := d; canvas_width := w; canvas_height := h;
     next_handle := 1%nat; current_program := None; bound_texture := None;
     bound_framebuffer := None; attachments := []; images := [];
     deleted := []; draws := [] |}.

(** [createTexture], [createBuffer], [createFramebuffer], [createShader],
    [createProgram]: a new object, or [null].  [next_handle] counts the
    calls: the [n]-th call answers the object named [n] or [null], each
    call on its own. *)
Definition create (c : Context) : Context * option handle :=
  let n := next_handle c in
  (set_next_handle (S n) c,
   if creates_objects (driver c) n then Some n else None).

(** [deleteShader], [deleteProgram], [deleteBuffer], [deleteTexture],
    [deleteFramebuffer]; a deleted texture or framebuffer is unbound. *)
Definition delete (h : handle) (c : Context) : Context :=
  let c := set_deleted (h :: deleted c) c in
  let c := if bool_decide (bound_texture c = Some h)
           then set_bound_texture None c else c in
  if bool_decide (bound_framebuffer c = Some h)
  then set_bound_framebuffer None c else c.

(** Binding a deleted object is an [INVALID_OPERATION]: nothing changes. *)
Definition useProgram (p : option handle) (c : Context) : Context :=
  match p with
  | Some h => if is_deleted h c then c else set_current_program p c
  | None => set_current_program None c
  end.

Definition bindTexture (t : option handle) (c : Context) : Context :=
  match t with
  | Some h => if is_deleted h c then c else set_bound_texture t c
  | None => set_bound_texture None c
  end.

Definition bindFramebuffer (f : option handle) (c : Context) : Context :=
  match f with
  | Some h => if is_deleted h c then c else set_bound_framebuffer f c
  | None => set_bound_framebuffer None c
  end.

(** [framebufferTexture2D(FRAMEBUFFER, COLOR_ATTACHMENT0, TEXTURE_2D, t, 0)]
    on the bound framebuffer. *)
Definition framebufferTexture2D (t : option handle) (c : Context) : Context :=
  match bound_framebuffer c with
  | Some f => set_attachments ((f, t) :: attachments c) c
  | None => c
  end.

(** [texImage2D] on the bound texture; [null] data is a zeroed image. *)
Definition texImage2D (channels w h : Z) (data : option (list Z))
    (c : Context) : Context :=
  match bound_texture c with
  | Some t =>
      let bytes := match data with
                   | Some d => d
                   | None => replicate (Z.to_nat (w * h * channels)) 0
                   end in
      set_images
        ((t, {| img_width := w; img_height := h; img_channels := channels;
                img_data := bytes |}) :: images c) c
  | None => c
  end.

(** [texSubImage2D(TEXTURE_2D, 0, 0, 0, w, h, ...)]: the whole image is
    replaced when the rectangle is the texture's; a rectangle that does
    not fit is an [INVALID_VALUE]. *)
Definition texSubImage2D (w h : Z) (data : list Z) (c : Context) : Context :=
  match bound_texture c with
  | Some t =>
      match assoc t (images c) with
      | Some img =>
          if (img_width img =? w) && (img_height img =? h)
          then set_images
                 ((t, {| img_width := w; img_height := h;
                         img_channels := img_channels img;
                         img_data := data |}) :: images c) c
          else c
      | None => c
      end
  | None => c
  end.

(** [drawArrays(TRIANGLE_STRIP, 0, 4)]: needs a program in use. *)
Definition drawArrays (c : Context) : Context :=
  match current_program c with
  | Some p =>
      let target_texture :=
        match bound_framebuffer c with
        | Some f => mjoin (assoc f (attachments c))
        | None => None
        end in
      set_draws
        (draws c ++ [{| draw_program := p;
                        draw_source := bound_texture c;
                        draw_target := bound_framebuffer c;
                        draw_target_texture := target_texture |}]) c
  | None => c
  end.

(** The helper [createShader(gl, type, source)] of the renderers. *)
Definition createShader (source : ShaderSource) : M Context handle :=
  fun c =>
    match create c with
    | (c, None) => (c, Throws CreateShaderFailed)
    | (c, Some shader) =>
        if compiles (driver c) source then (c, Returns shader)
        else (delete shader c, Throws ShaderCompileError)
    end.

(** The helper [createProgram(gl, vertexShader, fragmentShader)]; the
    fragment source decides whether the program links. *)
Definition createProgram (fragment : ShaderSource) : M Context handle :=
  fun c =>
    match create c with
    | (c, None) => (c, Throws CreateProgramFailed)
    | (c, Some program) =>
        if links (driver c) fragment then (c, Returns program)
        else (delete program c, Throws ProgramLinkError)
    end.

End GL.

(** ** The canvas element *)

Module Dom.

(** What was painted on a 2D context: the background rectangle, and
    [fillCell(x, y)], which is
    [fillRect(floor x + 0.5, floor y + 0.5, side, side)]. *)
Inductive Paint : Type :=
| FillBackground (style : string) (w h : Z)
| FillCell (style : string) (x y side : Z).

Record Context2D : Type := {
  imageSmoothingEnabled : bool;
  fillStyle : string;
  painted : list Paint
}.

(** The context mode of a canvas.  A canvas gives out one kind of
    context: once it has one, [getContext] of that kind returns the
    same context again and [getContext] of another kind returns [null]. *)
Inductive Mode : Type :=
| NoContext
| Has2D (c : Context2D)
| HasWebGL2 (c : GL.Context).

(** A canvas: its size, its context mode, and what the browser answers
    to a first [getContext]: whether it gives a 2D context, and the
    driver behind a WebGL2 context, if it gives one. *)
Record Canvas : Type := {
  width : Z;
  height : Z;
  context2d : bool;
  webgl2 : option GL.Driver;
  mode : Mode
}.

Definition with_mode (m : Mode) (canvas : Canvas) : Canvas :=
  {| width := width canvas; height := height canvas;
     context2d := context2d canvas; webgl2 := webgl2 canvas; mode := m |}.

(** [canvas.getContext('webgl2')]. *)
Definition getContext_webgl2 (canvas : Canvas) : option GL.Context :=
  match mode canvas with
  | HasWebGL2 c => Some c
  | Has2D _ => None
  | NoContext =>
      match webgl2 canvas with
      | Some d => Some (GL.fresh d (width canvas) (height canvas))
      | None => None
      end
  end.

End Dom.

(** ** Canvas2DRenderer *)

Module Canvas2DRenderer.

Record CellState : Type := {
  cells : list jsbool;
  previousGenerations : list (list jsbool);
  generation : Z
}.

Record Colors : Type := { background : string; primary : string }.

Record ViewportOptions : Type := {
  cellSize : Z;
  cellMargin : Z;
  renderWidth : Z;
  renderMargin : Z;
  maxVisibleGenerations : Z;
  colors : Colors
}.

Record t : Type := {
  canvas : option Dom.Canvas;
  ctx : option Dom.Context2D;
  dpr : Z;
  options : option ViewportOptions
}.

Definition new : t :=
  {| canvas := None; ctx := None; dpr := 1; options := None |}.

(** [canvas.getContext('2d', ...)]: the context the canvas already has,
    [null] on a canvas that has a WebGL2 context, else a new context if
    the browser gives one. *)
Definition getContext_2d (c : Dom.Canvas) : option Dom.Context2D :=
  match Dom.mode c with
  | Dom.Has2D context => Some context
  | Dom.HasWebGL2 _ => None
  | Dom.NoContext =>
      if Dom.context2d c
      then Some {| Dom.imageSmoothingEnabled := true;
                   Dom.fillStyle := "#000000";
                   Dom.painted := [] |}
      else None
  end.

(** [initialize(canvas)]; [devicePixelRatio] is the global of that name. *)
Definition initialize (devicePixelRatio : Z) (c : Dom.Canvas) : M t unit :=
  do _ <- modify (fun r =>
    {| canvas := Some c; ctx := ctx r; dpr := dpr r; options := options r |});
  do _ <- modify (fun r =>
    {| canvas := canvas r; ctx := ctx r;
       dpr := if devicePixelRatio =? 0 then 1 else devicePixelRatio;
       options := options r |});
  do _ <- modify (fun r =>
    {| canvas := canvas r; ctx := getContext_2d c; dpr := dpr r;
       options := options r |});
  do r <- get;
  match ctx r with
  | None => throw No2DContext
  | Some context =>
      modify (fun r =>
        {| canvas := canvas r;
           ctx := Some {| Dom.imageSmoothingEnabled := false;
                          Dom.fillStyle := Dom.fillStyle context;
                          Dom.painted := Dom.painted context |};
           dpr := dpr r; options := options r |})
  end.

Definition updateViewport (o : ViewportOptions) : M t unit :=
  modify (fun r =>
    {| canvas := canvas r; ctx := ctx r; dpr := dpr r; options := Some o |}).

(** The cells one row paints: [genCells.forEach((cell, x) => if (cell)
    fillCell(...))], as (cell index, row) positions in paint order. *)
Definition row_cells (row : nat) (genCells : list jsbool)
    (acc : list (nat * nat)) : list (nat * nat) :=
  forEach genCells
    (fun acc cell x => if truthy cell then acc ++ [(x, row)] else acc) acc.

(** The positions [render] paints: the rows of
    [previousGenerations.slice(-maxVisibleGenerations)], then the current
    generation in the row below them. *)
Definition drawnCells (state : CellState) (maxGenerations : Z)
    : list (nat * nat) :=
  let visibleGenerations :=
    slice_from (- maxGenerations) (previousGenerations state) in
  let acc :=
    forEach visibleGenerations
      (fun acc genCells index => row_cells index genCells acc) [] in
  row_cells (length visibleGenerations) (cells state) acc.

Definition fillCell (o : ViewportOptions) (xy : nat * nat) : Dom.Paint :=
  Dom.FillCell (primary (colors o))
    (renderMargin o + Z.of_nat (fst xy) * (cellSize o + cellMargin o))
    (Z.of_nat (snd xy) * (cellSize o + cellMargin o))
    (cellSize o - 1).

Definition render (state : CellState) : M t unit :=
  do r <- get;
  match ctx r, canvas r, options r with
  | Some context, Some c, Some o =>
      let paints :=
        Dom.FillBackground (background (colors o))
          (Dom.width c) (Dom.height c)
        :: (fillCell o <$> drawnCells state (maxVisibleGenerations o)) in
      modify (fun r =>
        {| canvas := canvas r;
           ctx := Some {| Dom.imageSmoothingEnabled :=
                            Dom.imageSmoothingEnabled context;
                          Dom.fillStyle := primary (colors o);
                          Dom.painted := Dom.painted context ++ paints |};
           dpr := dpr r; options := options r |})
  | _, _, _ => ret tt
  end.

Definition dispose : M t unit :=
  modify (fun r =>
    {| canvas := None; ctx := None; dpr := dpr r; options := options r |}).

End Canvas2DRenderer.

(** ** The WebGL renderers

    [WebGLRenderer] and [WebGLComputeRenderer] declare the same fields
    ([rule] only in the latter); one record serves both. *)

Module GLRenderer.

Import GL.

Record Viewport : Type := {
  vp_width : Z;
  vp_height : Z;
  vp_cellSize : Z;
  vp_cellMargin : Z;
  vp_renderMargin : Z;
  vp_maxVisibleGenerations : Z
}.

Record CellState : Type := {
  cells : list jsbool;
  previousGenerations : list (list jsbool);
  state_generation : Z;
  state_rule : Z;
  viewport : Viewport
}.

Record t : Type := {
  gl : option Context;
  displayProgram : option handle;
  computeProgram : option handle;
  quadBuffer : option handle;
  textures : list (option handle);
  framebuffers : list (option handle);
  currentTexture : Z;
  textureWidth : num;
  textureHeight : num;
  generation : Z;
  rule : Z
}.

Definition set_gl (x : option Context) (r : t) : t :=
  {| gl := x; displayProgram := displayProgram r;
     computeProgram := computeProgram r; quadBuffer := quadBuffer r;
     textures := textures r; framebuffers := framebuffers r;
     currentTexture := currentTexture r; textureWidth := textureWidth r;
     textureHeight := textureHeight r; generation := generation r;
     rule := rule r |}.

Definition set_displayProgram (x : option handle) (r : t) : t :=
  {| gl := gl r; displayProgram := x;
     computeProgram := computeProgram r; quadBuffer := quadBuffer r;
     textures := textures r; framebuffers := framebuffers r;
     currentTexture := currentTexture r; textureWidth := textureWidth r;
     textureHeight := textureHeight r; generation := generation r;
     rule := rule r |}.

Definition set_computeProgram (x : option handle) (r : t) : t :=
  {| gl := gl r; displayProgram := displayProgram r;
     computeProgram := x; quadBuffer := quadBuffer r;
     textures := textures r; framebuffers := framebuffers r;
     currentTexture := currentTexture r; textureWidth := textureWidth r;
     textureHeight := textureHeight r; generation := generation r;
     rule := rule r |}.

Definition set_quadBuffer (x : option handle) (r : t) : t :=
  {| gl := gl r; displayProgram := displayProgram r;
     computeProgram := computeProgram r; quadBuffer := x;
     textures := textures r; framebuffers := framebuffers r;
     currentTexture := currentTexture r; textureWidth := textureWidth r;
     textureHeight := textureHeight r; generation := generation r;
     rule := rule r |}.

Definition set_textures (x : list (option handle)) (r : t) : t :=
  {| gl := gl r; displayProgram := displayProgram r;
     computeProgram := computeProgram r; quadBuffer := quadBuffer r;
     textures := x; framebuffers := framebuffers r;
     currentTexture := currentTexture r; textureWidth := textureWidth r;
     textureHeight := textureHeight r; generation := generation r;
     rule := rule r |}.

Definition set_framebuffers (x : list (option handle)) (r : t) : t :=
  {| gl := gl r; displayProgram := displayProgram r;
     computeProgram := computeProgram r; quadBuffer := quadBuffer r;
     textures := textures r; framebuffers := x;
     currentTexture := currentTexture r; textureWidth := textureWidth r;
     textureHeight := textureHeight r; generation := generation r;
     rule := rule r |}.

Definition set_currentTexture (x : Z) (r : t) : t :=
  {| gl := gl r; displayProgram := displayProgram r;
     computeProgram := computeProgram r; quadBuffer := quadBuffer r;
     textures := textures r; framebuffers := framebuffers r;
     currentTexture := x; textureWidth := textureWidth r;
     textureHeight := textureHeight r; generation := generation r;
     rule := rule r |}.

Definition set_textureSize (w h : num) (r : t) : t :=
  {| gl := gl r; displayProgram := displayProgram r;
     computeProgram := computeProgram r; quadBuffer := quadBuffer r;
     textures := textures r; framebuffers := framebuffers r;
     currentTexture := currentTexture r; textureWidth := w;
     textureHeight := h; generation := generation r;
     rule := rule r |}.

Definition set_generation (x : Z) (r : t) : t :=
  {| gl := gl r; displayProgram := displayProgram r;
     computeProgram := computeProgram r; quadBuffer := quadBuffer r;
     textures := textures r; framebuffers := framebuffers r;
     currentTexture := currentTexture r; textureWidth := textureWidth r;
     textureHeight := textureHeight r; generation := x;
     rule := rule r |}.

Definition set_rule (x : Z) (r : t) : t :=
  {| gl := gl r; displayProgram := displayProgram r;
     computeProgram := computeProgram r; quadBuffer := quadBuffer r;
     textures := textures r; framebuffers := framebuffers r;
     currentTexture := currentTexture r; textureWidth := textureWidth r;
     textureHeight := textureHeight r; generation := generation r;
     rule := x |}.

(** A call [gl.f(...)] through the context the renderer holds; on a
    missing context it is a call on [null]. *)
Definition on_gl {A : Type} (m : M Context A) : M t A :=
  fun r => match gl r with
           | Some c => let (c', o) := m c in (set_gl (Some c') r, o)
           | None => (r, Throws TypeError)
           end.

Definition call (f : Context -> Context) : M t unit :=
  on_gl (modify f).

Definition call_create : M t (option handle) :=
  on_gl (fun c => let (c', h) := create c in (c', Returns h)).

(** [this.textures[k]] and [this.framebuffers[k]]. *)
Definition element (a : list (option handle)) (k : Z) : option handle :=
  mjoin (at_index a k).

(** [if (h) gl.delete...(h)]. *)
Definition delete_if (h : option handle) : M t unit :=
  match h with
  | Some x => call (delete x)
  | None => ret tt
  end.

Fixpoint delete_each (hs : list (option handle)) : M t unit :=
  match hs with
  | [] => ret tt
  | h :: rest => do _ <- delete_if h; delete_each rest
  end.

End GLRenderer.

(** *** WebGLComputeRenderer *)

Module WebGLComputeRenderer.

Import GL GLRenderer.

Definition new : t :=
  {| gl := None; displayProgram := None; computeProgram := None;
     quadBuffer := None; textures := []; framebuffers := [];
     currentTexture := 0; textureWidth := Fin 1; textureHeight := Fin 1;
     generation := 0; rule := 0 |}.

(** One round of the loop of [initializeTextures]. *)
Definition initializeTexture (i : nat) : M t unit :=
  do r <- get;
  match element (textures r) (Z.of_nat i) with
  | None => ret tt
  | Some texture =>
      do _ <- call (bindTexture (Some texture));
      call (texImage2D 1 1 1 (Some [0]))
  end.

Definition initializeTextures : M t unit :=
  do r <- get;
  match gl r with
  | None => ret tt
  | Some _ =>
      do t0 <- call_create;
      do t1 <- call_create;
      do _ <- modify (set_textures [t0; t1]);
      do _ <- initializeTexture 0;
      initializeTexture 1
  end.

(** One round of the loop that creates the ping-pong framebuffers. *)
Definition createFramebuffer (i : nat) : M t unit :=
  do fb <- call_create;
  do _ <- call (bindFramebuffer fb);
  do r <- get;
  do _ <- call (framebufferTexture2D (element (textures r) (Z.of_nat i)));
  modify (fun r => set_framebuffers (assign (framebuffers r) i fb) r).

Definition initialize (canvas : Dom.Canvas) : M t unit :=
  match Dom.getContext_webgl2 canvas with
  | None => throw WebGL2NotSupported
  | Some context =>
      do _ <- modify (set_gl (Some context));
      do vertexShader <- on_gl (createShader VertexSource);
      do displayFragShader <- on_gl (createShader DisplaySource);
      do computeFragShader <- on_gl (createShader ComputeSource);
      do display <- on_gl (createProgram DisplaySource);
      do _ <- modify (set_displayProgram (Some display));
      do compute <- on_gl (createProgram ComputeSource);
      do _ <- modify (set_computeProgram (Some compute));
      do _ <- call (delete vertexShader);
      do _ <- call (delete displayFragShader);
      do _ <- call (delete computeFragShader);
      do buffer <- call_create;
      do _ <- modify (set_quadBuffer buffer);
      do _ <- initializeTextures;
      do _ <- createFramebuffer 0;
      createFramebuffer 1
  end.

(** The byte array [updateTexture] fills: every live cell [x] of row [y]
    sets [data[y * texWidth + x] = 255]; a write past the end of a typed
    array is dropped. *)
Definition encode_row (texWidth : Z) (y : nat) (genCells : list jsbool)
    (data : list Z) : list Z :=
  forEach genCells
    (fun data cell x =>
       if truthy cell
       then write data (Z.of_nat y * texWidth + Z.of_nat x) 255
       else data)
    data.

Definition encode_rows (texWidth : Z) (rows : list (list jsbool))
    (data : list Z) : list Z :=
  forEach rows (fun data genCells i => encode_row texWidth i genCells data)
    data.

(** [texWidth], [texHeight] and [data] of [updateTexture]. *)
Definition texture_size (state : CellState) : num * num :=
  (pow2ceil (Z.of_nat (length (cells state))),
   pow2ceil (vp_maxVisibleGenerations (viewport state))).

Definition texture_data (state : CellState) : outcome (list Z) :=
  let '(texWidth, texHeight) := texture_size state in
  let height := vp_maxVisibleGenerations (viewport state) in
  data <- new_Uint8Array (mul_int texHeight (to_glsizei texWidth)) ;;
  let allGenerations := previousGenerations state ++ [cells state] in
  let visibleGenerations := slice_from (- height) allGenerations in
  Returns (encode_rows (to_glsizei texWidth) visibleGenerations data).

(** One round of the loop that resizes both textures. *)
Definition resizeTexture (i : nat) (w h : num) : M t unit :=
  do r <- get;
  do _ <- call (bindTexture (element (textures r) (Z.of_nat i)));
  call (texImage2D 1 (to_glsizei w) (to_glsizei h) None).

Definition updateTexture (state : CellState) : M t unit :=
  do r <- get;
  match gl r with
  | None => ret tt
  | Some _ =>
      let '(texWidth, texHeight) := texture_size state in
      match texture_data state with
      | Throws e => throw e
      | Returns data =>
          do _ <- (if negb (num_eqb texWidth (textureWidth r))
                      || negb (num_eqb texHeight (textureHeight r))
                   then
                     do _ <- modify (set_textureSize texWidth texHeight);
                     do _ <- resizeTexture 0 texWidth texHeight;
                     resizeTexture 1 texWidth texHeight
                   else ret tt);
          do r <- get;
          do _ <- call (bindTexture (element (textures r) 0));
          do _ <- call (texImage2D 1 (to_glsizei texWidth)
                          (to_glsizei texHeight) (Some data));
          do _ <- modify (set_currentTexture 0);
          modify (set_generation (state_generation state))
      end
  end.

Definition computeNextState : M t unit :=
  do r <- get;
  match gl r, computeProgram r with
  | Some _, Some program =>
      do _ <- call (useProgram (Some program));
      do _ <- call (bindTexture (element (textures r) (currentTexture r)));
      let nextTexture := 1 - currentTexture r in
      do _ <- call (bindFramebuffer (element (framebuffers r) nextTexture));
      do _ <- call drawArrays;
      modify (set_currentTexture nextTexture)
  | _, _ => ret tt
  end.

Definition render (state : CellState) : M t unit :=
  do r <- get;
  match gl r, displayProgram r with
  | Some context, Some program =>
      do _ <- (if negb (canvas_width context =? vp_width (viewport state))
                  || negb (canvas_height context
                           =? vp_height (viewport state))
               then call (set_canvas_size (vp_width (viewport state))
                            (vp_height (viewport state)))
               else ret tt);
      do _ <- (if negb (state_generation state =? generation r)
               then
                 do _ <- modify (set_rule (state_rule state));
                 updateTexture state
               else ret tt);
      do _ <- call (useProgram (Some program));
      do r <- get;
      do _ <- call (bindTexture (element (textures r) (currentTexture r)));
      do _ <- call (bindFramebuffer None);
      do _ <- call drawArrays;
      computeNextState
  | _, _ => ret tt
  end.

Definition cleanup : M t unit :=
  do r <- get;
  match gl r with
  | None => ret tt
  | Some _ =>
      do _ <- delete_if (displayProgram r);
      do _ <- delete_if (computeProgram r);
      do _ <- delete_if (quadBuffer r);
      do _ <- delete_each (textures r);
      delete_each (framebuffers r)
  end.

Definition dispose : M t unit := cleanup.

(** The display shader from the cell address on: background outside the
    texture's width or at and beyond [u_maxGenerations] rows; otherwise
    the texel is fetched and is live when its red channel exceeds 0.5. *)
Definition texel (width : Z) (data : list Z) (x y : Z) : Z :=
  default 0 (at_index data (y * width + x)).

Definition display_live (width : Z) (data : list Z) (maxGenerations : Z)
    (cellIndex genOffset : Z) : bool :=
  if (cellIndex <? 0) || (width <=? cellIndex)
     || (maxGenerations <=? genOffset)
  then false
  else 127 <? texel width data cellIndex genOffset.

(** [texelFetch(u_state, ivec2(x, y), 0).r > 0.5] on a byte texture: the
    red channel is the byte over 255. *)
Definition texel_live (width : Z) (data : list Z) (x y : Z) : bool :=
  127 <? texel width data x y.

(** The compute shader at the fragment [pos] of the target texture, as
    the byte it stores: above the bottom row the texel of the row below
    is copied; in the bottom row the rule is applied to row 0 of the
    source, the neighbours wrapping at the texture's width, and
    [(u_rule >> pattern) & 1] is stored as 0 or 255.  Both branches write
    an alpha of 1, so the blending that [initialize] enables stores the
    colour as written. *)
Definition compute_fragment (u_rule : Z) (width : Z) (data : list Z)
    (pos_x pos_y : Z) : Z :=
  if 0 <? pos_y then texel width data pos_x (pos_y - 1)
  else
    let leftIndex := rem (pos_x - 1 + width) width in
    let rightIndex := rem (pos_x + 1) width in
    let left := texel_live width data leftIndex 0 in
    let center := texel_live width data pos_x 0 in
    let right := texel_live width data rightIndex 0 in
    let pattern := (if left then 4 else 0) + (if center then 2 else 0)
                   + (if right then 1 else 0) in
    255 * and32 (shr u_rule pattern) 1.

End WebGLComputeRenderer.

(** *** WebGLRenderer *)

Module WebGLRenderer.

Import GL GLRenderer.

Definition new : t :=
  {| gl := None; displayProgram := None; computeProgram := None;
     quadBuffer := None; textures := [None; None];
     framebuffers := [None; None];
     currentTexture := 0; textureWidth := Fin 0; textureHeight := Fin 0;
     generation := 0; rule := 0 |}.

(** Modelled from the spec: [createShader] and [createProgram] of
    utils/webgl, which is not among the sources.  A shader that does not
    compile and a program that does not link are errors fatal to the
    renderer (ShaderCompileError, ProgramLinkError), as in the helpers of
    the same names that the compute renderer defines for itself. *)
Definition createShader (source : ShaderSource) : M Context handle :=
  GL.createShader source.

Definition createProgram (fragment : ShaderSource) : M Context handle :=
  GL.createProgram fragment.

(** One round of the loop that creates a texture and its framebuffer. *)
Definition createPair (i : nat) : M t unit :=
  do texture <- call_create;
  do _ <- call (bindTexture texture);
  do _ <- call (texImage2D 4 1 1 None);
  do _ <- modify (fun r => set_textures (assign (textures r) i texture) r);
  do fb <- call_create;
  do _ <- call (bindFramebuffer fb);
  do _ <- call (framebufferTexture2D texture);
  modify (fun r => set_framebuffers (assign (framebuffers r) i fb) r).

Definition initialize (canvas : Dom.Canvas) : M t unit :=
  match Dom.getContext_webgl2 canvas with
  | None => throw WebGL2NotSupported
  | Some context =>
      do _ <- modify (set_gl (Some context));
      do vertexShader <- on_gl (createShader VertexSource);
      do displayFragShader <- on_gl (createShader DisplaySource);
      do computeFragShader <- on_gl (createShader ComputeSource);
      do display <- on_gl (createProgram DisplaySource);
      do _ <- modify (set_displayProgram (Some display));
      do compute <- on_gl (createProgram ComputeSource);
      do _ <- modify (set_computeProgram (Some compute));
      do _ <- call (delete vertexShader);
      do _ <- call (delete displayFragShader);
      do _ <- call (delete computeFragShader);
      do buffer <- call_create;
      do _ <- modify (set_quadBuffer buffer);
      do _ <- createPair 0;
      createPair 1
  end.

Definition dispose : M t unit :=
  do r <- get;
  match gl r with
  | None => ret tt
  | Some _ =>
      do _ <- delete_if (displayProgram r);
      do _ <- delete_if (computeProgram r);
      do _ <- delete_if (quadBuffer r);
      do _ <- delete_each (textures r);
      do _ <- delete_each (framebuffers r);
      do _ <- modify (set_displayProgram None);
      do _ <- modify (set_computeProgram None);
      do _ <- modify (set_quadBuffer None);
      do _ <- modify (set_textures [None; None]);
      do _ <- modify (set_framebuffers [None; None]);
      modify (set_gl None)
  end.

(** The RGBA bytes of one row: a live cell [x < width] writes the cell
    colour at [(y * width + x) * 4]. *)
Definition encode_row (width : Z) (y : nat) (genCells : list jsbool)
    (data : list Z) : list Z :=
  forEach genCells
    (fun data cell x =>
       if (Z.of_nat x <? width) && truthy cell
       then
         let idx := (Z.of_nat y * width + Z.of_nat x) * 4 in
         write (write (write (write data idx 74) (idx + 1) 156)
                  (idx + 2) 255) (idx + 3) 255
       else data)
    data.

Definition encode_rows (width : Z) (rows : list (list jsbool))
    (data : list Z) : list Z :=
  forEach rows (fun data genCells i => encode_row width i genCells data)
    data.

Definition resizeTexture (i : nat) (w h : Z) : M t unit :=
  do r <- get;
  do _ <- call (bindTexture (element (textures r) (Z.of_nat i)));
  call (texImage2D 4 w h None).

Definition updateTexture (state : CellState) : M t unit :=
  do r <- get;
  match gl r with
  | None => ret tt
  | Some _ =>
      let maxVisibleGenerations :=
        vp_maxVisibleGenerations (viewport state) in
      let width := Z.of_nat (length (cells state)) in
      let height := maxVisibleGenerations + 1 in
      do _ <- (if negb (num_eqb (Fin width) (textureWidth r))
                  || negb (num_eqb (Fin height) (textureHeight r))
               then
                 do _ <- modify (set_textureSize (Fin width) (Fin height));
                 do _ <- resizeTexture 0 width height;
                 resizeTexture 1 width height
               else ret tt);
      match new_Uint8Array (Fin (width * height * 4)) with
      | Throws e => throw e
      | Returns data =>
          let allGenerations := previousGenerations state ++ [cells state] in
          let startIdx :=
            Z.max 0 (Z.of_nat (length allGenerations)
                     - maxVisibleGenerations) in
          let visibleGenerations := slice_from startIdx allGenerations in
          let data := encode_rows width visibleGenerations data in
          do r <- get;
          do _ <- call (bindTexture (element (textures r) 0));
          do _ <- call (texSubImage2D width height data);
          do _ <- modify (set_currentTexture 0);
          modify (set_generation (state_generation state))
      end
  end.

Definition computeNextState : M t unit :=
  do r <- get;
  match gl r, computeProgram r with
  | Some _, Some program =>
      do _ <- call (useProgram (Some program));
      do _ <- call (bindTexture (element (textures r) (currentTexture r)));
      let nextTexture := 1 - currentTexture r in
      do _ <- call (bindFramebuffer (element (framebuffers r) nextTexture));
      do _ <- call drawArrays;
      modify (set_currentTexture nextTexture)
  | _, _ => ret tt
  end.

Definition render (state : CellState) : M t unit :=
  do r <- get;
  match gl r, displayProgram r with
  | Some _, Some program =>
      do _ <- (if negb (state_generation state =? generation r)
               then updateTexture state
               else ret tt);
      do _ <- call (useProgram (Some program));
      do r <- get;
      do _ <- call (bindTexture (element (textures r) (currentTexture r)));
      do _ <- call (bindFramebuffer None);
      do _ <- call drawArrays;
      computeNextState
  | _, _ => ret tt
  end.

End WebGLRenderer.

(** ** RendererFactory *)

Module RendererFactory.

Inductive BaseRenderer : Type :=
| Canvas2D (r : Canvas2DRenderer.t)
| WebGL (r : GLRenderer.t)
| WebGLCompute (r : GLRenderer.t).

(** What [document.createElement('canvas').getContext('webgl2')] does
    when the probe runs. *)
Inductive Probe : Type := ProbeContext | ProbeNull | ProbeThrows.

Inductive Event : Type :=
| ConstructedGPU
| ConstructedCanvas2D
| Warned (e : error).

(** The module state: the cache of the probe, the browser's answer to
    the probe, the device pixel ratio, and a trace of the constructor
    calls and warnings. *)
Record World : Type := {
  webGLSupportCache : option bool;
  probe : Probe;
  devicePixelRatio : Z;
  trace : list Event
}.

Definition set_cache (b : bool) (w : World) : World :=
  {| webGLSupportCache := Some b; probe := probe w;
     devicePixelRatio := devicePixelRatio w; trace := trace w |}.

Definition emit (e : Event) : M World unit :=
  modify (fun w =>
    {| webGLSupportCache := webGLSupportCache w; probe := probe w;
       devicePixelRatio := devicePixelRatio w;
       trace := trace w ++ [e] |}).

(** [isWebGL2Supported]: the cached answer, or the probe inside
    [try]/[catch]; the [finally] block swallows its own errors. *)
Definition isWebGL2Supported : M World bool :=
  do w <- get;
  match webGLSupportCache w with
  | Some b => ret b
  | None =>
      try_catch
        (match probe w with
         | ProbeThrows => throw TypeError
         | ProbeContext => do _ <- modify (set_cache true); ret true
         | ProbeNull => do _ <- modify (set_cache false); ret false
         end)
        (fun _ => do _ <- modify (set_cache false); ret false)
  end.

(** [(preferredType === 'webgl' || !preferredType) && isWebGL2Supported()]:
    the probe only runs when the left operand holds. *)
Definition wants_gpu (preferredType : option RendererType) : bool :=
  match preferredType with
  | Some canvas2d => false
  | Some webgl | None => true
  end.

Definition gpu_selected (preferredType : option RendererType) : M World bool :=
  if wants_gpu preferredType then isWebGL2Supported else ret false.

(** Running a method of a freshly made object inside the factory. *)
Definition invoke {R : Type} (m : M R unit) (r : R) : M World R :=
  fun w => match m r with
           | (r', Returns _) => (w, Returns r')
           | (_, Throws e) => (w, Throws e)
           end.


(** [createRenderer(preferredType, canvas)], the factory that also
    initializes the renderer when a canvas is given. *)
Definition createCanvas2D (canvas : option Dom.Canvas)
    : M World BaseRenderer :=
  do _ <- emit ConstructedCanvas2D;
  do w <- get;
  match canvas with
  | Some c =>
      do r <- invoke (Canvas2DRenderer.initialize (devicePixelRatio w) c)
                Canvas2DRenderer.new;
      ret (Canvas2D r)
  | None => ret (Canvas2D Canvas2DRenderer.new)
  end.

Definition createGPU (canvas : option Dom.Canvas) : M World BaseRenderer :=
  do _ <- emit ConstructedGPU;
  match canvas with
  | Some c =>
      do r <- invoke (WebGLComputeRenderer.initialize c)
                WebGLComputeRenderer.new;
      ret (WebGLCompute r)
  | None => ret (WebGLCompute WebGLComputeRenderer.new)
  end.

(** The canvas is one object: after a GPU [initialize] that obtained a
    context the canvas is in WebGL2 mode, holding that context as
    [initialize], which keeps it in the renderer, left it. *)
Definition canvas_after_gpu (c : Dom.Canvas) : Dom.Canvas :=
  match Dom.getContext_webgl2 c with
  | Some context =>
      let renderer :=
        fst (WebGLComputeRenderer.initialize c WebGLComputeRenderer.new) in
      Dom.with_mode
        (Dom.HasWebGL2 (default context (GLRenderer.gl renderer))) c
  | None => c
  end.

Definition createRenderer (preferredType : option RendererType)
    (canvas : option Dom.Canvas) : M World BaseRenderer :=
  do selected <- gpu_selected preferredType;
  if selected then
    try_catch (createGPU canvas)
      (fun e =>
         do _ <- emit (Warned e);
         createCanvas2D (canvas_after_gpu <$> canvas))
  else createCanvas2D canvas.

End RendererFactory.

(** ** Live cells, as both renderers are expected to show them *)

Module LiveCells.

(** Row [y] of [rows] has a truthy cell at index [x]. *)
Definition live_at (rows : list (list jsbool)) (y x : nat) : Prop :=
  exists row c, rows !! y = Some row /\ row !! x = Some c /\ truthy c = true.

End LiveCells.

(** ** What the factory is expected to decide *)

Module FactorySpec.

Import RendererFactory.

(** The capability the probe reports: the cached answer when there is
    one, else whether the probe obtains a context. *)
Definition supported (w : World) : bool :=
  match webGLSupportCache w with
  | Some b => b
  | None => match probe w with
            | ProbeContext => true
            | ProbeNull | ProbeThrows => false
            end
  end.

(** The GPU backend is chosen: preferred or unspecified, and supported. *)
Definition chooses_gpu (preferredType : option RendererType) (w : World)
    : bool :=
  wants_gpu preferredType && supported w.

End FactorySpec.

(** ** The invariant of the texture pair *)

Module PingPong.

Import GL GLRenderer.

(** Two live textures, each the colour attachment of its own live
    framebuffer, a live compute program, and a read index of 0 or 1. *)
Definition ready (r : t) : Prop :=
  exists (c : Context) (program t0 t1 f0 f1 : handle),
    gl r = Some c /\
    computeProgram r = Some program /\
    textures r = [Some t0; Some t1] /\
    framebuffers r = [Some f0; Some f1] /\
    t0 <> t1 /\
    assoc f0 (attachments c) = Some (Some t0) /\
    assoc f1 (attachments c) = Some (Some t1) /\
    is_deleted program c = false /\
    is_deleted t0 c = false /\ is_deleted t1 c = false /\
    is_deleted f0 c = false /\ is_deleted f1 c = false /\
    (currentTexture r = 0 \/ currentTexture r = 1).

(** What one compute pass must look like, from the renderer before it
    to the renderer after it. *)
Definition alternates (r r' : t) : Prop :=
  exists (c c' : Context) (d : Draw),
    gl r = Some c /\ gl r' = Some c' /\
    draws c' = draws c ++ [d] /\
    Some (draw_program d) = computeProgram r /\
    draw_source d = element (textures r) (currentTexture r) /\
    draw_target d = element (framebuffers r) (1 - currentTexture r) /\
    draw_target_texture d = element (textures r) (1 - currentTexture r) /\
    is_Some (draw_source d) /\
    draw_source d <> draw_target_texture d /\
    currentTexture r' = 1 - currentTexture r /\
    element (textures r') (currentTexture r') = draw_target_texture d.

(** No draw issued so far sampled the texture it wrote. *)
Definition draws_apart (r : t) : Prop :=
  forall c d, gl r = Some c -> In d (draws c) ->
              draw_source d <> draw_target_texture d.

Definition sound (r : t) : Prop := ready r /\ draws_apart r.

(** A method keeps [sound], whether it returns or throws. *)
Definition keeps_sound {A : Type} (m : M t A) : Prop :=
  forall r, sound r -> sound (fst (m r)).

(** A WebGL call that touches neither attachments, deletions nor the
    draw log. *)
Definition quiet (f : Context -> Context) : Prop :=
  forall c, attachments (f c) = attachments c
            /\ deleted (f c) = deleted c
            /\ draws (f c) = draws c.

(** A frame loop: [render] on each snapshot in turn, until one throws. *)
Fixpoint render_all (render : CellState -> M t unit)
    (states : list CellState) : M t unit :=
  match states with
  | [] => ret tt
  | state :: rest => do _ <- render state; render_all render rest
  end.

End PingPong.

(** ** Concrete stores used by the examples *)

(** A store for the examples: [cells], history, table and history bound
    are given, the other fields are those of a fresh store. *)
Definition example_store (c : list jsbool) (p : list (list jsbool))
    (t : list jsbool) (m : num) : UseStore.Store :=
  {| UseStore.cells := c; UseStore.previousGenerations := p;
     UseStore.rule := 30; UseStore.ruleToggles := t;
     UseStore.isPlaying := false; UseStore.generation := 0;
     UseStore.speed := 10; UseStore.lastInitPattern := single;
     UseStore.cellSize := 4; UseStore.cellMargin := 0;
     UseStore.availableWidth := 0; UseStore.maxCells := Fin 0;
     UseStore.renderWidth := Fin 0; UseStore.renderMargin := Fin 0;
     UseStore.maxVisibleGenerations := m;
     UseStore.activeRenderer := canvas2d |}.

(** A single store with no cells yet and room for [n]. *)
Definition example_sized_store (n : num) : UseStore.Store :=
  {| UseStore.cells := []; UseStore.previousGenerations := [];
     UseStore.rule := 30; UseStore.ruleToggles := presetToggles 30;
     UseStore.isPlaying := false; UseStore.generation := 0;
     UseStore.speed := 10; UseStore.lastInitPattern := single;
     UseStore.cellSize := 4; UseStore.cellMargin := 0;
     UseStore.availableWidth := 0; UseStore.maxCells := n;
     UseStore.renderWidth := Fin 0; UseStore.renderMargin := Fin 0;
     UseStore.maxVisibleGenerations := Fin 10;
     UseStore.activeRenderer := canvas2d |}.

Definition example_sim_store (c : list jsbool) (p : list (list jsbool))
    (t : list jsbool) : SimulationStore.Store :=
  {| SimulationStore.cells := c; SimulationStore.previousGenerations := p;
     SimulationStore.rule := 30; SimulationStore.ruleToggles := t;
     SimulationStore.generation := 0; SimulationStore.isPlaying := false;
     SimulationStore.speed := 10; SimulationStore.lastInitPattern := single;
     SimulationStore.maxCells := Fin 100 |}.

(** A canvas on which every context and every shader is available. *)
Definition good_driver : GL.Driver :=
  {| GL.creates_objects := fun _ => true;
     GL.compiles := fun _ => true;
     GL.links := fun _ => true |}.

Definition good_canvas : Dom.Canvas :=
  {| Dom.width := 8; Dom.height := 8; Dom.context2d := true;
     Dom.webgl2 := Some good_driver; Dom.mode := Dom.NoContext |}.

(** The renderers after a successful [initialize] on that canvas. *)
Definition initialized_compute : GLRenderer.t :=
  fst (WebGLComputeRenderer.initialize good_canvas WebGLComputeRenderer.new).

Definition initialized_webgl : GLRenderer.t :=
  fst (WebGLRenderer.initialize good_canvas WebGLRenderer.new).

(** A canvas whose compute program does not link. *)
Definition no_compute_canvas : Dom.Canvas :=
  {| Dom.width := 8; Dom.height := 8; Dom.context2d := true;
     Dom.webgl2 :=
       Some {| GL.creates_objects := fun _ => true;
               GL.compiles := fun _ => true;
               GL.links := fun s => match s with
                                    | GL.ComputeSource => false
                                    | _ => true
                                    end |};
     Dom.mode := Dom.NoContext |}.

(** The first generation of rule 30 on three cells, in an 8 by 8 canvas
    with room for four generations. *)
Definition example_state : GLRenderer.CellState :=
  {| GLRenderer.cells := [Some true; Some true; Some true];
     GLRenderer.previousGenerations := [[Some false; Some true; Some false]];
     GLRenderer.state_generation := 1;
     GLRenderer.state_rule := 30;
     GLRenderer.viewport :=
       {| GLRenderer.vp_width := 8; GLRenderer.vp_height := 8;
          GLRenderer.vp_cellSize := 2; GLRenderer.vp_cellMargin := 0;
          GLRenderer.vp_renderMargin := 1;
          GLRenderer.vp_maxVisibleGenerations := 4 |} |}.

(** The next snapshot: rule 30 turns the three live cells off. *)
Definition next_state : GLRenderer.CellState :=
  {| GLRenderer.cells := [Some false; Some false; Some false];
     GLRenderer.previousGenerations :=
       [[Some false; Some true; Some false];
        [Some true; Some true; Some true]];
     GLRenderer.state_generation := 2;
     GLRenderer.state_rule := 30;
     GLRenderer.viewport := GLRenderer.viewport example_state |}.


Definition fresh_world (p : RendererFactory.Probe) : RendererFactory.World :=
  {| RendererFactory.webGLSupportCache := None;
     RendererFactory.probe := p;
     RendererFactory.devicePixelRatio := 1;
     RendererFactory.trace := [] |}.

(** The page after the browser changed its answer to the probe. *)
Definition with_probe (p : RendererFactory.Probe) (w : RendererFactory.World)
    : RendererFactory.World :=
  {| RendererFactory.webGLSupportCache := RendererFactory.webGLSupportCache w;
     RendererFactory.probe := p;
     RendererFactory.devicePixelRatio := RendererFactory.devicePixelRatio w;
     RendererFactory.trace := RendererFactory.trace w |}.


(** A full history: one past generation under a bound of one. *)
Definition full_state : GLRenderer.CellState :=
  {| GLRenderer.cells := [Some false];
     GLRenderer.previousGenerations := [[Some true]];
     GLRenderer.state_generation := 1;
     GLRenderer.state_rule := 0;
     GLRenderer.viewport :=
       {| GLRenderer.vp_width := 8; GLRenderer.vp_height := 8;
          GLRenderer.vp_cellSize := 2; GLRenderer.vp_cellMargin := 0;
          GLRenderer.vp_renderMargin := 1;
          GLRenderer.vp_maxVisibleGenerations := 1 |} |}.

Definition full_state_2d : Canvas2DRenderer.CellState :=
  {| Canvas2DRenderer.cells := GLRenderer.cells full_state;
     Canvas2DRenderer.previousGenerations :=
       GLRenderer.previousGenerations full_state;
     Canvas2DRenderer.generation := GLRenderer.state_generation full_state |}.

(** A full history whose older generations are shorter than the current
    one, as a resize can leave them: two stored generations of one cell
    under a bound of two, and two current cells. *)
Definition ragged_state : GLRenderer.CellState :=
  {| GLRenderer.cells := [Some false; Some true];
     GLRenderer.previousGenerations := [[Some true]; [Some true]];
     GLRenderer.state_generation := 2;
     GLRenderer.state_rule := 30;
     GLRenderer.viewport :=
       {| GLRenderer.vp_width := 8; GLRenderer.vp_height := 8;
          GLRenderer.vp_cellSize := 2; GLRenderer.vp_cellMargin := 0;
          GLRenderer.vp_renderMargin := 1;
          GLRenderer.vp_maxVisibleGenerations := 2 |} |}.

Definition ragged_state_2d : Canvas2DRenderer.CellState :=
  {| Canvas2DRenderer.cells := GLRenderer.cells ragged_state;
     Canvas2DRenderer.previousGenerations :=
       GLRenderer.previousGenerations ragged_state;
     Canvas2DRenderer.generation := GLRenderer.state_generation ragged_state |}.

(** Four cells, a power of two, with one stored generation under a bound
    of four. *)
Definition wide_state : GLRenderer.CellState :=
  {| GLRenderer.cells := [Some true; Some true; Some true; Some false];
     GLRenderer.previousGenerations :=
       [[Some false; Some true; Some false; Some false]];
     GLRenderer.state_generation := 1;
     GLRenderer.state_rule := 30;
     GLRenderer.viewport :=
       {| GLRenderer.vp_width := 8; GLRenderer.vp_height := 8;
          GLRenderer.vp_cellSize := 2; GLRenderer.vp_cellMargin := 0;
          GLRenderer.vp_renderMargin := 0;
          GLRenderer.vp_maxVisibleGenerations := 4 |} |}.

(** Three cells, not a power of two, and no history, under a bound of
    one. *)
Definition edge_state : GLRenderer.CellState :=
  {| GLRenderer.cells := [Some false; Some false; Some true];
     GLRenderer.previousGenerations := [];
     GLRenderer.state_generation := 0;
     GLRenderer.state_rule := 16;
     GLRenderer.viewport :=
       {| GLRenderer.vp_width := 8; GLRenderer.vp_height := 8;
          GLRenderer.vp_cellSize := 2; GLRenderer.vp_cellMargin := 0;
          GLRenderer.vp_renderMargin := 1;
          GLRenderer.vp_maxVisibleGenerations := 1 |} |}.

(** * Properties *)

Section RuleEngineFacts.

Lemma write_length {A} (a : list A) k v : length (write a k v) = length a.
Proof. unfold write. destruct (k <? 0); [done|]. apply length_insert. Qed.

(** The loop [for (i = a; i < a + m; i++) acc[i] = f i] changes exactly
    the indices it visits. *)
Lemma write_loop_lookup {A} (f : nat -> A) (m a : nat) (init : list A) (i : nat) :
  (a + m <= length init)%nat ->
  foldl (fun acc j => write acc (Z.of_nat j) (f j)) init (seq a m) !! i
  = if decide (a <= i < a + m)%nat then Some (f i) else init !! i.
Proof.
  revert a init. induction m as [|m IH]; intros a init Hlen; simpl.
  - case_decide; [lia|done].
  - rewrite IH by (rewrite write_length; lia).
    unfold write. replace (Z.of_nat a <? 0) with false by lia.
    rewrite Nat2Z.id.
    destruct (decide (i = a)) as [->|Hne].
    + rewrite list_lookup_insert_eq by lia.
      repeat case_decide; try lia; done.
    + rewrite list_lookup_insert_ne by done.
      repeat case_decide; try lia; done.
Qed.

Lemma write_loop_length {A} (f : nat -> A) (l : list nat) (init : list A) :
  length (foldl (fun acc j => write acc (Z.of_nat j) (f j)) init l)
  = length init.
Proof.
  revert init. induction l as [|j l IH]; intros init; simpl; [done|].
  by rewrite IH, write_length.
Qed.

Lemma nextCells_length cells t : length (nextCells cells t) = length cells.
Proof.
  unfold nextCells. rewrite write_loop_length. apply length_replicate.
Qed.

Lemma nextCells_lookup cells t (i : nat) :
  (i < length cells)%nat ->
  nextCells cells t !! i = Some (next_cell cells t (Z.of_nat i)).
Proof.
  intros Hi. unfold nextCells.
  rewrite (write_loop_lookup (fun j => next_cell cells t (Z.of_nat j)))
    by (rewrite length_replicate; lia).
  case_decide; [done|lia].
Qed.

Lemma read_bools (g : list bool) (k : Z) (b : bool) :
  0 <= k -> g !! Z.to_nat k = Some b -> read (Some <$> g) k = Some b.
Proof.
  intros Hk Hg. unfold read, at_index.
  replace (k <? 0) with false by lia.
  by rewrite list_lookup_fmap, Hg.
Qed.

Lemma neighbourhood_bools (l c r : bool) :
  neighbourhood (Some l) (Some c) (Some r)
  = 4 * Z.b2z l + 2 * Z.b2z c + Z.b2z r.
Proof. by destruct l, c, r. Qed.

End RuleEngineFacts.

(** ** C1: one step applies the rule table to every wrapped neighbourhood *)

Section StepCorrect.

Variables (g t : list bool).
Hypothesis table8 : length t = 8%nat.

Local Abbreviation N := (Z.of_nat (length g)).
Local Abbreviation next := (nextCells (Some <$> g) (Some <$> t)).

Lemma table_entry (p : Z) :
  0 <= p <= 7 -> exists v, t !! Z.to_nat (7 - p) = Some v.
Proof.
  intros Hp. apply lookup_lt_is_Some_2. lia.
Qed.

Lemma next_entry (i : nat) :
  (i < length g)%nat ->
  exists left center right v : bool,
    g !! Z.to_nat ((Z.of_nat i - 1 + N) mod N) = Some left /\
    g !! i = Some center /\
    g !! Z.to_nat ((Z.of_nat i + 1) mod N) = Some right /\
    t !! Z.to_nat (7 - (4 * Z.b2z left + 2 * Z.b2z center + Z.b2z right))
      = Some v /\
    next !! i = Some (Some v).
Proof.
  intros Hi.
  set (n := Z.of_nat (length g)).
  assert (Hn : 0 < n) by lia.
  assert (Hl : 0 <= (Z.of_nat i - 1 + n) mod n < n) by (apply Z.mod_pos_bound; lia).
  assert (Hr : 0 <= (Z.of_nat i + 1) mod n < n) by (apply Z.mod_pos_bound; lia).
  destruct (lookup_lt_is_Some_2 g (Z.to_nat ((Z.of_nat i - 1 + n) mod n)))
    as [left Hleft]; [lia|].
  destruct (lookup_lt_is_Some_2 g i) as [center Hcenter]; [lia|].
  destruct (lookup_lt_is_Some_2 g (Z.to_nat ((Z.of_nat i + 1) mod n)))
    as [right Hright]; [lia|].
  destruct (table_entry (4 * Z.b2z left + 2 * Z.b2z center + Z.b2z right))
    as [v Hv]; [destruct left, center, right; simpl; lia|].
  exists left, center, right, v. repeat split; try done.
  rewrite nextCells_lookup by (rewrite length_fmap; lia).
  f_equal. unfold next_cell, rem. rewrite length_fmap. fold n.
  rewrite !Z.rem_mod_nonneg by lia.
  rewrite (read_bools g _ left), (read_bools g _ center),
    (read_bools g _ right); try lia; try done.
  - rewrite neighbourhood_bools. apply read_bools; [|done].
    destruct left, center, right; simpl; lia.
  - by rewrite Nat2Z.id.
Qed.

End StepCorrect.

(** C1.  For a generation [g] of N booleans and a rule table [t] of 8
    booleans, [step] (of the single store and of the simulation store)
    returns a store whose cells have length N and whose entry [i] is
    [t[7 - pattern]] with [pattern = 4*left + 2*center + right],
    [left = g[(i-1+N) mod N]], [center = g[i]], [right = g[(i+1) mod N]];
    for N = 0 the new generation is empty, and for N = 1 the three
    neighbours are the single cell. *)
Theorem step_applies_rule_table (g t : list bool) :
  length t = 8%nat ->
  let N := Z.of_nat (length g) in
  let next := nextCells (Some <$> g) (Some <$> t) in
  (forall s, UseStore.cells s = Some <$> g ->
             UseStore.ruleToggles s = Some <$> t ->
             exists s', UseStore.step s = Returns s' /\ UseStore.cells s' = next) /\
  (forall s, SimulationStore.cells s = Some <$> g ->
             SimulationStore.ruleToggles s = Some <$> t ->
             exists s', SimulationStore.step s = Returns s' /\
                        SimulationStore.cells s' = next) /\
  length next = length g /\
  (forall i : nat, (i < length g)%nat ->
     exists left center right v : bool,
       g !! Z.to_nat ((Z.of_nat i - 1 + N) mod N) = Some left /\
       g !! i = Some center /\
       g !! Z.to_nat ((Z.of_nat i + 1) mod N) = Some right /\
       t !! Z.to_nat (7 - (4 * Z.b2z left + 2 * Z.b2z center + Z.b2z right))
         = Some v /\
       next !! i = Some (Some v)) /\
  (g = [] -> next = []) /\
  (forall c : bool, g = [c] ->
     exists v : bool, t !! Z.to_nat (7 - 7 * Z.b2z c) = Some v /\
                      next = [Some v]).
Proof.
  intros Ht N next. repeat split.
  - intros s Hc Hr. eexists. split; [reflexivity|]. simpl. by rewrite Hc, Hr.
  - intros s Hc Hr. eexists. split; [reflexivity|]. simpl. by rewrite Hc, Hr.
  - subst next. by rewrite nextCells_length, length_fmap.
  - intros i Hi. by apply next_entry.
  - intros ->. reflexivity.
  - intros c ->.
    destruct (next_entry [c] t Ht 0%nat) as (l & m & r & v & Hl & Hm & Hr & Hv & Hn);
      [simpl; lia|].
    simpl in Hl, Hm, Hr. change (Z.to_nat ((0 - 1 + 1) mod 1)) with 0%nat in Hl.
    change (Z.to_nat ((0 + 1) mod 1)) with 0%nat in Hr.
    simpl in Hl, Hr. simplify_eq.
    exists v. split.
    + rewrite <- Hv. f_equal. f_equal. lia.
    + subst next. apply list_eq. intros [|k].
      * exact Hn.
      * pose proof (nextCells_length (Some <$> [m]) (Some <$> t)) as Hlen.
        rewrite length_fmap in Hlen. change (length [m]) with 1%nat in Hlen.
        rewrite lookup_ge_None_2 by lia. reflexivity.
Qed.

(** The hypothesis of C1 holds for rule 30 on a three-cell generation. *)
Lemma step_applies_rule_table_witness :
  length (nextCells (Some <$> [false; true; false])
            (Some <$> [false; false; false; true; true; true; true; false]))
  = 3%nat.
Proof.
  pose proof (step_applies_rule_table [false; true; false]
                [false; false; false; true; true; true; true; false]
                eq_refl) as H.
  simpl in H. destruct H as (_ & _ & H & _). exact H.
Defined.

(** ** C2: rule tables derived from a rule number *)

Lemma preset_tables_checked :
  forallb (fun n => table_reads_bits (presetToggles (Z.of_nat n)) (Z.of_nat n)
                    && table_reads_bits (presetToggles_mask (Z.of_nat n))
                         (Z.of_nat n))
    (seq 0 256) = true.
Proof. vm_compute. reflexivity. Qed.

(** Both versions of [setPresetRule] store bit [i] of the rule number at
    index [7 - i] of an 8-entry table. *)
Lemma setPresetRule_bits (r : Z) (i : Z) :
  0 <= r < 256 -> 0 <= i < 8 ->
  (forall s, exists s', UseStore.setPresetRule r s = Returns s' /\
       length (UseStore.ruleToggles s') = 8%nat /\
       read (UseStore.ruleToggles s') (7 - i) = Some (Z.testbit r i)) /\
  (forall s, exists s', SimulationStore.setPresetRule r s = Returns s' /\
       length (SimulationStore.ruleToggles s') = 8%nat /\
       read (SimulationStore.ruleToggles s') (7 - i) = Some (Z.testbit r i)).
Proof.
  intros Hr Hi.
  pose proof preset_tables_checked as H.
  rewrite forallb_forall in H.
  specialize (H (Z.to_nat r)). rewrite Z2Nat.id in H by lia.
  assert (Hin : In (Z.to_nat r) (seq 0 256)) by (apply in_seq; lia).
  apply H in Hin. apply andb_true_iff in Hin as [H1 H2].
  unfold table_reads_bits in H1, H2.
  apply andb_true_iff in H1 as [L1 B1]. apply andb_true_iff in H2 as [L2 B2].
  apply bool_decide_eq_true in L1, L2.
  rewrite forallb_forall in B1, B2.
  assert (Hi' : In (Z.to_nat i) (seq 0 8)) by (apply in_seq; lia).
  specialize (B1 _ Hi'). specialize (B2 _ Hi').
  apply bool_decide_eq_true in B1, B2. rewrite Z2Nat.id in B1, B2 by lia.
  split; intros s; eexists; (split; [reflexivity|]); simpl; done.
Qed.

(** C2 (failing input).  The store with renderer selection builds its
    initial table for [DEFAULT_RULE = 110] with [toggles[i] = bit i]: the
    table is the one of rule 118, and [table[7 - 4]] is [true] although
    bit 4 of 110 is 0. *)
Theorem initial_ruleToggles_not_reversed :
  UseStore.initialRuleToggles
  = Some <$> [false; true; true; true; false; true; true; false] /\
  UseStore.initialRuleToggles = presetToggles 118 /\
  UseStore.initialRuleToggles <> presetToggles UseStore.DEFAULT_RULE /\
  read UseStore.initialRuleToggles (7 - 4) = Some true /\
  Z.testbit UseStore.DEFAULT_RULE 4 = false.
Proof. vm_compute. repeat split; try reflexivity. discriminate. Qed.

(** ** C8: [step] validates nothing *)

(** C8 (counterexample).  With a rule table of 7 entries [step] returns
    normally and stores [undefined] for the all-dead pattern; with a
    history row of another length than the generation it returns normally
    as well. *)
Lemma step_accepts_short_table :
  length (UseStore.ruleToggles
            (example_store [Some false] [] (replicate 7 (Some true)) (Fin 5)))
    <> 8%nat /\
  UseStore.step (example_store [Some false] [] (replicate 7 (Some true)) (Fin 5))
  = Returns (UseStore.set_simulation [undefined] [[Some false]] 1
               (example_store [Some false] [] (replicate 7 (Some true)) (Fin 5)))
  /\
  (exists s',
      UseStore.step
        (example_store [Some true] [[Some true; Some false; Some true]]
           (replicate 8 (Some true)) (Fin 5)) = Returns s') /\
  (exists s',
      SimulationStore.step
        (example_sim_store [Some false] [] (replicate 7 (Some true)))
      = Returns s' /\ SimulationStore.cells s' = [undefined]).
Proof.
  split; [vm_compute; lia|]. split; [reflexivity|].
  split; eexists; [|split]; reflexivity.
Qed.

Lemma read_beyond (a : list jsbool) (k : Z) :
  Z.of_nat (length a) <= k -> read a k = undefined.
Proof.
  intros Hk. unfold read, at_index.
  replace (k <? 0) with false by lia.
  by rewrite lookup_ge_None_2 by lia.
Qed.

(** C8 (amended).  [step] checks neither the length of the rule table nor
    the length of the generation: on every store it returns normally with
    a generation as long as the current one, in which every cell whose
    index [7 - pattern] lies beyond the table is [undefined]. *)
Theorem step_never_throws :
  (forall s : UseStore.Store,
      exists s', UseStore.step s = Returns s' /\
        UseStore.cells s' = nextCells (UseStore.cells s) (UseStore.ruleToggles s)) /\
  (forall s : SimulationStore.Store,
      exists s', SimulationStore.step s = Returns s' /\
        SimulationStore.cells s'
        = nextCells (SimulationStore.cells s) (SimulationStore.ruleToggles s)) /\
  (forall cells t : list jsbool,
      length (nextCells cells t) = length cells /\
      forall i : nat, (i < length cells)%nat ->
        let n := Z.of_nat (length cells) in
        let pattern :=
          neighbourhood (read cells (rem (Z.of_nat i - 1 + n) n))
            (read cells (Z.of_nat i)) (read cells (rem (Z.of_nat i + 1) n)) in
        Z.of_nat (length t) <= 7 - pattern ->
        nextCells cells t !! i = Some undefined).
Proof.
  split; [|split].
  - intros s. eexists. split; reflexivity.
  - intros s. eexists. split; reflexivity.
  - intros cells t. split; [apply nextCells_length|].
    intros i Hi n pattern Hp.
    rewrite nextCells_lookup by done. f_equal.
    unfold next_cell. fold n. fold pattern. by apply read_beyond.
Qed.

(** ** C3: the history window of the single store *)

Section HistoryWindow.

Import UseStore History.

Lemma last_n_length {A} (m : nat) (l : list A) :
  length (last_n m l) = Nat.min m (length l).
Proof. unfold last_n. rewrite length_drop. lia. Qed.

Lemma last_n_all {A} (m : nat) (l : list A) :
  (length l <= m)%nat -> last_n m l = l.
Proof.
  intros H. unfold last_n. replace (length l - m)%nat with 0%nat by lia.
  reflexivity.
Qed.

Lemma last_n_absorb {A} (m : nat) (a b : list A) :
  last_n m (last_n m a ++ b) = last_n m (a ++ b).
Proof.
  destruct (decide (length a <= m)%nat) as [Hle|Hgt].
  - by rewrite (last_n_all m a).
  - unfold last_n at 1 3. rewrite !length_app, last_n_length.
    unfold last_n.
    replace (Nat.min m (length a) + length b - m)%nat with (length b) by lia.
    replace (length a + length b - m)%nat
      with ((length a - m) + length b)%nat by lia.
    rewrite <- drop_drop.
    rewrite (drop_app_le a b (length a - m)) by lia.
    reflexivity.
Qed.

(** [step]'s update, evict when full and then push, keeps the last [m]. *)
Lemma evict_then_push {A} (m : nat) (p : list A) (c : A) :
  (1 <= m)%nat -> (length p <= m)%nat ->
  (if len_ge (length p) (Fin (Z.of_nat m)) then shift p else p) ++ [c]
  = last_n m (p ++ [c]).
Proof.
  intros Hm Hp. unfold len_ge, last_n, shift. rewrite length_app. simpl.
  destruct (Z.leb_spec (Z.of_nat m) (Z.of_nat (length p))) as [Hfull|Hroom].
  - replace (length p + 1 - m)%nat with 1%nat by lia.
    destruct p as [|x p]; [simpl in *; lia|]. reflexivity.
  - replace (length p + 1 - m)%nat with 0%nat by lia. reflexivity.
Qed.

(** [incrementGeneration]'s update, push and then evict on overflow. *)
Lemma push_then_evict {A} (m : nat) (p : list A) (c : A) :
  (length p <= m)%nat ->
  (if len_gt (length (p ++ [c])) (Fin (Z.of_nat m))
   then shift (p ++ [c]) else p ++ [c])
  = last_n m (p ++ [c]).
Proof.
  intros Hp. unfold len_gt, last_n, shift. rewrite length_app. simpl.
  destruct (Z.ltb_spec (Z.of_nat m) (Z.of_nat (length p + 1))) as [Hover|Hfit].
  - replace (length p + 1 - m)%nat with 1%nat by lia.
    destruct p as [|x p]; reflexivity.
  - replace (length p + 1 - m)%nat with 0%nat by lia. reflexivity.
Qed.

Lemma apply_history (m : nat) (o : op) (s : Store) :
  (1 <= m)%nat ->
  maxVisibleGenerations s = Fin (Z.of_nat m) ->
  (length (previousGenerations s) <= m)%nat ->
  exists s', apply o s = Returns s' /\
    maxVisibleGenerations s' = Fin (Z.of_nat m) /\
    previousGenerations s' = last_n m (previousGenerations s ++ [cells s]).
Proof.
  intros Hm HM Hlen. destruct o; simpl.
  - eexists. split; [reflexivity|]. split; [exact HM|]. simpl.
    rewrite HM. by apply evict_then_push.
  - eexists. split; [reflexivity|]. split; [exact HM|]. simpl.
    rewrite HM. by apply push_then_evict.
Qed.

Lemma run_history (m : nat) (ops : list op) :
  (1 <= m)%nat ->
  forall s : Store,
    maxVisibleGenerations s = Fin (Z.of_nat m) ->
    (length (previousGenerations s) <= m)%nat ->
    exists s', run ops s = Returns s' /\
      previousGenerations s'
      = last_n m (previousGenerations s ++ pushed ops s) /\
      length (pushed ops s) = length ops.
Proof.
  intros Hm. induction ops as [|o ops IH]; intros s HM Hlen.
  - exists s. split; [reflexivity|]. simpl. rewrite app_nil_r.
    by rewrite last_n_all.
  - destruct (apply_history m o s Hm HM Hlen) as (s1 & Hs1 & HM1 & Hp1).
    destruct (IH s1 HM1) as (s' & Hrun & Hprev & Hpushed).
    { rewrite Hp1, last_n_length. lia. }
    exists s'. simpl. rewrite Hs1. simpl. split; [exact Hrun|].
    split; [|by rewrite Hpushed].
    rewrite Hprev, Hp1, last_n_absorb.
    by rewrite <- app_assoc.
Qed.

End HistoryWindow.

(** C3 (counterexample).  The simulation store never evicts: under the
    render store's bound of 1 (a window 104 high, cells of 4), two steps
    from an empty history leave two generations; and in the single store
    a bound of 0 is exceeded by the first step. *)
Lemma history_exceeds_bound :
  RenderStore.maxVisibleGenerations
    (RenderStore.set_viewport 4 0
       (calculateCanvasMetrics_render
          {| innerWidth := 700; innerHeight := 104 |} 700 4 0)) = Fin 1 /\
  (exists s', History.run_sim 2
                (example_sim_store [Some true] [] (replicate 8 (Some false)))
              = Returns s' /\
              length (SimulationStore.previousGenerations s') = 2%nat) /\
  (exists s', UseStore.step
                (example_store [Some true] [] (replicate 8 (Some false)) (Fin 0))
              = Returns s' /\
              UseStore.previousGenerations s' = [[Some true]] /\
              UseStore.maxVisibleGenerations s' = Fin 0).
Proof. split; [reflexivity|]. split; eexists; repeat split; reflexivity. Qed.

(** C3 (amended).  In the single store, under a bound M >= 1 and starting
    from an empty history, every sequence of [step] and
    [incrementGeneration] returns a store whose history has at most M
    generations and is the last M of the pushed generations in push
    order; once M + k updates were made it has exactly M. *)
Theorem history_window_bounded (m : nat) (ops : list History.op)
    (s : UseStore.Store) :
  (1 <= m)%nat ->
  UseStore.maxVisibleGenerations s = Fin (Z.of_nat m) ->
  UseStore.previousGenerations s = [] ->
  exists s', History.run ops s = Returns s' /\
    (length (UseStore.previousGenerations s') <= m)%nat /\
    length (History.pushed ops s) = length ops /\
    UseStore.previousGenerations s'
    = drop (length ops - m) (History.pushed ops s) /\
    ((m <= length ops)%nat ->
     length (UseStore.previousGenerations s') = m).
Proof.
  intros Hm HM Hempty.
  destruct (run_history m ops Hm s HM) as (s' & Hrun & Hprev & Hpushed).
  { rewrite Hempty. simpl. lia. }
  rewrite Hempty in Hprev. simpl in Hprev.
  exists s'. split; [exact Hrun|].
  assert (Hlen : length (UseStore.previousGenerations s')
                 = Nat.min m (length ops)).
  { by rewrite Hprev, last_n_length, Hpushed. }
  repeat split; try lia; try done.
  rewrite Hprev. unfold History.last_n. by rewrite Hpushed.
Qed.

(** The hypotheses of C3 hold for a bound of 2 and three steps. *)
Lemma history_window_bounded_witness :
  exists s',
    History.run [History.Step; History.Append; History.Step]
      (example_store [Some true] [] (replicate 8 (Some false)) (Fin 2))
    = Returns s' /\
    (length (UseStore.previousGenerations s') <= 2)%nat.
Proof.
  destruct (history_window_bounded 2
              [History.Step; History.Append; History.Step]
              (example_store [Some true] [] (replicate 8 (Some false)) (Fin 2)))
    as (s' & Hrun & Hle & _); [lia|reflexivity|reflexivity|].
  exists s'. split; [exact Hrun|exact Hle].
Defined.

(** ** C7: viewport metrics *)

Lemma floor_div_spec (a b : Z) : floor_of_quotient a b (floor_div a b).
Proof.
  unfold floor_div, floor_of_quotient.
  destruct (Z.eqb_spec b 0) as [->|Hb].
  - destruct (Z.ltb_spec 0 a); [lia|].
    destruct (Z.ltb_spec a 0); lia.
  - destruct (Z.lt_total b 0) as [Hneg|[?|Hpos]]; [|lia|].
    + right. split; [done|].
      pose proof (Z.div_mod a b Hb). pose proof (Z.mod_neg_bound a b Hneg). nia.
    + left. split; [done|].
      pose proof (Z.div_mod a b Hb). pose proof (Z.mod_pos_bound a b Hpos). nia.
Qed.

(** What both stores derive, for all integer window sizes, cell sizes
    and margins: N is [floor ((windowWidth - 300) / (cellSize +
    cellMargin))] in both; M is [floor (innerHeight / (cellSize +
    cellMargin))] in the single store and [floor ((innerHeight - 100) /
    cellSize)] in the render store. *)
Lemma metrics_are_floors (win : Window) (windowWidth cellSize cellMargin : Z) :
  let single := calculateCanvasMetrics win windowWidth cellSize cellMargin in
  let split := calculateCanvasMetrics_render win windowWidth cellSize cellMargin in
  m_availableWidth single = windowWidth - SIDEBAR_WIDTH /\
  m_availableWidth split = windowWidth - SIDEBAR_WIDTH /\
  floor_of_quotient (m_availableWidth single) (cellSize + cellMargin)
    (m_maxCells single) /\
  floor_of_quotient (innerHeight win) (cellSize + cellMargin)
    (m_maxVisibleGenerations single) /\
  floor_of_quotient (m_availableWidth split) (cellSize + cellMargin)
    (m_maxCells split) /\
  floor_of_quotient (innerHeight win - 100) cellSize
    (m_maxVisibleGenerations split).
Proof. simpl. repeat split; apply floor_div_spec. Qed.

(** C7.  The render store divides the available height by [cellSize]
    alone, for every input, where the claim, the line above it for N and
    the single store divide by [cellSize + cellMargin].  With a window
    1000 high, cells of 4 and a margin of 4, M is 225: neither
    [floor (1000 / 8)] nor [floor (900 / 8)], nor the floor of any height
    up to the window's divided by 8, while N in the same call and M of
    the single store are the floors over 8; and 225 rows of 8 pixels
    overflow the window that the subtracted padding was to protect. *)
Theorem render_store_rows_ignore_margin :
  (forall (win : Window) (windowWidth cellSize cellMargin : Z),
     floor_of_quotient (innerHeight win - 100) cellSize
       (m_maxVisibleGenerations
          (calculateCanvasMetrics_render win windowWidth cellSize
             cellMargin))) /\
  m_maxVisibleGenerations
    (calculateCanvasMetrics_render
       {| innerWidth := 1300; innerHeight := 1000 |} 1300 4 4) = Fin 225 /\
  ~ (exists availableHeight : Z,
        availableHeight <= 1000 /\
        floor_of_quotient availableHeight (4 + 4) (Fin 225)) /\
  m_maxCells
    (calculateCanvasMetrics_render
       {| innerWidth := 1300; innerHeight := 1000 |} 1300 4 4) = Fin 125 /\
  m_maxVisibleGenerations
    (calculateCanvasMetrics
       {| innerWidth := 1300; innerHeight := 1000 |} 1300 4 4) = Fin 125 /\
  1000 < 225 * (4 + 4).
Proof.
  split; [intros; apply floor_div_spec|]. split; [reflexivity|].
  split; [|repeat split; reflexivity].
  intros (h & Hh & Hfloor). simpl in Hfloor. lia.
Qed.

(** ** C9: viewport resets and the history *)

Section ViewportReset.

Import UseStore.

Lemma setCellSize_history win size s s' :
  setCellSize win size s = Returns s' ->
  previousGenerations s' = previousGenerations s.
Proof.
  unfold setCellSize. destruct (resizeCells _ _); simpl; [|done].
  by intros [= <-].
Qed.

Lemma setCellMargin_history win margin s s' :
  setCellMargin win margin s = Returns s' ->
  previousGenerations s' = previousGenerations s.
Proof.
  unfold setCellMargin. destruct (resizeCells _ _); simpl; [|done].
  by intros [= <-].
Qed.

Lemma updateCanvasSize_history win width s s' :
  updateCanvasSize win width s = Returns s' ->
  previousGenerations s' = previousGenerations s.
Proof.
  unfold updateCanvasSize. destruct (resizeCells _ _); simpl; [|done].
  by intros [= <-].
Qed.

(** The split stores behave alike: [updateMaxCells], through which the
    render store resizes the simulation, keeps the history. *)
Lemma split_store_reset_keeps_history win x rs rs' :
  RenderStore.updateCanvasSize win x rs = Returns rs'
  \/ RenderStore.setCellSize win x rs = Returns rs'
  \/ RenderStore.setCellMargin win x rs = Returns rs' ->
  SimulationStore.previousGenerations (snd rs')
  = SimulationStore.previousGenerations (snd rs).
Proof.
  unfold RenderStore.updateCanvasSize, RenderStore.setCellSize,
    RenderStore.setCellMargin, SimulationStore.updateMaxCells.
  intros [H|[H|H]]; revert H;
    (destruct (resizeCells _ _); simpl; [|done]); by intros [= <-].
Qed.

End ViewportReset.

(** C9 (counterexample).  Widening the window from two cells to four
    replaces the cells and keeps the two-cell generation in the history. *)
Lemma resize_keeps_history :
  exists s',
    UseStore.updateCanvasSize {| innerWidth := 316; innerHeight := 400 |} 316
      (example_store [Some true; Some false] [[Some false; Some true]]
         (replicate 8 (Some false)) (Fin 100))
    = Returns s' /\
    UseStore.cells s' = [Some false; Some true; Some false; Some false] /\
    UseStore.previousGenerations s' = [[Some false; Some true]] /\
    UseStore.previousGenerations s' <> [].
Proof. eexists. repeat split; try reflexivity. discriminate. Qed.

(** C9 (amended).  Every viewport-driven reset that returns
    ([updateCanvasSize], [setCellSize], [setCellMargin]) leaves
    [previousGenerations] as it was. *)
Theorem viewport_reset_keeps_history (win : Window) (x : Z)
    (s s' : UseStore.Store) :
  UseStore.updateCanvasSize win x s = Returns s'
  \/ UseStore.setCellSize win x s = Returns s'
  \/ UseStore.setCellMargin win x s = Returns s' ->
  UseStore.previousGenerations s' = UseStore.previousGenerations s.
Proof.
  intros [H|[H|H]].
  - by eapply updateCanvasSize_history.
  - by eapply setCellSize_history.
  - by eapply setCellMargin_history.
Qed.

(** The hypothesis of C9 holds for a window of 316 pixels. *)
Lemma viewport_reset_keeps_history_witness :
  UseStore.previousGenerations
    (UseStore.set_viewport 4 0 [Some false; Some true; Some false; Some false]
       (calculateCanvasMetrics {| innerWidth := 316; innerHeight := 400 |} 316 4 0)
       (example_store [Some true; Some false] [[Some false; Some true]]
          (replicate 8 (Some false)) (Fin 100)))
  = [[Some false; Some true]].
Proof.
  apply (viewport_reset_keeps_history
           {| innerWidth := 316; innerHeight := 400 |} 316
           (example_store [Some true; Some false] [[Some false; Some true]]
              (replicate 8 (Some false)) (Fin 100))).
  left. reflexivity.
Defined.

(** ** Stepping through a method body *)

(** Running a method one call at a time. *)
Lemma then_inv {S A B : Type} (m : M S A) (k : A -> M S B) (s : S)
    (res : S * outcome B) :
  then_ m k s = res ->
  (exists s1 a, m s = (s1, Returns a) /\ k a s1 = res)
  \/ (exists s1 e, m s = (s1, Throws e) /\ res = (s1, Throws e)).
Proof.
  unfold then_. destruct (m s) as [s1 [a|e]]; intros <-.
  - left. by exists s1, a.
  - right. by exists s1, e.
Qed.

(** The answers of the driver that a computed call depends on. *)
Ltac answers E co comp lk :=
  repeat (match type of E with
          | context [co ?n] => destruct (co n) eqn:?
          | context [comp ?x] => destruct (comp x)
          | context [lk ?x] => destruct (lk x)
          end; vm_compute in E).

(** One call of a method body that is known to have returned: the call
    is computed, and its result put into the rest of the body. *)
Ltac returned H co comp lk :=
  let s1 := fresh "s" in
  let a := fresh "a" in
  let e := fresh "e" in
  let E := fresh "E" in
  apply then_inv in H as [(s1 & a & E & H)|(s1 & e & _ & H)];
  [|discriminate H];
  vm_compute in E; answers E co comp lk;
  first [discriminate E | injection E as <- <-];
  cbv beta in H.

(** Both ends of one call of a method body: it returned, and the rest of
    the body runs, or it threw, and [fin] closes the case. *)
Ltac stepped H co comp lk fin :=
  let s1 := fresh "s" in
  let a := fresh "a" in
  let e := fresh "e" in
  let E := fresh "E" in
  apply then_inv in H as [(s1 & a & E & H)|(s1 & e & E & H)];
  [ vm_compute in E; answers E co comp lk;
    first [discriminate E | injection E as <- <-];
    cbv beta in H
  | vm_compute in E; answers E co comp lk;
    first [discriminate E | injection E as <- <-];
    injection H as -> ->; fin ].

(** What the driver answered, put into the goal. *)
Ltac answered co :=
  repeat match goal with
         | Hc : co ?n = _ |- context [co ?n] => rewrite Hc
         end.

Ltac null_slot Hnn :=
  exfalso; apply Hnn; vm_compute;
  repeat first [left; reflexivity | right].

(** ** C4: the compute pass reads one texture and writes the other *)

Section PingPongFacts.

Import GL GLRenderer PingPong.

Lemma call_on_context (f : GL.Context -> GL.Context) r c :
  gl r = Some c -> call f r = (set_gl (Some (f c)) r, Returns tt).
Proof. intros H. unfold call, on_gl, modify. by rewrite H. Qed.

Lemma set_gl_set_gl x y r : set_gl x (set_gl y r) = set_gl x r.
Proof. reflexivity. Qed.

Lemma call_after_set (f : GL.Context -> GL.Context) r c :
  call f (set_gl (Some c) r) = (set_gl (Some (f c)) r, Returns tt).
Proof. reflexivity. Qed.

Lemma delete_if_returns h r c :
  gl r = Some c ->
  exists c', delete_if h r = (set_gl (Some c') r, Returns tt).
Proof.
  intros H. destruct h as [x|]; simpl.
  - rewrite (call_on_context _ r c H). by eexists.
  - exists c. unfold ret. f_equal. destruct r; simpl in *; by subst.
Qed.

Lemma delete_each_returns hs r c :
  gl r = Some c ->
  exists c', delete_each hs r = (set_gl (Some c') r, Returns tt).
Proof.
  revert r c. induction hs as [|h hs IH]; intros r c H; simpl.
  - exists c. unfold ret. f_equal. destruct r; simpl in *; by subst.
  - unfold then_. destruct (delete_if_returns h r c H) as [c1 ->].
    destruct (IH (set_gl (Some c1) r) c1 eq_refl) as [c2 ->].
    exists c2. by rewrite set_gl_set_gl.
Qed.

Lemma same_compute_pass :
  WebGLRenderer.computeNextState = WebGLComputeRenderer.computeNextState.
Proof. reflexivity. Qed.

Lemma pass_on_context (c : Context) (p ts fb tt : handle) :
  is_deleted p c = false -> is_deleted ts c = false ->
  is_deleted fb c = false ->
  assoc fb (attachments c) = Some (Some tt) ->
  drawArrays (bindFramebuffer (Some fb)
                (bindTexture (Some ts) (useProgram (Some p) c)))
  = set_draws
      (draws c ++ [{| draw_program := p; draw_source := Some ts;
                      draw_target := Some fb;
                      draw_target_texture := Some tt |}])
      (set_bound_framebuffer (Some fb)
         (set_bound_texture (Some ts) (set_current_program (Some p) c))).
Proof.
  intros Hp Hts Hfb Hatt.
  unfold useProgram. rewrite Hp.
  unfold bindTexture.
  change (is_deleted ts (set_current_program (Some p) c))
    with (is_deleted ts c). rewrite Hts.
  unfold bindFramebuffer.
  change (is_deleted fb (set_bound_texture (Some ts)
                           (set_current_program (Some p) c)))
    with (is_deleted fb c). rewrite Hfb.
  unfold drawArrays. simpl. rewrite Hatt. reflexivity.
Qed.

Lemma compute_pass_unfold (r : t) (c : Context) (p : handle) :
  gl r = Some c -> computeProgram r = Some p ->
  WebGLComputeRenderer.computeNextState r
  = (set_currentTexture (1 - currentTexture r)
       (set_gl
          (Some (drawArrays
                   (bindFramebuffer
                      (element (framebuffers r) (1 - currentTexture r))
                      (bindTexture
                         (element (textures r) (currentTexture r))
                         (useProgram (Some p) c))))) r),
     Returns tt).
Proof.
  intros Hgl Hp. destruct r as [g dp cp qb tx fbs cur tw th gen rl].
  simpl in *. subst. reflexivity.
Qed.

Lemma compute_pass (r : t) :
  ready r ->
  exists r', WebGLComputeRenderer.computeNextState r = (r', Returns tt) /\
             alternates r r' /\ ready r'.
Proof.
  intros (c & p & t0 & t1 & f0 & f1 & Hgl & Hp & Ht & Hf & Hne & Ha0 & Ha1
          & Dp & Dt0 & Dt1 & Df0 & Df1 & Hcur).
  rewrite (compute_pass_unfold r c p Hgl Hp).
  eexists. split; [reflexivity|].
  rewrite Ht, Hf.
  destruct Hcur as [Hcur | Hcur]; rewrite Hcur;
    change (element [Some t0; Some t1] 0) with (Some t0);
    change (element [Some t0; Some t1] 1) with (Some t1);
    change (element [Some f0; Some f1] (1 - 0)) with (Some f1);
    change (element [Some f0; Some f1] (1 - 1)) with (Some f0).
  - rewrite (pass_on_context c p t0 f1 t1) by done. split.
    + exists c. eexists. eexists. simpl. rewrite Hgl, Hp, Ht, Hf, Hcur.
      repeat split; try reflexivity; simpl; [by eexists|congruence].
    + eexists. exists p, t0, t1, f0, f1. simpl.
      repeat split; try done. by right.
  - rewrite (pass_on_context c p t1 f0 t0) by done. split.
    + exists c. eexists. eexists. simpl. rewrite Hgl, Hp, Ht, Hf, Hcur.
      repeat split; try reflexivity; simpl; [by eexists|congruence].
    + eexists. exists p, t0, t1, f0, f1. simpl.
      repeat split; try done. by left.
Qed.

(** A successful [initialize] on a canvas that has no context yet sets
    the pair up, unless a [createTexture] or [createFramebuffer] call
    answered [null]: [initialize] does not throw on those. *)
Lemma compute_initialize_sound (canvas : Dom.Canvas) (r : t) :
  Dom.mode canvas = Dom.NoContext ->
  WebGLComputeRenderer.initialize canvas WebGLComputeRenderer.new
  = (r, Returns tt) ->
  ~ In None (textures r ++ framebuffers r) ->
  sound r.
Proof.
  destruct canvas as [w h c2d [[co comp lk]|] md]; simpl; intros ->;
    [|discriminate].
  unfold WebGLComputeRenderer.initialize, Dom.getContext_webgl2. simpl.
  intros H Hnn.
  do 15 returned H co comp lk;
    vm_compute in H; answers H co comp lk;
    injection H as <-; try (solve [null_slot Hnn]);
    (split;
     [eexists; exists 5%nat, 7%nat, 8%nat, 9%nat, 10%nat;
      (split; [reflexivity|]);
      repeat split; try reflexivity; try discriminate; by left
     |intros c d [= <-] []]).
Qed.

(** *** [render] keeps the pair set up *)

Lemma ready_frame (r : t) (c c' : Context) :
  gl r = Some c ->
  attachments c' = attachments c -> deleted c' = deleted c ->
  ready r -> ready (set_gl (Some c') r).
Proof.
  intros Hgl Ha Hd (c0 & p & t0 & t1 & f0 & f1 & Hgl0 & H).
  rewrite Hgl in Hgl0. injection Hgl0 as <-.
  exists c', p, t0, t1, f0, f1. simpl. unfold is_deleted in *.
  rewrite Ha, Hd. split; [done|exact H].
Qed.

Lemma keeps_then {A B} (m : M t A) (k : A -> M t B) :
  keeps_sound m -> (forall a, keeps_sound (k a)) -> keeps_sound (then_ m k).
Proof.
  intros Hm Hk r Hr. unfold then_. specialize (Hm r Hr).
  destruct (m r) as [r1 [a|e]]; simpl in *; [by apply Hk|done].
Qed.

Lemma keeps_ret {A} (a : A) : keeps_sound (ret a).
Proof. by intros r Hr. Qed.

Lemma keeps_throw {A} (e : error) : keeps_sound (@throw t A e).
Proof. by intros r Hr. Qed.

Lemma keeps_call (f : Context -> Context) : quiet f -> keeps_sound (call f).
Proof.
  intros Hf r [Hready Hdraws]. unfold call, on_gl, modify.
  destruct (gl r) as [c|] eqn:Hgl; simpl; [|done].
  destruct (Hf c) as (Ha & Hd & Hdr). split.
  - by apply (ready_frame r c).
  - intros c' d [= <-]. rewrite Hdr. by apply Hdraws.
Qed.

Lemma keeps_field (f : t -> t) :
  (forall r, gl (f r) = gl r /\ computeProgram (f r) = computeProgram r
             /\ textures (f r) = textures r
             /\ framebuffers (f r) = framebuffers r
             /\ (currentTexture (f r) = currentTexture r
                 \/ currentTexture (f r) = 0)) ->
  keeps_sound (modify f).
Proof.
  intros Hf r [Hready Hdraws]. unfold modify. simpl.
  destruct (Hf r) as (Hgl & Hp & Ht & Hfb & Hcur). split.
  - destruct Hready as (c & p & t0 & t1 & f0 & f1 & H1 & H2 & H3 & H4 & H5
                        & H6 & H7 & H8 & H9 & H10 & H11 & H12 & H13).
    exists c, p, t0, t1, f0, f1. rewrite Hgl, Hp, Ht, Hfb.
    repeat split; try done.
    destruct Hcur as [->| ->]; [done|by left].
  - intros c d. rewrite Hgl. apply Hdraws.
Qed.

Lemma quiet_bindTexture h : quiet (bindTexture h).
Proof.
  intros c. unfold bindTexture. destruct h as [x|]; [|done].
  by destruct (is_deleted x c).
Qed.

Lemma quiet_bindFramebuffer h : quiet (bindFramebuffer h).
Proof.
  intros c. unfold bindFramebuffer. destruct h as [x|]; [|done].
  by destruct (is_deleted x c).
Qed.

Lemma quiet_useProgram h : quiet (useProgram h).
Proof.
  intros c. unfold useProgram. destruct h as [x|]; [|done].
  by destruct (is_deleted x c).
Qed.

Lemma quiet_texImage2D ch w h data : quiet (texImage2D ch w h data).
Proof. intros c. unfold texImage2D. by destruct (bound_texture c). Qed.

Lemma quiet_texSubImage2D w h data : quiet (texSubImage2D w h data).
Proof.
  intros c. unfold texSubImage2D. destruct (bound_texture c); [|done].
  destruct (assoc _ _); [|done]. by destruct (_ && _).
Qed.

Lemma quiet_set_canvas_size w h : quiet (set_canvas_size w h).
Proof. by intros c. Qed.

(** The display pass: the bound texture is sampled into the canvas. *)
Lemma keeps_display_pass (k : M t unit) :
  keeps_sound k ->
  keeps_sound
    (do r <- get;
     do _ <- call (bindTexture (element (textures r) (currentTexture r)));
     do _ <- call (bindFramebuffer None);
     do _ <- call drawArrays;
     k).
Proof.
  intros Hk r [Hready Hdraws].
  pose proof Hready as (c & p & t0 & t1 & f0 & f1 & Hgl & Hp & Ht & Hf & Hne
                        & Ha0 & Ha1 & Dp & Dt0 & Dt1 & Df0 & Df1 & Hcur).
  unfold then_ at 1, get.
  assert (exists tx, element (textures r) (currentTexture r) = Some tx
                     /\ is_deleted tx c = false) as (tx & Htx & Dtx).
  { rewrite Ht. destruct Hcur as [-> | ->]; by eexists. }
  rewrite Htx. unfold then_ at 1.
  rewrite (call_on_context _ r c Hgl). unfold then_ at 1.
  rewrite call_after_set. unfold then_ at 1.
  rewrite call_after_set.
  apply Hk. split.
  - apply (ready_frame r c); try done.
    + unfold drawArrays. destruct (current_program _); simpl;
        unfold bindTexture; by rewrite Dtx.
    + unfold drawArrays. destruct (current_program _); simpl;
        unfold bindTexture; by rewrite Dtx.
  - intros c' d [= <-] Hd. unfold drawArrays in Hd.
    unfold bindTexture in Hd. rewrite Dtx in Hd. simpl in Hd.
    destruct (current_program c) as [q|]; simpl in Hd.
    + apply in_app_or in Hd as [Hd|[<-|[]]]; [by apply (Hdraws c)|].
      simpl. discriminate.
    + by apply (Hdraws c).
Qed.

Lemma keeps_compute_pass :
  keeps_sound WebGLComputeRenderer.computeNextState.
Proof.
  intros r [Hready Hdraws].
  destruct (compute_pass r Hready) as (r' & -> & Halt & Hready').
  simpl. split; [done|].
  destruct Halt as (c & c' & d & Hgl & Hgl' & Hd & _ & _ & _ & _ & _ & Hne & _).
  intros c0 d0. rewrite Hgl'. intros [= <-]. rewrite Hd.
  intros Hin. apply in_app_or in Hin as [Hin|[<-|[]]]; [|done].
  by apply (Hdraws c).
Qed.

Ltac keep :=
  repeat first
    [ apply keeps_ret | apply keeps_throw
    | apply keeps_compute_pass
    | apply keeps_call;
      first [ apply quiet_bindTexture | apply quiet_bindFramebuffer
            | apply quiet_useProgram | apply quiet_texImage2D
            | apply quiet_texSubImage2D | apply quiet_set_canvas_size ]
    | apply keeps_field; intros ?; simpl; tauto
    | apply keeps_then; [|intros ?] ].

Lemma keeps_get_any (k : t -> M t unit) :
  (forall r0, keeps_sound (k r0)) -> keeps_sound (then_ get k).
Proof. intros H r Hr. unfold then_, get. by apply H. Qed.

Lemma compute_updateTexture_keeps state :
  keeps_sound (WebGLComputeRenderer.updateTexture state).
Proof.
  unfold WebGLComputeRenderer.updateTexture.
  apply keeps_get_any. intros r0. destruct (gl r0); [|keep].
  destruct (WebGLComputeRenderer.texture_size state) as [tw th].
  destruct (WebGLComputeRenderer.texture_data state); [|keep].
  apply keeps_then.
  - destruct (_ || _); [|keep].
    apply keeps_then; [keep|intros ?].
    apply keeps_then; intros;
      unfold WebGLComputeRenderer.resizeTexture;
      apply keeps_get_any; intros; keep.
  - intros _. apply keeps_get_any. intros r1. keep.
Qed.

Lemma compute_render_keeps state :
  keeps_sound (WebGLComputeRenderer.render state).
Proof.
  unfold WebGLComputeRenderer.render.
  apply keeps_get_any. intros r0.
  destruct (gl r0); [|keep]. destruct (displayProgram r0); [|keep].
  apply keeps_then; [destruct (_ || _); keep|intros _].
  apply keeps_then.
  { destruct (negb _); [|keep].
    apply keeps_then; [keep|intros _]. apply compute_updateTexture_keeps. }
  intros _. apply keeps_then; [keep|intros _].
  apply keeps_display_pass. apply keeps_compute_pass.
Qed.

Lemma webgl_updateTexture_keeps state :
  keeps_sound (WebGLRenderer.updateTexture state).
Proof.
  unfold WebGLRenderer.updateTexture.
  apply keeps_get_any. intros r0. destruct (gl r0); [|keep].
  apply keeps_then.
  - destruct (_ || _); [|keep].
    apply keeps_then; [keep|intros ?].
    apply keeps_then; intros;
      unfold WebGLRenderer.resizeTexture;
      apply keeps_get_any; intros; keep.
  - intros _. destruct (new_Uint8Array _); [|keep].
    apply keeps_get_any. intros r1. keep.
Qed.

Lemma webgl_render_keeps state :
  keeps_sound (WebGLRenderer.render state).
Proof.
  unfold WebGLRenderer.render.
  apply keeps_get_any. intros r0.
  destruct (gl r0); [|keep]. destruct (displayProgram r0); [|keep].
  apply keeps_then.
  { destruct (negb _); [|keep]. apply webgl_updateTexture_keeps. }
  intros _. apply keeps_then; [keep|intros _].
  apply keeps_display_pass. rewrite same_compute_pass.
  apply keeps_compute_pass.
Qed.

Lemma render_all_keeps (render : CellState -> M t unit) states :
  (forall state, keeps_sound (render state)) ->
  keeps_sound (render_all render states).
Proof.
  intros H. induction states as [|state states IH]; simpl; [keep|].
  apply keeps_then; [apply H|intros _; apply IH].
Qed.

Lemma initialized_compute_ready :
  WebGLComputeRenderer.initialize good_canvas WebGLComputeRenderer.new
  = (initialized_compute, Returns tt) /\ ready initialized_compute.
Proof.
  split; [vm_compute; reflexivity|].
  exists (default (fresh good_driver 0 0) (gl initialized_compute)).
  exists 5%nat, 7%nat, 8%nat, 9%nat, 10%nat.
  vm_compute. repeat split; try reflexivity; try discriminate. by left.
Qed.

Lemma initialized_webgl_ready :
  WebGLRenderer.initialize good_canvas WebGLRenderer.new
  = (initialized_webgl, Returns tt) /\ ready initialized_webgl.
Proof.
  split; [vm_compute; reflexivity|].
  exists (default (fresh good_driver 0 0) (gl initialized_webgl)).
  exists 5%nat, 7%nat, 9%nat, 8%nat, 10%nat.
  vm_compute. repeat split; try reflexivity; try discriminate. by left.
Qed.

End PingPongFacts.

(** *** The frame after a pass *)

Section FollowingFrame.

Import GL GLRenderer PingPong.

Lemma quiet_is_deleted (f : Context -> Context) (x : handle) (c : Context) :
  quiet f -> is_deleted x (f c) = is_deleted x c.
Proof. intros H. unfold is_deleted. by rewrite (proj1 (proj2 (H c))). Qed.

Lemma drawArrays_is_deleted (x : handle) (c : Context) :
  is_deleted x (drawArrays c) = is_deleted x c.
Proof. unfold drawArrays. by destruct (current_program c). Qed.

Lemma live_bindTexture (h : handle) (c : Context) :
  is_deleted h c = false ->
  bindTexture (Some h) c = set_bound_texture (Some h) c.
Proof. intros H. unfold bindTexture. by rewrite H. Qed.

Lemma live_bindFramebuffer (h : handle) (c : Context) :
  is_deleted h c = false ->
  bindFramebuffer (Some h) c = set_bound_framebuffer (Some h) c.
Proof. intros H. unfold bindFramebuffer. by rewrite H. Qed.

Lemma live_useProgram (h : handle) (c : Context) :
  is_deleted h c = false ->
  useProgram (Some h) c = set_current_program (Some h) c.
Proof. intros H. unfold useProgram. by rewrite H. Qed.

Lemma element_pair (a b : option handle) :
  element [a; b] 0 = a /\ element [a; b] 1 = b /\
  element [a; b] (Z.of_nat 0) = a /\ element [a; b] (Z.of_nat 1) = b.
Proof. done. Qed.

Lemma setter_is_deleted (x : handle) (h : option handle) (c : Context) :
  is_deleted x (set_bound_texture h c) = is_deleted x c /\
  is_deleted x (set_bound_framebuffer h c) = is_deleted x c /\
  is_deleted x (set_current_program h c) = is_deleted x c.
Proof. done. Qed.

(** Whether an object is deleted, seen through the calls of a frame. *)
Ltac through_calls :=
  repeat first
    [ rewrite (quiet_is_deleted _ _ _ (quiet_bindTexture _))
    | rewrite (quiet_is_deleted _ _ _ (quiet_bindFramebuffer _))
    | rewrite (quiet_is_deleted _ _ _ (quiet_useProgram _))
    | rewrite (quiet_is_deleted _ _ _ (quiet_texImage2D _ _ _ _))
    | rewrite (quiet_is_deleted _ _ _ (quiet_texSubImage2D _ _ _))
    | rewrite (quiet_is_deleted _ _ _ (quiet_set_canvas_size _ _))
    | rewrite drawArrays_is_deleted
    | rewrite (proj1 (setter_is_deleted _ _ _))
    | rewrite (proj1 (proj2 (setter_is_deleted _ _ _)))
    | rewrite (proj2 (proj2 (setter_is_deleted _ _ _))) ];
  first [assumption | reflexivity].

(** The bindings of live objects, innermost call first. *)
Ltac bind_live :=
  repeat first
    [ rewrite live_bindTexture by through_calls
    | rewrite live_bindFramebuffer by through_calls
    | rewrite live_useProgram by through_calls ].

(** One call of a frame on a renderer given by its fields. *)
Ltac frame_call :=
  first
    [ progress
        (cbv beta iota zeta;
         cbn [gl displayProgram computeProgram quadBuffer textures
              framebuffers currentTexture textureWidth textureHeight
              generation rule set_gl set_rule set_textureSize
              set_currentTexture set_generation];
         rewrite ?(proj1 (element_pair _ _)),
           ?(proj1 (proj2 (element_pair _ _))),
           ?(proj1 (proj2 (proj2 (element_pair _ _)))),
           ?(proj2 (proj2 (proj2 (element_pair _ _)))))
    | erewrite call_on_context by reflexivity
    | match goal with
      | H : WebGLComputeRenderer.texture_data _ = _ |- _ => rewrite H
      | |- context [WebGLComputeRenderer.texture_size ?s] =>
          destruct (WebGLComputeRenderer.texture_size s)
      | |- context [negb (num_eqb ?a ?b) || ?x] =>
          destruct (negb (num_eqb a b) || x)
      end
    | match goal with
      | H : new_Uint8Array _ = _ |- _ => rewrite H
      end
    | unfold WebGLComputeRenderer.updateTexture at 1
    | unfold WebGLComputeRenderer.resizeTexture at 1
    | unfold WebGLRenderer.updateTexture at 1
    | unfold WebGLRenderer.resizeTexture at 1
    | unfold get at 1 | unfold modify at 1 | unfold ret at 1
    | unfold then_ at 1 ].

(** One frame of the compute renderer on a renderer whose pair is set
    up: the display pass samples [textures[currentTexture]], unless the
    snapshot has another generation than the renderer: then the snapshot
    is uploaded into [textures[0]] first, and that is what is sampled. *)
Lemma compute_render_frame (r : t) (c : Context) (dp : handle)
    (state : CellState) :
  ready r -> gl r = Some c -> displayProgram r = Some dp ->
  is_deleted dp c = false ->
  (state_generation state <> generation r ->
   exists data, WebGLComputeRenderer.texture_data state = Returns data) ->
  exists r2 c2 d d',
    WebGLComputeRenderer.render state r = (r2, Returns tt) /\
    gl r2 = Some c2 /\
    draws c2 = draws c ++ [d; d'] /\
    draw_program d = dp /\
    draw_target d = None /\
    draw_source d
    = element (textures r)
        (if state_generation state =? generation r then currentTexture r
         else 0) /\
    (state_generation state <> generation r ->
     exists t0 img,
       element (textures r) 0 = Some t0 /\
       assoc t0 (images c2) = Some img /\
       WebGLComputeRenderer.texture_data state = Returns (img_data img)).
Proof.
  intros (c0 & p & t0 & t1 & f0 & f1 & Hgl0 & Hp & Ht & Hf & Hne & Ha0 & Ha1
          & Dp & Dt0 & Dt1 & Df0 & Df1 & Hcur) Hgl Hdp Ddp Hdata.
  rewrite Hgl in Hgl0. injection Hgl0 as <-.
  destruct r as [g dp' cp qb tx fbs cur tw th gen rl].
  cbn [generation] in Hdata.
  simpl in Hgl, Hdp, Hp, Ht, Hf, Hcur |- *. subst.
  destruct Hcur as [-> | ->].
  all: unfold WebGLComputeRenderer.render, then_ at 1, get at 1.
  all: cbn [gl displayProgram generation].
  all: destruct (negb (canvas_width c =? _) || negb (canvas_height c =? _));
    (destruct (Z.eqb_spec (state_generation state) gen) as [Hgen|Hgen];
     [clear Hdata
     |destruct (Hdata Hgen) as [data Hd]; clear Hdata]);
    cbn [negb].
  all: repeat frame_call.
  all: erewrite compute_pass_unfold by reflexivity.
  all: do 4 eexists; (split; [reflexivity|]); (split; [reflexivity|]).
  all: cbn [gl displayProgram computeProgram quadBuffer textures
            framebuffers currentTexture textureWidth textureHeight
            generation rule set_gl set_rule set_textureSize
            set_currentTexture set_generation].
  all: change (1 - 0) with 1; change (1 - 1) with 0.
  all: rewrite ?(proj1 (element_pair _ _)),
         ?(proj1 (proj2 (element_pair _ _))).
  all: bind_live.
  all: split; [cbn; rewrite <- app_assoc; reflexivity|].
  all: do 3 (split; [reflexivity|]).
  all: intros Hx; try done.
  all: exists t0; eexists; (split; [reflexivity|]).
  all: split; [cbn; rewrite Nat.eqb_refl; reflexivity|reflexivity].
Qed.

Lemma texSubImage2D_images (w h : Z) (data : list Z) (c : Context) :
  exists imgs, texSubImage2D w h data c = set_images imgs c.
Proof.
  unfold texSubImage2D.
  assert (Hsame : c = set_images (images c) c) by by destruct c.
  destruct (bound_texture c); [|by eexists].
  destruct (assoc _ _); [|by eexists].
  destruct (_ && _); by eexists.
Qed.

(** The same frame in the WebGL renderer. *)
Lemma webgl_render_frame (r : t) (c : Context) (dp : handle)
    (state : CellState) :
  ready r -> gl r = Some c -> displayProgram r = Some dp ->
  is_deleted dp c = false ->
  (state_generation state <> generation r ->
   exists data,
     new_Uint8Array
       (Fin (Z.of_nat (length (cells state))
             * (vp_maxVisibleGenerations (viewport state) + 1) * 4))
     = Returns data) ->
  exists r2 c2 d d',
    WebGLRenderer.render state r = (r2, Returns tt) /\
    gl r2 = Some c2 /\
    draws c2 = draws c ++ [d; d'] /\
    draw_program d = dp /\
    draw_target d = None /\
    draw_source d
    = element (textures r)
        (if state_generation state =? generation r then currentTexture r
         else 0).
Proof.
  intros (c0 & p & t0 & t1 & f0 & f1 & Hgl0 & Hp & Ht & Hf & Hne & Ha0 & Ha1
          & Dp & Dt0 & Dt1 & Df0 & Df1 & Hcur) Hgl Hdp Ddp Hdata.
  rewrite Hgl in Hgl0. injection Hgl0 as <-.
  destruct r as [g dp' cp qb tx fbs cur tw th gen rl].
  cbn [generation] in Hdata.
  simpl in Hgl, Hdp, Hp, Ht, Hf, Hcur |- *. subst.
  destruct Hcur as [-> | ->].
  all: unfold WebGLRenderer.render, then_ at 1, get at 1.
  all: cbn [gl displayProgram generation].
  all: destruct (Z.eqb_spec (state_generation state) gen) as [Hgen|Hgen];
         [clear Hdata|destruct (Hdata Hgen) as [data Hd]; clear Hdata];
         cbn [negb].
  all: repeat frame_call.
  all: try rewrite same_compute_pass.
  all: erewrite compute_pass_unfold by reflexivity.
  all: do 4 eexists; (split; [reflexivity|]); (split; [reflexivity|]).
  all: cbn [gl displayProgram computeProgram quadBuffer textures
            framebuffers currentTexture textureWidth textureHeight
            generation rule set_gl set_rule set_textureSize
            set_currentTexture set_generation].
  all: change (1 - 0) with 1; change (1 - 1) with 0.
  all: rewrite ?(proj1 (element_pair _ _)),
         ?(proj1 (proj2 (element_pair _ _))).
  all: bind_live.
  all: repeat match goal with
              | |- context [texSubImage2D ?w ?h ?d ?x] =>
                  destruct (texSubImage2D_images w h d x) as [? ->]
              end.
  all: split; [cbn; rewrite <- app_assoc; reflexivity|].
  all: do 2 (split; [reflexivity|]); reflexivity.
Qed.

End FollowingFrame.

(** C4 (amended).  In a renderer whose texture pair is set up (two live
    textures, each attached to its own framebuffer, read index 0 or 1),
    the compute pass of either WebGL renderer issues one draw that
    samples [textures[currentTexture]], targets
    [framebuffers[1 - currentTexture]], whose attachment is
    [textures[1 - currentTexture]], a different texture; afterwards
    [currentTexture] is the index of the written texture and the pair is
    still set up.  In the following frame the display pass samples the
    written texture when the frame's snapshot has the generation the
    renderer holds; for any other generation [render] first uploads the
    snapshot into [textures[0]] and sets [currentTexture] to 0, so the
    display pass samples the upload and not what the pass wrote. *)
Theorem compute_pass_ping_pong (r : GLRenderer.t) :
  PingPong.ready r ->
  (exists r', WebGLComputeRenderer.computeNextState r = (r', Returns tt) /\
              PingPong.alternates r r' /\ PingPong.ready r') /\
  (exists r', WebGLRenderer.computeNextState r = (r', Returns tt) /\
              PingPong.alternates r r' /\ PingPong.ready r') /\
  (forall r' state dp,
     WebGLComputeRenderer.computeNextState r = (r', Returns tt) ->
     GLRenderer.displayProgram r = Some dp ->
     (forall c, GLRenderer.gl r = Some c -> GL.is_deleted dp c = false) ->
     (GLRenderer.state_generation state <> GLRenderer.generation r ->
      exists data,
        WebGLComputeRenderer.texture_data state = Returns data) ->
     exists r'' c' c'' d d',
       WebGLComputeRenderer.render state r' = (r'', Returns tt) /\
       GLRenderer.gl r' = Some c' /\ GLRenderer.gl r'' = Some c'' /\
       GL.draws c'' = GL.draws c' ++ [d; d'] /\
       GL.draw_program d = dp /\
       GL.draw_target d = None /\
       GL.draw_source d
       = GLRenderer.element (GLRenderer.textures r)
           (if GLRenderer.state_generation state =? GLRenderer.generation r
            then 1 - GLRenderer.currentTexture r else 0) /\
       (GLRenderer.state_generation state <> GLRenderer.generation r ->
        exists t0 img,
          GLRenderer.element (GLRenderer.textures r) 0 = Some t0 /\
          GL.assoc t0 (GL.images c'') = Some img /\
          WebGLComputeRenderer.texture_data state
          = Returns (GL.img_data img))) /\
  (forall r' state dp,
     WebGLRenderer.computeNextState r = (r', Returns tt) ->
     GLRenderer.displayProgram r = Some dp ->
     (forall c, GLRenderer.gl r = Some c -> GL.is_deleted dp c = false) ->
     (GLRenderer.state_generation state <> GLRenderer.generation r ->
      exists data,
        new_Uint8Array
          (Fin (Z.of_nat (length (GLRenderer.cells state))
                * (GLRenderer.vp_maxVisibleGenerations
                     (GLRenderer.viewport state) + 1) * 4))
        = Returns data) ->
     exists r'' c' c'' d d',
       WebGLRenderer.render state r' = (r'', Returns tt) /\
       GLRenderer.gl r' = Some c' /\ GLRenderer.gl r'' = Some c'' /\
       GL.draws c'' = GL.draws c' ++ [d; d'] /\
       GL.draw_program d = dp /\
       GL.draw_target d = None /\
       GL.draw_source d
       = GLRenderer.element (GLRenderer.textures r)
           (if GLRenderer.state_generation state =? GLRenderer.generation r
            then 1 - GLRenderer.currentTexture r else 0)).
Proof.
  intros Hready.
  split; [by apply compute_pass|].
  split; [rewrite same_compute_pass; by apply compute_pass|].
  assert (Hnext : forall r' dp,
            WebGLComputeRenderer.computeNextState r = (r', Returns tt) ->
            GLRenderer.displayProgram r = Some dp ->
            (forall c, GLRenderer.gl r = Some c ->
                       GL.is_deleted dp c = false) ->
            exists c', PingPong.ready r' /\ GLRenderer.gl r' = Some c' /\
              GLRenderer.displayProgram r' = Some dp /\
              GL.is_deleted dp c' = false /\
              GLRenderer.textures r' = GLRenderer.textures r /\
              GLRenderer.generation r' = GLRenderer.generation r /\
              GLRenderer.currentTexture r'
              = 1 - GLRenderer.currentTexture r).
  { intros r' dp Hrun Hdp Hlive.
    destruct (compute_pass r Hready) as (r1 & Hrun1 & _ & Hready').
    rewrite Hrun in Hrun1. injection Hrun1 as <-.
    destruct Hready as (c & p & _ & _ & _ & _ & Hgl & Hp & _).
    rewrite (compute_pass_unfold r c p Hgl Hp) in Hrun.
    injection Hrun as <-. eexists. split; [exact Hready'|].
    split; [reflexivity|]. split; [exact Hdp|].
    split; [|done].
    rewrite drawArrays_is_deleted,
      (quiet_is_deleted _ _ _ (quiet_bindFramebuffer _)),
      (quiet_is_deleted _ _ _ (quiet_bindTexture _)).
    destruct (GL.is_deleted p c); exact (Hlive c Hgl). }
  split.
  - intros r' state dp Hrun Hdp Hlive Hdata.
    destruct (Hnext r' dp Hrun Hdp Hlive)
      as (c' & Hready' & Hgl' & Hdp' & Hlive' & Ht & Hg & Hcur).
    destruct (compute_render_frame r' c' dp state Hready' Hgl' Hdp' Hlive')
      as (r2 & c2 & d & d' & H1 & H2 & H3 & H4 & H5 & H6 & H7).
    { by rewrite Hg. }
    exists r2, c', c2, d, d'. rewrite Ht, Hg, Hcur in *.
    do 7 (split; [done|]). done.
  - intros r' state dp Hrun Hdp Hlive Hdata.
    rewrite same_compute_pass in Hrun.
    destruct (Hnext r' dp Hrun Hdp Hlive)
      as (c' & Hready' & Hgl' & Hdp' & Hlive' & Ht & Hg & Hcur).
    destruct (webgl_render_frame r' c' dp state Hready' Hgl' Hdp' Hlive')
      as (r2 & c2 & d & d' & H1 & H2 & H3 & H4 & H5 & H6).
    { by rewrite Hg. }
    exists r2, c', c2, d, d'. rewrite Ht, Hg, Hcur in *.
    do 6 (split; [done|]). done.
Qed.

(** The hypothesis of C4 holds after [initialize] on a capable canvas. *)
Lemma compute_pass_ping_pong_witness :
  exists r',
    WebGLComputeRenderer.computeNextState initialized_compute
    = (r', Returns tt) /\
    PingPong.alternates initialized_compute r'.
Proof.
  destruct (compute_pass_ping_pong initialized_compute
              (proj2 initialized_compute_ready)) as [(r' & Hrun & Halt & _) _].
  exists r'. split; [exact Hrun|exact Halt].
Defined.

(** C4 as stated fails in two ways.  After [dispose] the renderer still
    holds its context and its deleted objects, and the compute pass of
    the next [render] draws into the canvas with no texture bound.  And
    what a pass wrote is not what the following frame reads when that
    frame brings a new generation: the pass of the first frame wrote
    texture 8, the second frame displays texture 7, into which it
    uploaded its snapshot. *)
Lemma compute_pass_outside_ping_pong :
  (exists r0 r1 r2 c2 d,
     WebGLComputeRenderer.render example_state initialized_compute
     = (r0, Returns tt) /\
     WebGLComputeRenderer.dispose r0 = (r1, Returns tt) /\
     WebGLComputeRenderer.computeNextState r1 = (r2, Returns tt) /\
     GLRenderer.gl r2 = Some c2 /\
     list.last (GL.draws c2) = Some d /\
     Some (GL.draw_program d) = GLRenderer.computeProgram r1 /\
     GL.draw_source d = None /\
     GL.draw_target d = None) /\
  (exists r1 r2 c2 pass display,
     WebGLComputeRenderer.render example_state initialized_compute
     = (r1, Returns tt) /\
     WebGLComputeRenderer.render next_state r1 = (r2, Returns tt) /\
     GLRenderer.gl r2 = Some c2 /\
     GL.draws c2 !! 1%nat = Some pass /\
     GL.draws c2 !! 2%nat = Some display /\
     Some (GL.draw_program pass) = GLRenderer.computeProgram r1 /\
     GL.draw_target_texture pass = Some 8%nat /\
     GLRenderer.element (GLRenderer.textures r1)
       (GLRenderer.currentTexture r1) = Some 8%nat /\
     Some (GL.draw_program display) = GLRenderer.displayProgram r1 /\
     GL.draw_target display = None /\
     GL.draw_source display = Some 7%nat).
Proof.
  split.
  - do 5 eexists. vm_compute. repeat split; reflexivity.
  - do 5 eexists. vm_compute. repeat split; reflexivity.
Qed.


(** ** C10: [render] on a renderer that is not ready *)

Section RenderGuards.

(** The Canvas2D renderer does nothing before [initialize], after a
    failed [initialize], and after [dispose]. *)
Lemma canvas2d_render_not_ready state :
  Canvas2DRenderer.render state Canvas2DRenderer.new
  = (Canvas2DRenderer.new, Returns tt) /\
  (forall dpr canvas r r' e,
      Canvas2DRenderer.initialize dpr canvas r = (r', Throws e) ->
      Canvas2DRenderer.render state r' = (r', Returns tt)) /\
  (forall r, Canvas2DRenderer.render state
               (fst (Canvas2DRenderer.dispose r))
             = (fst (Canvas2DRenderer.dispose r), Returns tt)).
Proof.
  split; [reflexivity|]. split; [|reflexivity].
  intros dpr canvas r r' e.
  unfold Canvas2DRenderer.initialize, then_, modify, get, throw. simpl.
  destruct (Canvas2DRenderer.getContext_2d canvas); simpl; [done|].
  intros [= <- <-]. reflexivity.
Qed.

Import GLRenderer.

(** The WebGL renderer does nothing before [initialize] and after
    [dispose]. *)
Lemma webgl_render_not_ready state :
  WebGLRenderer.render state WebGLRenderer.new
  = (WebGLRenderer.new, Returns tt) /\
  (forall r r' o, WebGLRenderer.dispose r = (r', o) ->
                  o = Returns tt /\ gl r' = None /\
                  WebGLRenderer.render state r' = (r', Returns tt)).
Proof.
  split; [reflexivity|].
  intros r r' o. unfold WebGLRenderer.dispose, then_ at 1, get.
  destruct (gl r) as [c|] eqn:Hgl.
  - unfold then_.
    destruct (delete_if_returns (displayProgram r) r c Hgl) as [c1 ->].
    destruct (delete_if_returns (computeProgram r)
                (set_gl (Some c1) r) c1 eq_refl) as [c2 ->].
    destruct (delete_if_returns (quadBuffer r)
                (set_gl (Some c2) (set_gl (Some c1) r)) c2 eq_refl)
      as [c3 ->].
    rewrite !set_gl_set_gl.
    destruct (delete_each_returns (textures r)
                (set_gl (Some c3) r) c3 eq_refl) as [c4 ->].
    destruct (delete_each_returns (framebuffers r)
                (set_gl (Some c4) (set_gl (Some c3) r)) c4 eq_refl)
      as [c5 ->].
    unfold modify. intros [= <- <-]. repeat split; reflexivity.
  - unfold ret. intros [= <- <-]. split; [done|]. split; [done|].
    unfold WebGLRenderer.render, then_, get. by rewrite Hgl.
Qed.

(** The compute renderer does nothing before [initialize]. *)
Lemma compute_render_before_initialize state :
  WebGLComputeRenderer.render state WebGLComputeRenderer.new
  = (WebGLComputeRenderer.new, Returns tt).
Proof. reflexivity. Qed.

End RenderGuards.

(** C10 (failing input).  [dispose] of the compute renderer deletes the
    GPU objects and keeps [gl] and [displayProgram], so the guard of
    [render] passes afterwards: [render] returns normally, assigns [rule],
    [generation], the texture size and [currentTexture], and issues its
    WebGL calls on the deleted objects. *)
Theorem compute_render_after_dispose_mutates :
  let disposed := fst (WebGLComputeRenderer.dispose initialized_compute) in
  let rendered := fst (WebGLComputeRenderer.render example_state disposed) in
  snd (WebGLComputeRenderer.dispose initialized_compute) = Returns tt /\
  snd (WebGLComputeRenderer.render example_state disposed) = Returns tt /\
  rendered <> disposed /\
  (GLRenderer.generation disposed, GLRenderer.generation rendered) = (0, 1) /\
  (GLRenderer.rule disposed, GLRenderer.rule rendered) = (0, 30) /\
  (GLRenderer.currentTexture disposed, GLRenderer.currentTexture rendered)
  = (0, 1) /\
  (GLRenderer.textureWidth disposed, GLRenderer.textureWidth rendered)
  = (Fin 1, Fin 4).
Proof.
  vm_compute. repeat split; try reflexivity. discriminate.
Qed.

(** The same guard passes after an [initialize] that failed at the second
    program: [gl] and [displayProgram] are already assigned. *)
Lemma render_after_failed_initialize_mutates :
  (let failed :=
     WebGLComputeRenderer.initialize no_compute_canvas WebGLComputeRenderer.new in
   let rendered := fst (WebGLComputeRenderer.render example_state (fst failed)) in
   snd failed = Throws ProgramLinkError /\
   (GLRenderer.generation (fst failed), GLRenderer.generation rendered)
   = (0, 1)) /\
  (let failed :=
     WebGLRenderer.initialize no_compute_canvas WebGLRenderer.new in
   let rendered := fst (WebGLRenderer.render example_state (fst failed)) in
   snd failed = Throws ProgramLinkError /\
   (GLRenderer.generation (fst failed), GLRenderer.generation rendered)
   = (0, 1)).
Proof. vm_compute. repeat split; reflexivity. Qed.

(** ** C6: the renderer factory *)

Section FactoryFacts.

Import RendererFactory FactorySpec.

Lemma isWebGL2Supported_returns (w : World) :
  exists w', isWebGL2Supported w = (w', Returns (supported w)) /\
             trace w' = trace w /\
             devicePixelRatio w' = devicePixelRatio w.
Proof.
  unfold isWebGL2Supported, supported, then_, get, try_catch.
  destruct (webGLSupportCache w) as [b|]; [by eexists|].
  destruct (probe w); simpl; by eexists.
Qed.

Lemma gpu_selected_returns (preferredType : option RendererType) (w : World) :
  exists w', gpu_selected preferredType w
             = (w', Returns (chooses_gpu preferredType w)) /\
             trace w' = trace w /\
             devicePixelRatio w' = devicePixelRatio w.
Proof.
  unfold gpu_selected, chooses_gpu.
  destruct (wants_gpu preferredType); simpl.
  - apply isWebGL2Supported_returns.
  - by exists w.
Qed.

Lemma canvas2d_initialize (dpr : Z) (c : Dom.Canvas) :
  exists r, Canvas2DRenderer.initialize dpr c Canvas2DRenderer.new
            = (r, match Canvas2DRenderer.getContext_2d c with
                  | Some _ => Returns tt
                  | None => Throws No2DContext
                  end) /\
            Canvas2DRenderer.canvas r = Some c /\
            match Canvas2DRenderer.getContext_2d c with
            | Some context =>
                Canvas2DRenderer.ctx r
                = Some {| Dom.imageSmoothingEnabled := false;
                          Dom.fillStyle := Dom.fillStyle context;
                          Dom.painted := Dom.painted context |}
            | None => Canvas2DRenderer.ctx r = None
            end.
Proof.
  unfold Canvas2DRenderer.initialize, then_, modify, get, throw. simpl.
  destruct (Canvas2DRenderer.getContext_2d c); simpl; by eexists.
Qed.

(** The Canvas2D path: it throws exactly when a canvas is given that
    yields no 2D context. *)
Lemma createCanvas2D_outcome (canvas : option Dom.Canvas) (w : World) :
  exists w' o, createCanvas2D canvas w = (w', o) /\
    trace w' = trace w ++ [ConstructedCanvas2D] /\
    match canvas with
    | Some c =>
        match Canvas2DRenderer.getContext_2d c with
        | Some context =>
            exists r, o = Returns (Canvas2D r) /\
              Canvas2DRenderer.canvas r = Some c /\
              Canvas2DRenderer.ctx r
              = Some {| Dom.imageSmoothingEnabled := false;
                        Dom.fillStyle := Dom.fillStyle context;
                        Dom.painted := Dom.painted context |}
        | None => o = Throws No2DContext
        end
    | None => o = Returns (Canvas2D Canvas2DRenderer.new)
    end.
Proof.
  unfold createCanvas2D, then_, emit, modify, get, invoke, ret.
  destruct canvas as [c|]; simpl.
  - destruct (canvas2d_initialize (devicePixelRatio w) c)
      as (r & -> & Hc & Hctx).
    destruct (Canvas2DRenderer.getContext_2d c); do 2 eexists;
      repeat split; by eexists.
  - do 2 eexists. repeat split.
Qed.

(** A canvas that gave out a WebGL2 context gives no 2D context
    afterwards; a canvas that gave none is as it was. *)
Lemma canvas_after_gpu_2d (c : Dom.Canvas) :
  Canvas2DRenderer.getContext_2d (canvas_after_gpu c)
  = match Dom.getContext_webgl2 c with
    | Some _ => None
    | None => Canvas2DRenderer.getContext_2d c
    end.
Proof.
  unfold canvas_after_gpu. by destruct (Dom.getContext_webgl2 c).
Qed.


Lemma createGPU_outcome (canvas : option Dom.Canvas) (w : World) :
  exists w', trace w' = trace w ++ [ConstructedGPU] /\
    devicePixelRatio w' = devicePixelRatio w /\
    createGPU canvas w
    = (w', match canvas with
           | Some c =>
               match WebGLComputeRenderer.initialize c
                       WebGLComputeRenderer.new with
               | (r, Returns _) => Returns (WebGLCompute r)
               | (_, Throws e) => Throws e
               end
           | None => Returns (WebGLCompute WebGLComputeRenderer.new)
           end).
Proof.
  exists {| webGLSupportCache := webGLSupportCache w; probe := probe w;
            devicePixelRatio := devicePixelRatio w;
            trace := trace w ++ [ConstructedGPU] |}.
  split; [done|]. split; [done|].
  unfold createGPU, then_, emit, modify, invoke, ret.
  destruct canvas as [c|]; simpl; [|done].
  by destruct (WebGLComputeRenderer.initialize c WebGLComputeRenderer.new)
    as [r [[]|e]].
Qed.

End FactoryFacts.




(** ** C5: the cells both renderers show as live *)

Section LiveCellFacts.

Import LiveCells.

(** *** The Canvas2D side *)

Lemma row_cells_from_in (r : nat) (g : list jsbool) (j : nat)
    (acc : list (nat * nat)) (x y : nat) :
  In (x, y)
    (forEach_from j g
       (fun acc cell x => if truthy cell then acc ++ [(x, r)] else acc) acc)
  <-> In (x, y) acc
      \/ (y = r /\ exists n c, g !! n = Some c /\ truthy c = true
                               /\ x = (j + n)%nat).
Proof.
  revert j acc. induction g as [|c g IH]; intros j acc; simpl.
  - split; [by left|]. intros [H|(_ & n & c & Hn & _)]; [done|].
    by rewrite lookup_nil in Hn.
  - rewrite IH. split.
    + intros [H|(-> & n & c' & Hn & Hc & ->)].
      * destruct (truthy c) eqn:Hc; [|by left].
        apply in_app_or in H as [H|[[= <- <-]|[]]]; [by left|].
        right. split; [done|]. exists 0%nat, c. simpl.
        repeat split; [done|lia].
      * right. split; [done|]. exists (S n), c'. simpl.
        repeat split; [done|done|lia].
    + intros [H|(-> & [|n] & c' & Hn & Hc & ->)].
      * left. destruct (truthy c); [apply in_or_app; by left|done].
      * simpl in Hn. injection Hn as <-. left. rewrite Hc.
        apply in_or_app. right. left. f_equal. lia.
      * right. split; [done|]. exists n, c'. simpl in Hn.
        repeat split; [done|done|lia].
Qed.

Lemma row_cells_in (r : nat) (g : list jsbool) (acc : list (nat * nat))
    (x y : nat) :
  In (x, y) (Canvas2DRenderer.row_cells r g acc)
  <-> In (x, y) acc
      \/ (y = r /\ exists c, g !! x = Some c /\ truthy c = true).
Proof.
  unfold Canvas2DRenderer.row_cells, forEach. rewrite row_cells_from_in.
  split; intros [H|(-> & H)]; try (by left); right; (split; [done|]).
  - destruct H as (n & c & Hn & Hc & ->). by exists c.
  - destruct H as (c & Hx & Hc). by exists x, c.
Qed.

Lemma rows_cells_from_in (rows : list (list jsbool)) (i : nat)
    (acc : list (nat * nat)) (x y : nat) :
  In (x, y)
    (forEach_from i rows
       (fun acc genCells index => Canvas2DRenderer.row_cells index genCells acc)
       acc)
  <-> In (x, y) acc
      \/ exists n, y = (i + n)%nat /\ live_at rows n x.
Proof.
  revert i acc. induction rows as [|g rows IH]; intros i acc; simpl.
  - split; [by left|]. intros [H|(n & _ & row & c & Hn & _)]; [done|].
    by rewrite lookup_nil in Hn.
  - rewrite IH, row_cells_in. split.
    + intros [[H|(-> & c & Hx & Hc)]|(n & -> & row & c & Hn & Hx & Hc)].
      * by left.
      * right. exists 0%nat. split; [lia|]. by exists g, c.
      * right. exists (S n). split; [lia|]. by exists row, c.
    + intros [H|([|n] & -> & row & c & Hn & Hx & Hc)].
      * left. by left.
      * simpl in Hn. injection Hn as <-. left. right.
        split; [lia|]. by exists c.
      * right. exists n. split; [lia|]. by exists row, c.
Qed.


Lemma live_at_snoc (prev : list (list jsbool)) (cells : list jsbool)
    (y x : nat) :
  live_at (prev ++ [cells]) y x
  <-> live_at prev y x
      \/ (y = length prev /\ exists c, cells !! x = Some c /\ truthy c = true).
Proof.
  unfold live_at. split.
  - intros (row & c & Hy & Hx & Hc).
    apply lookup_app_Some in Hy as [Hy|[Hge Hy]].
    + left. by exists row, c.
    + right. destruct (y - length prev)%nat as [|k] eqn:Hk; simpl in Hy;
        [|by rewrite lookup_nil in Hy].
      injection Hy as <-. split; [lia|]. by exists c.
  - intros [(row & c & Hy & Hx & Hc)|(-> & c & Hx & Hc)].
    + exists row, c. split; [|done]. by apply lookup_app_l_Some.
    + exists cells, c. split; [|done].
      rewrite lookup_app_r by lia. by rewrite Nat.sub_diag.
Qed.


(** *** The texture side *)

Lemma write_lookup_hit {A} (a : list A) (k : nat) (v : A) :
  (k < length a)%nat -> write a (Z.of_nat k) v !! k = Some v.
Proof.
  intros H. unfold write. replace (Z.of_nat k <? 0) with false by lia.
  rewrite Nat2Z.id. by apply list_lookup_insert_eq.
Qed.

Lemma write_lookup_miss {A} (a : list A) (i : Z) (k : nat) (v : A) :
  i <> Z.of_nat k -> write a i v !! k = a !! k.
Proof.
  intros H. unfold write. destruct (i <? 0) eqn:Hi; [done|].
  apply list_lookup_insert_ne. lia.
Qed.

Section Row.

Variables (W : Z) (y : nat).

Let body := fun (data : list Z) (cell : jsbool) (x : nat) =>
              if truthy cell
              then write data (Z.of_nat y * W + Z.of_nat x) 255
              else data.

Lemma encode_from_length g j data :
  length (forEach_from j g body data) = length data.
Proof using Type.
  revert j data. induction g as [|c g IH]; intros j data; simpl; [done|].
  rewrite IH. unfold body. destruct (truthy c); [apply write_length|done].
Qed.

Lemma encode_from_keep g j data k :
  data !! k = Some 255 -> forEach_from j g body data !! k = Some 255.
Proof using Type.
  revert j data. induction g as [|c g IH]; intros j data H; simpl; [done|].
  apply IH. unfold body. destruct (truthy c); [|done].
  destruct (decide (Z.of_nat y * W + Z.of_nat j = Z.of_nat k)) as [E|E].
  - rewrite E. apply write_lookup_hit. by eapply lookup_lt_Some.
  - by rewrite write_lookup_miss.
Qed.

Lemma encode_from_hit g j data k n c :
  g !! n = Some c -> truthy c = true ->
  Z.of_nat k = Z.of_nat y * W + Z.of_nat (j + n) ->
  (k < length data)%nat ->
  forEach_from j g body data !! k = Some 255.
Proof using Type.
  revert j data n. induction g as [|c' g IH]; intros j data n Hn Hc Hk Hlt;
    [by rewrite lookup_nil in Hn|].
  simpl. destruct n as [|n]; simpl in Hn.
  - injection Hn as ->. apply encode_from_keep. unfold body. rewrite Hc.
    replace (Z.of_nat y * W + Z.of_nat j) with (Z.of_nat k) by lia.
    by apply write_lookup_hit.
  - apply (IH (S j) _ n); try done; [lia|].
    unfold body. destruct (truthy c'); [by rewrite write_length|done].
Qed.

Lemma encode_from_trace g j data k :
  forEach_from j g body data !! k = data !! k
  \/ exists n c, g !! n = Some c /\ truthy c = true
                 /\ Z.of_nat k = Z.of_nat y * W + Z.of_nat (j + n).
Proof using Type.
  revert j data. induction g as [|c g IH]; intros j data; simpl; [by left|].
  destruct (IH (S j) (body data c j)) as [H|(n & c' & Hn & Hc & Hk)].
  - rewrite H. unfold body. destruct (truthy c) eqn:Hc; [|by left].
    destruct (decide (Z.of_nat y * W + Z.of_nat j = Z.of_nat k)) as [E|E].
    + right. exists 0%nat, c. simpl. repeat split; [done|lia].
    + left. by apply write_lookup_miss.
  - right. exists (S n), c'. simpl. repeat split; [done|done|lia].
Qed.

End Row.

Section Rows.

Variable W : Z.

Let body := fun (data : list Z) (genCells : list jsbool) (i : nat) =>
              WebGLComputeRenderer.encode_row W i genCells data.

Lemma encode_rows_from_length rows i data :
  length (forEach_from i rows body data) = length data.
Proof using Type.
  revert i data. induction rows as [|g rows IH]; intros i data; simpl;
    [done|].
  rewrite IH. apply encode_from_length.
Qed.

Lemma encode_rows_from_keep rows i data k :
  data !! k = Some 255 -> forEach_from i rows body data !! k = Some 255.
Proof using Type.
  revert i data. induction rows as [|g rows IH]; intros i data H; simpl;
    [done|].
  apply IH. by apply encode_from_keep.
Qed.

Lemma encode_rows_from_hit rows i data k n g m c :
  rows !! n = Some g -> g !! m = Some c -> truthy c = true ->
  Z.of_nat k = Z.of_nat (i + n) * W + Z.of_nat m ->
  (k < length data)%nat ->
  forEach_from i rows body data !! k = Some 255.
Proof using Type.
  revert i data n. induction rows as [|g' rows IH];
    intros i data n Hn Hm Hc Hk Hlt; [by rewrite lookup_nil in Hn|].
  simpl. destruct n as [|n]; simpl in Hn.
  - injection Hn as ->. apply encode_rows_from_keep.
    unfold body, WebGLComputeRenderer.encode_row, forEach.
    apply (encode_from_hit W i g 0 data k m c); try done.
    rewrite Nat.add_0_r in Hk. simpl. lia.
  - apply (IH (S i) _ n); try done; [lia|].
    unfold body, WebGLComputeRenderer.encode_row, forEach.
    by rewrite encode_from_length.
Qed.

Lemma encode_rows_from_trace rows i data k :
  forEach_from i rows body data !! k = data !! k
  \/ exists n g m c, rows !! n = Some g /\ g !! m = Some c
                     /\ truthy c = true
                     /\ Z.of_nat k = Z.of_nat (i + n) * W + Z.of_nat m.
Proof using Type.
  revert i data. induction rows as [|g rows IH]; intros i data; simpl;
    [by left|].
  destruct (IH (S i) (body data g i)) as [H|(n & g' & m & c & Hn & Hm & Hc & Hk)].
  - rewrite H. unfold body, WebGLComputeRenderer.encode_row, forEach.
    destruct (encode_from_trace W i g 0 data k) as [E|(m & c & Hm & Hc & Hk)].
    + by left.
    + right. exists 0%nat, g, m, c. simpl. repeat split; try done.
      rewrite Nat.add_0_r. simpl in Hk. lia.
  - right. exists (S n), g', m, c. simpl. repeat split; try done. lia.
Qed.

End Rows.

Lemma pow2ceil_covers (n : Z) :
  1 <= n -> exists p, pow2ceil n = Fin p /\ n <= p.
Proof.
  intros Hn. unfold pow2ceil.
  replace (n <? 0) with false by lia. replace (n =? 0) with false by lia.
  eexists. split; [reflexivity|].
  destruct (decide (n = 1)) as [->|Hne]; [done|].
  pose proof (Z.log2_up_spec n). lia.
Qed.

Lemma new_Uint8Array_returns (k : Z) (data : list Z) :
  new_Uint8Array (Fin k) = Returns data ->
  0 <= k /\ data = replicate (Z.to_nat k) 0.
Proof.
  unfold new_Uint8Array.
  destruct (Z.leb_spec 0 k); simpl; [|done].
  destruct (k <? 2 ^ 53); [|done]. by intros [= <-].
Qed.

Lemma same_cell_address (W y x n m : Z) :
  0 <= x < W -> 0 <= m < W -> y * W + x = n * W + m -> y = n /\ x = m.
Proof. intros Hx Hm H. assert (y = n) by nia. subst. lia. Qed.



End LiveCellFacts.





(** * Further properties of the code *)

(** ** Resizing the generation *)

Section Recenter.

Variables (n offset : Z).

Let body := fun (acc : list jsbool) (cell : jsbool) (i : nat) =>
              if (0 <=? Z.of_nat i + offset) && (Z.of_nat i + offset <? n)
              then write acc (Z.of_nat i + offset) cell
              else acc.

Lemma recenter_from_length l i0 acc :
  length (forEach_from i0 l body acc) = length acc.
Proof using Type.
  revert i0 acc. induction l as [|v l IH]; intros i0 acc; simpl; [done|].
  rewrite IH. unfold body. destruct (_ && _); [apply write_length|done].
Qed.

(** Index [j] of the result is the old cell that lands on it, if any. *)
Lemma recenter_from_lookup l i0 acc (j : nat) :
  Z.of_nat (length acc) = n ->
  forEach_from i0 l body acc !! j
  = if decide (0 <= Z.of_nat j - offset - Z.of_nat i0 < Z.of_nat (length l)
               /\ (j < length acc)%nat)
    then l !! Z.to_nat (Z.of_nat j - offset - Z.of_nat i0)
    else acc !! j.
Proof using Type.
  revert i0 acc. induction l as [|v l IH]; intros i0 acc Hlen; simpl.
  - case_decide; [lia|done].
  - rewrite IH.
    2: { unfold body. destruct (_ && _); [by rewrite write_length|done]. }
    assert (Hb : length (body acc v i0) = length acc).
    { unfold body. destruct (_ && _); [by rewrite write_length|done]. }
    rewrite Hb.
    destruct (decide (Z.of_nat j - offset - Z.of_nat i0 = 0)) as [Hz|Hnz].
    + (* the head lands on j *)
      rewrite decide_False by lia.
      case_decide as Hin.
      * rewrite Hz. simpl. unfold body.
        destruct (Z.leb_spec 0 (Z.of_nat i0 + offset)); [|lia].
        destruct (Z.ltb_spec (Z.of_nat i0 + offset) n); [|lia]. simpl.
        replace (Z.of_nat i0 + offset) with (Z.of_nat j) by lia.
        apply write_lookup_hit. lia.
      * unfold body. destruct (_ && _) eqn:Hc; [|done].
        apply andb_true_iff in Hc as [H1 H2].
        apply Z.leb_le in H1. apply Z.ltb_lt in H2. lia.
    + case_decide as H1; case_decide as H2; try lia.
      * replace (Z.to_nat (Z.of_nat j - offset - Z.of_nat i0))
          with (S (Z.to_nat (Z.of_nat j - offset - Z.of_nat (S i0)))) by lia.
        reflexivity.
      * unfold body. destruct (_ && _); [|done].
        apply write_lookup_miss. lia.
Qed.

End Recenter.

Lemma resizeCells_returns (m : num) (cells c' : list jsbool) :
  resizeCells m cells = Returns c' ->
  exists k, m = Fin k /\ 0 <= k < 2 ^ 32 /\
    c' = recenter k cells (replicate (Z.to_nat k) (Some false)).
Proof.
  unfold resizeCells, new_Array. destruct m as [k| | |]; simpl; try done.
  destruct (Z.leb_spec 0 k); simpl; [|done].
  destruct (Z.ltb_spec k (2 ^ 32)); simpl; [|done].
  intros [= <-]. exists k. repeat split; lia.
Qed.

Lemma recenter_lookup (k : Z) (cells : list jsbool) (j : nat) :
  0 <= k -> Z.of_nat j < k ->
  let offset := (k - Z.of_nat (length cells)) / 2 in
  recenter k cells (replicate (Z.to_nat k) (Some false)) !! j
  = Some (if (0 <=? Z.of_nat j - offset)
             && (Z.of_nat j - offset <? Z.of_nat (length cells))
          then read cells (Z.of_nat j - offset)
          else Some false).
Proof.
  intros Hk Hj offset. unfold recenter, forEach. fold offset.
  rewrite recenter_from_lookup by (rewrite length_replicate; lia).
  rewrite length_replicate.
  destruct (Z.leb_spec 0 (Z.of_nat j - offset));
    destruct (Z.ltb_spec (Z.of_nat j - offset) (Z.of_nat (length cells)));
    simpl; case_decide; try lia.
  - unfold read, at_index.
    destruct (Z.ltb_spec (Z.of_nat j - offset) 0); [lia|].
    replace (Z.of_nat j - offset - Z.of_nat 0) with (Z.of_nat j - offset) by lia.
    destruct (cells !! Z.to_nat (Z.of_nat j - offset)) as [v|] eqn:Hv; [done|].
    apply lookup_ge_None in Hv. lia.
  - apply lookup_replicate_2. lia.
  - apply lookup_replicate_2. lia.
Qed.

(** X1.  A viewport reset that returns ([updateCanvasSize], [setCellSize],
    [setCellMargin]) leaves [maxCells] cells; cell [j] is the old cell [j - offset] with
    [offset = floor ((maxCells - oldLength) / 2)] when there is one, and
    [false] otherwise: growing recentres the generation, shrinking clips
    it on both sides. *)
Theorem resize_recentres_cells (win : Window) (x : Z) (s s' : UseStore.Store) :
  UseStore.updateCanvasSize win x s = Returns s'
  \/ UseStore.setCellSize win x s = Returns s'
  \/ UseStore.setCellMargin win x s = Returns s' ->
  exists k : Z,
    UseStore.maxCells s' = Fin k /\ 0 <= k < 2 ^ 32 /\
    Z.of_nat (length (UseStore.cells s')) = k /\
    forall j : nat, Z.of_nat j < k ->
      let offset := (k - Z.of_nat (length (UseStore.cells s))) / 2 in
      UseStore.cells s' !! j
      = Some (if (0 <=? Z.of_nat j - offset)
                 && (Z.of_nat j - offset
                     <? Z.of_nat (length (UseStore.cells s)))
              then read (UseStore.cells s) (Z.of_nat j - offset)
              else Some false).
Proof.
  assert (Hgen : forall m c', resizeCells m (UseStore.cells s) = Returns c' ->
            exists k, m = Fin k /\ 0 <= k < 2 ^ 32 /\
              Z.of_nat (length c') = k /\
              forall j : nat, Z.of_nat j < k ->
                let offset := (k - Z.of_nat (length (UseStore.cells s))) / 2 in
                c' !! j
                = Some (if (0 <=? Z.of_nat j - offset)
                           && (Z.of_nat j - offset
                               <? Z.of_nat (length (UseStore.cells s)))
                        then read (UseStore.cells s) (Z.of_nat j - offset)
                        else Some false)).
  { intros m c' H. apply resizeCells_returns in H as (k & -> & Hk & ->).
    exists k. split; [done|]. split; [done|]. split.
    - unfold recenter, forEach. rewrite recenter_from_length, length_replicate.
      lia.
    - intros j Hj. apply recenter_lookup; lia. }
  unfold UseStore.updateCanvasSize, UseStore.setCellSize,
    UseStore.setCellMargin.
  intros [H|[H|H]]; revert H;
    match goal with
    | |- context [resizeCells ?m ?c] =>
        destruct (resizeCells m c) as [c'|] eqn:Hr; simpl; [|done];
        intros [= <-];
        destruct (Hgen _ _ Hr) as (k & Hm & Hk & Hl & Hj);
        exists k; split; [exact Hm|]; split; [exact Hk|];
        split; [exact Hl|exact Hj]
    end.
Qed.

(** The hypothesis of X1 holds for a window of 316 pixels. *)
Lemma resize_recentres_cells_witness :
  exists k : Z,
    UseStore.maxCells
      (UseStore.set_viewport 4 0
         [Some false; Some true; Some false; Some false]
         (calculateCanvasMetrics {| innerWidth := 316; innerHeight := 400 |}
            316 4 0)
         (example_store [Some true; Some false] [[Some false; Some true]]
            (replicate 8 (Some false)) (Fin 100))) = Fin k /\
    0 <= k < 2 ^ 32.
Proof.
  destruct (resize_recentres_cells
              {| innerWidth := 316; innerHeight := 400 |} 316
              (example_store [Some true; Some false] [[Some false; Some true]]
                 (replicate 8 (Some false)) (Fin 100))
              (UseStore.set_viewport 4 0
                 [Some false; Some true; Some false; Some false]
                 (calculateCanvasMetrics
                    {| innerWidth := 316; innerHeight := 400 |} 316 4 0)
                 (example_store [Some true; Some false]
                    [[Some false; Some true]]
                    (replicate 8 (Some false)) (Fin 100))))
    as (k & Hk & Hb & _).
  - left. reflexivity.
  - exists k. split; [exact Hk|exact Hb].
Defined.

(** X2.  With a positive [cellSize + cellMargin], [updateCanvasSize]
    returns exactly when the window is at least as wide as the sidebar
    (and the cell count stays below 2^32); otherwise, and whenever
    [cellSize + cellMargin] is 0, it throws a [RangeError] from
    [new Array(maxCells)], before anything is stored. *)
Theorem updateCanvasSize_range (win : Window) (windowWidth : Z)
    (s : UseStore.Store) :
  let pitch := UseStore.cellSize s + UseStore.cellMargin s in
  (pitch = 0 -> UseStore.updateCanvasSize win windowWidth s = Throws RangeError)
  /\ (0 < pitch ->
      (SIDEBAR_WIDTH <= windowWidth
       /\ windowWidth - SIDEBAR_WIDTH < 2 ^ 32 * pitch ->
       exists s', UseStore.updateCanvasSize win windowWidth s = Returns s')
      /\ (windowWidth < SIDEBAR_WIDTH
          \/ 2 ^ 32 * pitch <= windowWidth - SIDEBAR_WIDTH ->
          UseStore.updateCanvasSize win windowWidth s = Throws RangeError)).
Proof.
  intros pitch. unfold UseStore.updateCanvasSize, resizeCells, new_Array.
  simpl. fold pitch. unfold floor_div, SIDEBAR_WIDTH.
  split.
  - intros ->. simpl.
    destruct (0 <? windowWidth - 300); [done|].
    by destruct (windowWidth - 300 <? 0).
  - intros Hp. destruct (Z.eqb_spec pitch 0) as [|_]; [lia|].
    pose proof (Z.div_mod (windowWidth - 300) pitch ltac:(lia)).
    pose proof (Z.mod_pos_bound (windowWidth - 300) pitch Hp).
    split.
    + intros [H1 H2].
      destruct (Z.leb_spec 0 ((windowWidth - 300) / pitch)); [|nia].
      destruct (Z.ltb_spec ((windowWidth - 300) / pitch) (2 ^ 32)); [|nia].
      simpl. by eexists.
    + intros [H1|H1].
      * destruct (Z.leb_spec 0 ((windowWidth - 300) / pitch)); [nia|done].
      * destruct (Z.leb_spec 0 ((windowWidth - 300) / pitch)); [|done].
        destruct (Z.ltb_spec ((windowWidth - 300) / pitch) (2 ^ 32)); [nia|done].
Qed.

(** The hypotheses of X2 hold for the default cell size. *)
Lemma updateCanvasSize_range_witness :
  UseStore.updateCanvasSize {| innerWidth := 200; innerHeight := 400 |} 200
    (example_store [Some true] [] (replicate 8 (Some false)) (Fin 100))
  = Throws RangeError.
Proof.
  apply (updateCanvasSize_range {| innerWidth := 200; innerHeight := 400 |} 200
           (example_store [Some true] [] (replicate 8 (Some false)) (Fin 100))).
  - simpl. lia.
  - left. unfold SIDEBAR_WIDTH. lia.
Defined.

(** X3.  Growing the generation and shrinking it back is the identity
    only for an even difference: for an odd one the cells come back moved
    one place to the left, the first cell is lost and a dead cell is
    appended. *)
Theorem resize_round_trip (cells grown back : list jsbool) (k : Z) :
  Z.of_nat (length cells) <= k ->
  resizeCells (Fin k) cells = Returns grown ->
  resizeCells (Fin (Z.of_nat (length cells))) grown = Returns back ->
  (Z.even (k - Z.of_nat (length cells)) = true -> back = cells)
  /\ (Z.even (k - Z.of_nat (length cells)) = false ->
      back = tail cells ++ replicate (Nat.min 1 (length cells)) (Some false)).
Proof.
  intros Hle Hup Hdown.
  apply resizeCells_returns in Hup as (k1 & [= <-] & Hk & ->).
  apply resizeCells_returns in Hdown as (k2 & [= <-] & Hk2 & ->).
  set (len := length cells) in *.
  set (grown := recenter k cells (replicate (Z.to_nat k) (Some false))).
  assert (Hgl : Z.of_nat (length grown) = k).
  { unfold grown, recenter, forEach.
    rewrite recenter_from_length, length_replicate. lia. }
  assert (Hback : forall j : nat, (j < len)%nat ->
            recenter (Z.of_nat len) grown
              (replicate (Z.to_nat (Z.of_nat len)) (Some false)) !! j
            = Some (let i := Z.of_nat j + (k - Z.of_nat len) mod 2 in
                    if i <? Z.of_nat len then read cells i else Some false)).
  { intros j Hj. rewrite recenter_lookup by lia. rewrite Hgl.
    pose proof (Z.div_mod (Z.of_nat len - k) 2 ltac:(lia)) as D1.
    pose proof (Z.mod_pos_bound (Z.of_nat len - k) 2 ltac:(lia)) as B1.
    pose proof (Z.div_mod (k - Z.of_nat len) 2 ltac:(lia)) as D2.
    pose proof (Z.mod_pos_bound (k - Z.of_nat len) 2 ltac:(lia)) as B2.
    assert (Hm : (Z.of_nat len - k) mod 2 = (k - Z.of_nat len) mod 2) by lia.
    set (o2 := (Z.of_nat len - k) / 2) in *.
    destruct (Z.leb_spec 0 (Z.of_nat j - o2)); [|lia].
    destruct (Z.ltb_spec (Z.of_nat j - o2) k); [|lia]. simpl. f_equal.
    unfold read at 1, at_index.
    destruct (Z.ltb_spec (Z.of_nat j - o2) 0); [lia|].
    unfold grown.
    rewrite (recenter_lookup k cells (Z.to_nat (Z.of_nat j - o2))) by lia.
    simpl. fold len. rewrite Z2Nat.id by lia.
    set (o1 := (k - Z.of_nat len) / 2) in *.
    replace (Z.of_nat j - o2 - o1)
      with (Z.of_nat j + (k - Z.of_nat len) mod 2) by lia.
    destruct (Z.leb_spec 0 (Z.of_nat j + (k - Z.of_nat len) mod 2)); [|lia].
    simpl. reflexivity. }
  assert (Hbl : length (recenter (Z.of_nat len) grown
                          (replicate (Z.to_nat (Z.of_nat len)) (Some false)))
                = len).
  { unfold recenter, forEach. rewrite recenter_from_length, length_replicate.
    lia. }
  split; intros Hev.
  - apply list_eq. intros j. destruct (decide (j < len)%nat) as [Hj|Hj].
    + rewrite Hback by done. simpl.
      rewrite Zmod_even, Hev, Z.add_0_r.
      destruct (Z.ltb_spec (Z.of_nat j) (Z.of_nat len)); [|lia].
      unfold read, at_index. destruct (Z.ltb_spec (Z.of_nat j) 0); [lia|].
      rewrite Nat2Z.id.
      destruct (cells !! j) as [v|] eqn:Hv; [done|].
      apply lookup_ge_None in Hv. fold len in Hv. lia.
    + rewrite !lookup_ge_None_2; [done|fold len; lia|lia].
  - apply list_eq. intros j. destruct (decide (j < len)%nat) as [Hj|Hj].
    + rewrite Hback by done. simpl. rewrite Zmod_even, Hev.
      destruct (Z.ltb_spec (Z.of_nat j + 1) (Z.of_nat len)).
      * rewrite lookup_app_l by (rewrite length_tl; fold len; lia).
        rewrite lookup_tail. unfold read, at_index.
        destruct (Z.ltb_spec (Z.of_nat j + 1) 0); [lia|].
        replace (Z.to_nat (Z.of_nat j + 1)) with (S j) by lia.
        destruct (cells !! S j) as [v|] eqn:Hv; [done|].
        apply lookup_ge_None in Hv. fold len in Hv. lia.
      * rewrite lookup_app_r by (rewrite length_tl; fold len; lia).
        rewrite length_tl. fold len.
        replace (j - (len - 1))%nat with 0%nat by lia.
        clear -Hj. subst len. destruct (length cells); [lia|reflexivity].
    + rewrite !lookup_ge_None_2; [done| |lia].
      rewrite length_app, length_tl, length_replicate. fold len. lia.
Qed.

(** The hypotheses of X3 hold for two cells grown to five. *)
Lemma resize_round_trip_witness :
  [Some false; Some false]
  = tail [Some true; Some false]
    ++ replicate (Nat.min 1 (length [Some true; Some false])) (Some false).
Proof.
  refine (proj2 (resize_round_trip [Some true; Some false]
                   [Some false; Some true; Some false; Some false; Some false]
                   [Some false; Some false] 5 _ eq_refl eq_refl) eq_refl).
  simpl. lia.
Defined.

(** ** Metrics *)

(** X4.  For a positive [cellSize + cellMargin], in every store: the
    render width is a whole number of cells, it leaves less than one cell
    of the available width unused, and the render margin is half of what
    is left, rounded down, so margin, cells and margin fit in the
    available width. *)
Theorem metrics_fit (win : Window) (windowWidth cellSize cellMargin : Z) :
  0 < cellSize + cellMargin ->
  forall m : Metrics,
    m = calculateCanvasMetrics win windowWidth cellSize cellMargin
    \/ m = calculateCanvasMetrics_render win windowWidth cellSize cellMargin ->
    exists cellsN margin : Z,
      m_maxCells m = Fin cellsN /\
      m_renderWidth m = Fin (cellsN * (cellSize + cellMargin)) /\
      m_renderMargin m = Fin margin /\
      0 <= m_availableWidth m - cellsN * (cellSize + cellMargin)
        < cellSize + cellMargin /\
      2 * margin
      <= m_availableWidth m - cellsN * (cellSize + cellMargin)
      <= 2 * margin + 1 /\
      0 <= margin /\
      margin + cellsN * (cellSize + cellMargin) + margin
      <= m_availableWidth m.
Proof.
  intros Hp m Hm.
  assert (Hfields :
    m_availableWidth m = windowWidth - SIDEBAR_WIDTH /\
    m_maxCells m = floor_div (windowWidth - SIDEBAR_WIDTH) (cellSize + cellMargin) /\
    m_renderWidth m = mul_int (m_maxCells m) (cellSize + cellMargin) /\
    m_renderMargin m
    = floor_half (int_sub (m_availableWidth m) (m_renderWidth m))).
  { destruct Hm as [-> | ->]; repeat split. }
  destruct Hfields as (Ha & Hc & Hw & Hr).
  rewrite Hr, Hw, Hc, Ha. unfold floor_div.
  destruct (Z.eqb_spec (cellSize + cellMargin) 0) as [|_]; [lia|].
  set (a := windowWidth - SIDEBAR_WIDTH). set (p := cellSize + cellMargin) in *.
  pose proof (Z.div_mod a p ltac:(lia)).
  pose proof (Z.mod_pos_bound a p Hp).
  pose proof (Z.div_mod (a - a / p * p) 2 ltac:(lia)).
  pose proof (Z.mod_pos_bound (a - a / p * p) 2 ltac:(lia)).
  exists (a / p), ((a - a / p * p) / 2). simpl.
  repeat split; try lia; nia.
Qed.

(** The hypothesis of X4 holds for the default cell size. *)
Lemma metrics_fit_witness :
  exists cellsN margin : Z,
    m_maxCells (calculateCanvasMetrics
                  {| innerWidth := 1024; innerHeight := 768 |} 1024 4 1)
    = Fin cellsN /\
    m_renderMargin (calculateCanvasMetrics
                      {| innerWidth := 1024; innerHeight := 768 |} 1024 4 1)
    = Fin margin /\
    0 <= margin.
Proof.
  destruct (metrics_fit {| innerWidth := 1024; innerHeight := 768 |} 1024 4 1)
    with (m := calculateCanvasMetrics
                 {| innerWidth := 1024; innerHeight := 768 |} 1024 4 1)
    as (c & g & H1 & _ & H3 & _ & _ & H6 & _).
  - lia.
  - left. reflexivity.
  - exists c, g. split; [exact H1|]. split; [exact H3|exact H6].
Defined.


(** ** A preset rule followed by a step *)

Lemma neighbourhood_range (l c r : jsbool) : 0 <= neighbourhood l c r <= 7.
Proof.
  unfold neighbourhood.
  destruct (truthy l), (truthy c), (truthy r); lia.
Qed.

Lemma preset_table_read (r p : Z) :
  0 <= r < 256 -> 0 <= p <= 7 ->
  read (presetToggles r) (7 - p) = Some (Z.testbit r p)
  /\ read (presetToggles_mask r) (7 - p) = Some (Z.testbit r p).
Proof.
  intros Hr Hp.
  pose proof preset_tables_checked as H. rewrite forallb_forall in H.
  specialize (H (Z.to_nat r)). rewrite Z2Nat.id in H by lia.
  assert (Hin : In (Z.to_nat r) (seq 0 256)) by (apply in_seq; lia).
  apply H in Hin. apply andb_true_iff in Hin as [H1 H2].
  unfold table_reads_bits in H1, H2.
  apply andb_true_iff in H1 as [_ B1]. apply andb_true_iff in H2 as [_ B2].
  rewrite forallb_forall in B1, B2.
  assert (Hi' : In (Z.to_nat p) (seq 0 8)) by (apply in_seq; lia).
  specialize (B1 _ Hi'). specialize (B2 _ Hi').
  apply bool_decide_eq_true in B1, B2. rewrite Z2Nat.id in B1, B2 by lia.
  split; assumption.
Qed.

(** One step with the table of rule [r]: the new cell is the bit of [r]
    selected by the neighbourhood, read with wrap-around. *)
Lemma nextCells_preset (r : Z) (cells : list jsbool) (i : nat) :
  0 <= r < 256 -> (i < length cells)%nat ->
  let N := Z.of_nat (length cells) in
  let bit := Some (Some (Z.testbit r
                     (neighbourhood (read cells ((Z.of_nat i - 1 + N) mod N))
                        (read cells (Z.of_nat i))
                        (read cells ((Z.of_nat i + 1) mod N))))) in
  nextCells cells (presetToggles r) !! i = bit
  /\ nextCells cells (presetToggles_mask r) !! i = bit.
Proof.
  intros Hr Hi N bit. subst bit.
  pose proof (nextCells_lookup cells (presetToggles r) i Hi) as H1.
  pose proof (nextCells_lookup cells (presetToggles_mask r) i Hi) as H2.
  unfold next_cell, rem in H1, H2. fold N in H1, H2.
  rewrite (Z.rem_mod_nonneg (Z.of_nat i - 1 + N) N) in H1, H2 by lia.
  rewrite (Z.rem_mod_nonneg (Z.of_nat i + 1) N) in H1, H2 by lia.
  pose proof (neighbourhood_range
                (read cells ((Z.of_nat i - 1 + N) mod N))
                (read cells (Z.of_nat i))
                (read cells ((Z.of_nat i + 1) mod N))) as Hp.
  destruct (preset_table_read r _ Hr Hp) as [T1 T2].
  split; [etrans; [exact H1|] | etrans; [exact H2|]]; f_equal;
    [exact T1|exact T2].
Qed.

(** X5.  [setPresetRule(r)] followed by [step] is Wolfram's rule [r]: for
    [r] in 0..255 the new cell [i] is bit [4*left + 2*center + right] of
    [r], the neighbours being read with wrap-around; the two index
    reversals, in the table and in the step, cancel.  This holds in the
    single store and in the simulation store. *)
Theorem preset_then_step_is_wolfram (r : Z) (i : nat) (s : UseStore.Store)
    (sim : SimulationStore.Store) :
  0 <= r < 256 ->
  (let cells := UseStore.cells s in
   let N := Z.of_nat (length cells) in
   (i < length cells)%nat ->
   exists s1 s2,
     UseStore.setPresetRule r s = Returns s1 /\
     UseStore.step s1 = Returns s2 /\
     UseStore.rule s2 = r /\
     UseStore.cells s2 !! i
     = Some (Some (Z.testbit r
                     (neighbourhood (read cells ((Z.of_nat i - 1 + N) mod N))
                        (read cells (Z.of_nat i))
                        (read cells ((Z.of_nat i + 1) mod N)))))) /\
  (let cells := SimulationStore.cells sim in
   let N := Z.of_nat (length cells) in
   (i < length cells)%nat ->
   exists s1 s2,
     SimulationStore.setPresetRule r sim = Returns s1 /\
     SimulationStore.step s1 = Returns s2 /\
     SimulationStore.rule s2 = r /\
     SimulationStore.cells s2 !! i
     = Some (Some (Z.testbit r
                     (neighbourhood (read cells ((Z.of_nat i - 1 + N) mod N))
                        (read cells (Z.of_nat i))
                        (read cells ((Z.of_nat i + 1) mod N)))))).
Proof.
  intros Hr. split; intros cells N Hi.
  - exists (UseStore.set_rule r (presetToggles r) s). eexists.
    split; [reflexivity|]. split; [reflexivity|]. split; [reflexivity|].
    exact (proj1 (nextCells_preset r cells i Hr Hi)).
  - do 2 eexists.
    split; [reflexivity|]. split; [reflexivity|]. split; [reflexivity|].
    exact (proj2 (nextCells_preset r cells i Hr Hi)).
Qed.

(** The hypotheses of X5 hold for rule 30 on three cells. *)
Lemma preset_then_step_is_wolfram_witness :
  exists s1 s2,
    UseStore.setPresetRule 30
      (example_store [Some false; Some true; Some false] []
         (replicate 8 (Some false)) (Fin 5)) = Returns s1 /\
    UseStore.step s1 = Returns s2 /\
    UseStore.cells s2 !! 0%nat = Some (Some true).
Proof.
  destruct (preset_then_step_is_wolfram 30 0
              (example_store [Some false; Some true; Some false] []
                 (replicate 8 (Some false)) (Fin 5))
              (example_sim_store [Some false; Some true; Some false] []
                 (replicate 8 (Some false))))
    as [H _]; [lia|].
  destruct H as (s1 & s2 & H1 & H2 & _ & H4); [simpl; lia|].
  exists s1, s2. split; [exact H1|]. split; [exact H2|exact H4].
Defined.

(** ** Toggling one entry of the rule table *)

Lemma read_lookup (a : list jsbool) (k : nat) :
  read a (Z.of_nat k) = mjoin (a !! k).
Proof.
  unfold read, at_index. destruct (Z.ltb_spec (Z.of_nat k) 0); [lia|].
  by rewrite Nat2Z.id.
Qed.

Lemma read_negative (a : list jsbool) (k : Z) : k < 0 -> read a k = undefined.
Proof.
  intros H. unfold read, at_index. by destruct (Z.ltb_spec k 0); [|lia].
Qed.

Lemma assign_inside {A} (a : list (option A)) (i : nat) (v : option A) :
  (i < length a)%nat -> assign a i v = <[i := v]> a.
Proof. intros H. unfold assign. case_decide; [done|lia]. Qed.

Lemma assign_length {A} (a : list (option A)) (i : nat) (v : option A) :
  (i < length a)%nat \/ Z.of_nat i < 2 ^ 32 - 1 ->
  length (assign a i v) = Nat.max (length a) (S i).
Proof.
  intros Hi. unfold assign. case_decide.
  - rewrite length_insert. lia.
  - destruct (Z.ltb_spec (Z.of_nat i) (2 ^ 32 - 1)); [|lia].
    rewrite !length_app, length_replicate. simpl. lia.
Qed.

Lemma assign_lookup {A} (a : list (option A)) (i k : nat) (v : option A) :
  (i < length a)%nat \/ Z.of_nat i < 2 ^ 32 - 1 ->
  mjoin (assign a i v !! k) = if decide (k = i) then v else mjoin (a !! k).
Proof.
  intros Hi'. unfold assign. case_decide as Hi.
  - case_decide as Hk.
    + subst k. by rewrite list_lookup_insert_eq.
    + by rewrite list_lookup_insert_ne.
  - destruct (Z.ltb_spec (Z.of_nat i) (2 ^ 32 - 1)); [|lia].
    destruct (decide (k < length a)%nat) as [Hin|Hout].
    + rewrite lookup_app_l by done. case_decide; [lia|done].
    + rewrite lookup_app_r by lia.
      rewrite (lookup_ge_None_2 a k) by lia.
      destruct (decide (k < i)%nat) as [Hlt|Hge].
      * rewrite lookup_app_l by (rewrite length_replicate; lia).
        rewrite lookup_replicate_2 by lia. case_decide; [lia|done].
      * rewrite lookup_app_r by (rewrite length_replicate; lia).
        rewrite length_replicate. case_decide as Hk.
        -- subst k. replace (i - length a - (i - length a))%nat with 0%nat by lia.
           reflexivity.
        -- rewrite lookup_ge_None_2 by (simpl; lia). reflexivity.
Qed.

(** An index of the table, or one the table can grow to. *)
Lemma toggled_read (toggles : list jsbool) (index k : Z) :
  0 <= index ->
  index < Z.of_nat (length toggles) \/ index < 2 ^ 32 - 1 ->
  read (UseStore.toggled toggles index) k
  = if decide (k = index) then UseStore.js_not (read toggles index)
    else read toggles k.
Proof.
  intros Hi Hidx. unfold UseStore.toggled.
  destruct (Z.ltb_spec index 0); [lia|].
  assert (Hnat : (Z.to_nat index < length toggles)%nat
                 \/ Z.of_nat (Z.to_nat index) < 2 ^ 32 - 1) by lia.
  destruct (Z.ltb_spec k 0) as [Hneg|Hpos].
  - rewrite !(read_negative _ k) by lia. case_decide; [lia|done].
  - pose proof (read_lookup (assign toggles (Z.to_nat index)
                               (UseStore.js_not (read toggles index)))
                  (Z.to_nat k)) as Hl.
    pose proof (read_lookup toggles (Z.to_nat k)) as Hr.
    rewrite Z2Nat.id in Hl, Hr by lia.
    rewrite Hl, (assign_lookup (A:=bool)) by exact Hnat.
    case_decide as Hk.
    + apply Z2Nat.inj in Hk; [|lia..]. subst k. case_decide; [done|lia].
    + case_decide as Hk'; [subst; lia|]. by rewrite Hr.
Qed.

Lemma toggled_length (toggles : list jsbool) (index : Z) :
  0 <= index ->
  index < Z.of_nat (length toggles) \/ index < 2 ^ 32 - 1 ->
  Z.of_nat (length (UseStore.toggled toggles index))
  = Z.max (Z.of_nat (length toggles)) (index + 1).
Proof.
  intros Hi Hidx. unfold UseStore.toggled.
  destruct (Z.ltb_spec index 0); [lia|].
  rewrite (assign_length (A:=bool)) by (unfold jsbool in *; lia).
  unfold jsbool in *. lia.
Qed.

(** X6.  [toggleRule(index)] for an index of the table: the table keeps
    its length, entry [index] becomes the negation of its truthiness,
    every other entry reads as before, and the rule number and the cells
    are not touched, so the number no longer names the table. *)
Theorem toggleRule_flips_one_entry (index : Z) (s s' : UseStore.Store) :
  0 <= index < Z.of_nat (length (UseStore.ruleToggles s)) ->
  UseStore.toggleRule index s = Returns s' ->
  length (UseStore.ruleToggles s') = length (UseStore.ruleToggles s) /\
  read (UseStore.ruleToggles s') index
  = Some (negb (truthy (read (UseStore.ruleToggles s) index))) /\
  (forall k, k <> index ->
     read (UseStore.ruleToggles s') k = read (UseStore.ruleToggles s) k) /\
  UseStore.rule s' = UseStore.rule s /\
  UseStore.cells s' = UseStore.cells s /\
  UseStore.previousGenerations s' = UseStore.previousGenerations s.
Proof.
  intros Hi H. injection H as <-. cbn [UseStore.ruleToggles UseStore.set_rule
    UseStore.rule UseStore.cells UseStore.previousGenerations].
  split; [|split; [|split; [|done]]].
  - pose proof (toggled_length (UseStore.ruleToggles s) index) as Hl. lia.
  - rewrite toggled_read by lia. case_decide; [done|lia].
  - intros k Hk. rewrite toggled_read by lia. case_decide; [lia|done].
Qed.

(** The hypotheses of X6 hold for the table of rule 30, entry 0. *)
Lemma toggleRule_flips_one_entry_witness :
  exists s',
    UseStore.toggleRule 0
      (example_store [Some true] [] (presetToggles 30) (Fin 5)) = Returns s' /\
    read (UseStore.ruleToggles s') 0 = Some true.
Proof.
  eexists. split; [reflexivity|].
  refine (proj1 (proj2 (toggleRule_flips_one_entry 0
            (example_store [Some true] [] (presetToggles 30) (Fin 5)) _ _ _))).
  - vm_compute. split; [discriminate|reflexivity].
  - reflexivity.
Defined.

(** X7.  For an array index ([0 <= index < 2^32 - 1]): toggling the same
    entry twice leaves every other entry as it was and the entry itself
    at its truthiness; it restores the table when the entry was a
    boolean, while an entry that read [undefined] (a hole, or past the
    end) ends as [false]. *)
Theorem toggleRule_twice (index : Z) (s s1 s2 : UseStore.Store) :
  0 <= index < 2 ^ 32 - 1 ->
  UseStore.toggleRule index s = Returns s1 ->
  UseStore.toggleRule index s1 = Returns s2 ->
  (forall k, k <> index ->
     read (UseStore.ruleToggles s2) k = read (UseStore.ruleToggles s) k) /\
  read (UseStore.ruleToggles s2) index
  = Some (truthy (read (UseStore.ruleToggles s) index)) /\
  (forall b, UseStore.ruleToggles s !! Z.to_nat index = Some (Some b) ->
     UseStore.ruleToggles s2 = UseStore.ruleToggles s).
Proof.
  intros Hi H1 H2. injection H1 as <-. injection H2 as <-.
  cbn [UseStore.ruleToggles UseStore.set_rule].
  split; [|split].
  - intros k Hk. rewrite !toggled_read by lia. case_decide; [lia|done].
  - rewrite !toggled_read by lia. case_decide; [|lia].
    unfold UseStore.js_not. simpl.
    by destruct (truthy (read (UseStore.ruleToggles s) index)).
  - intros b Hb.
    assert (Hlen : (Z.to_nat index < length (UseStore.ruleToggles s))%nat)
      by (eapply lookup_lt_Some; exact Hb).
    assert (Hr : read (UseStore.ruleToggles s) index = Some b).
    { rewrite <- (Z2Nat.id index) by lia. rewrite read_lookup, Hb. done. }
    pose proof (toggled_length (UseStore.ruleToggles s) index) as Hl.
    unfold UseStore.toggled at 1. destruct (Z.ltb_spec index 0); [lia|].
    rewrite toggled_read by lia. case_decide; [|lia].
    rewrite (assign_inside (A:=bool)) by (unfold jsbool in *; lia).
    unfold UseStore.toggled. destruct (Z.ltb_spec index 0); [lia|].
    rewrite (assign_inside (A:=bool)) by done.
    rewrite list_insert_insert_eq. rewrite Hr. unfold UseStore.js_not. simpl.
    destruct b; by apply list_insert_id.
Qed.

(** The hypothesis of X7 holds for entry 3 of the table of rule 30. *)
Lemma toggleRule_twice_witness :
  exists s1 s2,
    UseStore.toggleRule 3
      (example_store [Some true] [] (presetToggles 30) (Fin 5)) = Returns s1 /\
    UseStore.toggleRule 3 s1 = Returns s2 /\
    read (UseStore.ruleToggles s2) 3 = Some true.
Proof.
  do 2 eexists. split; [reflexivity|]. split; [reflexivity|].
  refine (proj1 (proj2 (toggleRule_twice 3
            (example_store [Some true] [] (presetToggles 30) (Fin 5))
            _ _ _ _ _))).
  - lia.
  - reflexivity.
  - reflexivity.
Defined.

(** X8.  [toggleRule(index)] for an array index at or past the end of
    the table ([length <= index < 2^32 - 1]) returns, and the table has
    grown to [index + 1] entries: the new last entry is [true], the
    entries in between are holes, which [step] reads as dead, and the old
    entries are as they were. *)
Theorem toggleRule_past_end_grows (index : Z) (s : UseStore.Store) :
  Z.of_nat (length (UseStore.ruleToggles s)) <= index < 2 ^ 32 - 1 ->
  exists s',
    UseStore.toggleRule index s = Returns s' /\
    Z.of_nat (length (UseStore.ruleToggles s')) = index + 1 /\
    read (UseStore.ruleToggles s') index = Some true /\
    (forall k, Z.of_nat (length (UseStore.ruleToggles s)) <= k < index ->
       read (UseStore.ruleToggles s') k = undefined) /\
    (forall k, k < Z.of_nat (length (UseStore.ruleToggles s)) ->
       read (UseStore.ruleToggles s') k = read (UseStore.ruleToggles s) k).
Proof.
  intros Hi. eexists. split; [reflexivity|].
  cbn [UseStore.ruleToggles UseStore.set_rule].
  split; [|split; [|split]].
  - pose proof (toggled_length (UseStore.ruleToggles s) index) as Hl. lia.
  - rewrite toggled_read by lia. case_decide; [|lia].
    rewrite read_beyond by lia. reflexivity.
  - intros k Hk. rewrite toggled_read by lia. case_decide; [lia|].
    apply read_beyond. lia.
  - intros k Hk. rewrite toggled_read by lia. case_decide; [lia|done].
Qed.

(** The hypothesis of X8 holds for index 9 of an 8-entry table. *)
Lemma toggleRule_past_end_grows_witness :
  exists s',
    UseStore.toggleRule 9
      (example_store [Some true] [] (presetToggles 30) (Fin 5)) = Returns s' /\
    Z.of_nat (length (UseStore.ruleToggles s')) = 10 /\
    read (UseStore.ruleToggles s') 8 = undefined.
Proof.
  destruct (toggleRule_past_end_grows 9
              (example_store [Some true] [] (presetToggles 30) (Fin 5)))
    as (s' & Hrun & H1 & _ & H3 & _).
  - vm_compute. split; [discriminate|reflexivity].
  - exists s'. split; [exact Hrun|]. split; [exact H1|]. apply H3.
    vm_compute. split; [discriminate|reflexivity].
Defined.

Lemma toggle_preset_checked :
  forallb (fun r => forallb (fun i =>
             bool_decide
               (UseStore.toggled (presetToggles (Z.of_nat r)) (Z.of_nat i)
                = presetToggles (Z.lxor (Z.of_nat r) (2 ^ (7 - Z.of_nat i)))))
             (seq 0 8))
    (seq 0 256) = true.
Proof. vm_compute. reflexivity. Qed.

(** X9.  After [setPresetRule(r)], [toggleRule(i)] for [i] in 0..7 yields
    the table of the rule number [r xor 2^(7-i)], while the stored rule
    number stays [r]. *)
Theorem toggle_after_preset (r i : Z) (s s1 s2 : UseStore.Store) :
  0 <= r < 256 -> 0 <= i < 8 ->
  UseStore.setPresetRule r s = Returns s1 ->
  UseStore.toggleRule i s1 = Returns s2 ->
  UseStore.ruleToggles s2 = presetToggles (Z.lxor r (2 ^ (7 - i))) /\
  UseStore.rule s2 = r /\
  (Z.lxor r (2 ^ (7 - i)) <> r).
Proof.
  intros Hr Hi H1 H2. injection H1 as <-. injection H2 as <-.
  cbn [UseStore.ruleToggles UseStore.set_rule UseStore.rule].
  split; [|split; [done|]].
  - pose proof toggle_preset_checked as H. rewrite forallb_forall in H.
    specialize (H (Z.to_nat r)). rewrite Z2Nat.id in H by lia.
    assert (Hin : In (Z.to_nat r) (seq 0 256)) by (apply in_seq; lia).
    apply H in Hin. rewrite forallb_forall in Hin.
    specialize (Hin (Z.to_nat i)). rewrite Z2Nat.id in Hin by lia.
    assert (Hin' : In (Z.to_nat i) (seq 0 8)) by (apply in_seq; lia).
    apply Hin in Hin'. by apply bool_decide_eq_true in Hin'.
  - intros Heq.
    assert (Hb : Z.testbit (Z.lxor r (2 ^ (7 - i))) (7 - i)
                 = Z.testbit r (7 - i)) by (by rewrite Heq).
    rewrite Z.lxor_spec, Z.pow2_bits_true in Hb by lia.
    destruct (Z.testbit r (7 - i)); discriminate.
Qed.

(** The hypotheses of X9 hold for rule 30 and entry 7: the table becomes
    that of rule 31. *)
Lemma toggle_after_preset_witness :
  exists s1 s2,
    UseStore.setPresetRule 30
      (example_store [Some true] [] (replicate 8 (Some false)) (Fin 5))
    = Returns s1 /\
    UseStore.toggleRule 7 s1 = Returns s2 /\
    UseStore.ruleToggles s2 = presetToggles 31 /\
    UseStore.rule s2 = 30.
Proof.
  do 2 eexists. split; [reflexivity|]. split; [reflexivity|].
  destruct (toggle_after_preset 30 7
              (example_store [Some true] [] (replicate 8 (Some false)) (Fin 5))
              _ _ ltac:(lia) ltac:(lia) eq_refl eq_refl) as (H1 & H2 & _).
  split; [exact H1|exact H2].
Defined.

(** ** Initial patterns *)

Lemma new_Array_returns {A} (n : num) (v : A) (a : list A) :
  new_Array n v = Returns a ->
  exists k, n = Fin k /\ 0 <= k < 2 ^ 32 /\ a = replicate (Z.to_nat k) v.
Proof.
  destruct n as [k| | |]; simpl; try discriminate.
  destruct (Z.leb_spec 0 k), (Z.ltb_spec k (2 ^ 32)); simpl; try discriminate.
  intros [= <-]. exists k. repeat split; lia.
Qed.

Lemma new_Array_throws {A} (n : num) (v : A) (e : error) :
  new_Array n v = Throws e ->
  e = RangeError /\ forall k, n = Fin k -> ~ 0 <= k < 2 ^ 32.
Proof.
  destruct n as [k| | |]; simpl; try (intros [= <-]; by split).
  destruct (Z.leb_spec 0 k), (Z.ltb_spec k (2 ^ 32)); simpl; try discriminate;
    intros [= <-]; (split; [done|]); intros ? [= <-]; lia.
Qed.

(** X10.  [initializePattern] returns exactly when [maxCells] is an array
    length (an integer in 0 .. 2^32 - 1) and throws a [RangeError]
    otherwise.  When it returns, the history is empty, the generation
    counter is 0, the pattern is remembered, rule and bounds are kept, and
    the generation has [maxCells] cells, except that the single-seed
    pattern on [maxCells = 0] writes past the end and leaves one live
    cell. *)
Theorem initializePattern_outcome (draws : nat -> bool) (pattern : Pattern)
    (s : UseStore.Store) :
  (forall s', UseStore.initializePattern draws pattern s = Returns s' ->
     exists n, UseStore.maxCells s = Fin n /\ 0 <= n < 2 ^ 32 /\
       UseStore.previousGenerations s' = [] /\
       UseStore.generation s' = 0 /\
       UseStore.lastInitPattern s' = pattern /\
       UseStore.ruleToggles s' = UseStore.ruleToggles s /\
       UseStore.maxCells s' = UseStore.maxCells s /\
       UseStore.maxVisibleGenerations s' = UseStore.maxVisibleGenerations s /\
       Z.of_nat (length (UseStore.cells s'))
       = match pattern with single => Z.max n 1 | _ => n end /\
       (n = 0 -> pattern = single -> UseStore.cells s' = [Some true])) /\
  (forall e, UseStore.initializePattern draws pattern s = Throws e ->
     e = RangeError /\
     forall n, UseStore.maxCells s = Fin n -> ~ 0 <= n < 2 ^ 32) /\
  (forall n, UseStore.maxCells s = Fin n -> 0 <= n < 2 ^ 32 ->
     exists s', UseStore.initializePattern draws pattern s = Returns s').
Proof.
  unfold UseStore.initializePattern. split; [|split].
  - intros s'.
    destruct (new_Array (UseStore.maxCells s) (Some false)) as [a|e] eqn:Ha;
      simpl; [|discriminate].
    apply new_Array_returns in Ha as (n & Hn & Hr & ->). rewrite Hn.
    intros [= <-]. exists n.
    cbn [UseStore.set_pattern UseStore.previousGenerations UseStore.generation
         UseStore.lastInitPattern UseStore.ruleToggles UseStore.maxCells
         UseStore.maxVisibleGenerations UseStore.cells].
    repeat (split; [done|]). split.
    + destruct pattern; unfold UseStore.patternCells.
      * pose proof (Z.div_mod n 2 ltac:(lia)).
        pose proof (Z.mod_pos_bound n 2 ltac:(lia)).
        rewrite (assign_length (A:=bool)) by (right; lia).
        rewrite length_replicate. lia.
      * rewrite write_loop_length, length_replicate. lia.
      * rewrite !length_replicate. lia.
      * rewrite length_replicate. lia.
      * rewrite (write_loop_length (fun i => Some (rem (Z.of_nat i) 2 =? 0))),
          length_replicate. lia.
    + intros -> ->. reflexivity.
  - intros e.
    destruct (new_Array (UseStore.maxCells s) (Some false)) as [a|e'] eqn:Ha;
      simpl.
    + apply new_Array_returns in Ha as (n & Hn & _). by rewrite Hn.
    + intros [= <-]. by apply new_Array_throws in Ha.
  - intros n Hn Hr. rewrite Hn. simpl.
    destruct (Z.leb_spec 0 n), (Z.ltb_spec n (2 ^ 32)); try lia.
    simpl. by eexists.
Qed.

(** X11.  The cells of each pattern, for [maxCells = n] and a cell index
    [j < n]: the single seed is at [floor (n / 2)]; [filled] is all live,
    [empty] all dead; [alternating] is live at the even indices; [random]
    holds the [j]-th draw. *)
Theorem initializePattern_cells (draws : nat -> bool) (pattern : Pattern)
    (s s' : UseStore.Store) (n : Z) (j : nat) :
  UseStore.maxCells s = Fin n ->
  UseStore.initializePattern draws pattern s = Returns s' ->
  Z.of_nat j < n ->
  UseStore.cells s' !! j
  = Some (Some match pattern with
               | single => bool_decide (Z.of_nat j = n / 2)
               | random => draws j
               | filled => true
               | empty => false
               | alternating => Z.even (Z.of_nat j)
               end).
Proof.
  intros Hn H Hj. unfold UseStore.initializePattern in H. rewrite Hn in H.
  destruct (new_Array (Fin n) (Some false)) as [a|e] eqn:Ha;
    simpl in H; [|discriminate].
  apply new_Array_returns in Ha as (k & [= <-] & Hr & ->).
  injection H as <-. cbn [UseStore.set_pattern UseStore.cells].
  assert (Hjn : (j < Z.to_nat n)%nat) by lia.
  destruct pattern; unfold UseStore.patternCells.
  - pose proof (Z.div_mod n 2 ltac:(lia)).
    pose proof (Z.mod_pos_bound n 2 ltac:(lia)).
    rewrite (assign_inside (A:=bool)) by (rewrite length_replicate; lia).
    case_bool_decide as Hd.
    + replace (Z.to_nat (n / 2)) with j by lia.
      apply list_lookup_insert_eq. by rewrite length_replicate.
    + rewrite list_lookup_insert_ne by lia.
      by apply lookup_replicate_2.
  - rewrite (write_loop_lookup (fun i => Some (draws i)))
      by (rewrite length_replicate; lia).
    case_decide; [done|lia].
  - rewrite length_replicate. by apply lookup_replicate_2.
  - by apply lookup_replicate_2.
  - rewrite (write_loop_lookup (fun i => Some (rem (Z.of_nat i) 2 =? 0)))
      by (rewrite length_replicate; lia).
    case_decide; [|lia]. do 2 f_equal.
    unfold rem. rewrite Z.rem_mod_nonneg by lia.
    rewrite Zeven_mod. reflexivity.
Qed.

(** The hypotheses of X11 hold for a single seed on five cells. *)
Lemma initializePattern_cells_witness :
  exists s',
    UseStore.initializePattern (fun _ => false) single
      (example_sized_store (Fin 5)) = Returns s' /\
    UseStore.cells s' !! 2%nat = Some (Some true).
Proof.
  eexists. split; [reflexivity|].
  refine (initializePattern_cells (fun _ => false) single
            (example_sized_store (Fin 5)) _ 5 2
            _ _ _).
  - reflexivity.
  - reflexivity.
  - lia.
Defined.

(** X12.  [resetGeneration] is [initializePattern(lastInitPattern)]: the
    [set] that follows the call changes nothing, and the remembered
    pattern stays, so a second reset with the same draws gives the same
    store. *)
Theorem resetGeneration_is_initializePattern (draws : nat -> bool)
    (s : UseStore.Store) :
  UseStore.resetGeneration draws s
  = UseStore.initializePattern draws (UseStore.lastInitPattern s) s /\
  (forall s', UseStore.resetGeneration draws s = Returns s' ->
     UseStore.lastInitPattern s' = UseStore.lastInitPattern s /\
     UseStore.resetGeneration draws s' = Returns s').
Proof.
  unfold UseStore.resetGeneration, UseStore.initializePattern.
  destruct (new_Array (UseStore.maxCells s) (Some false)) as [a|e] eqn:Ha;
    simpl; [|split; [done|discriminate]].
  destruct (UseStore.maxCells s) as [n| | |] eqn:Hn; simpl;
    try (split; [done|discriminate]).
  split; [reflexivity|]. intros s' [= <-]. split; [reflexivity|].
  cbn [UseStore.maxCells UseStore.set_pattern UseStore.lastInitPattern
       UseStore.set_simulation UseStore.cells]. rewrite Hn, Ha.
  reflexivity.
Qed.

(** ** Sequences of updates *)

Lemma apply_returns (o : History.op) (s : UseStore.Store) :
  exists s', History.apply o s = Returns s' /\
    length (UseStore.cells s') = length (UseStore.cells s) /\
    UseStore.generation s' = UseStore.generation s + 1 /\
    UseStore.ruleToggles s' = UseStore.ruleToggles s /\
    UseStore.maxVisibleGenerations s' = UseStore.maxVisibleGenerations s /\
    (exists k, UseStore.previousGenerations s'
               = drop k (UseStore.previousGenerations s ++ [UseStore.cells s])
               /\ (k <= 1)%nat).
Proof.
  destruct o; simpl; eexists; (split; [reflexivity|]); simpl;
    (split; [try apply nextCells_length; done|]);
    (split; [done|]); (split; [done|]); (split; [done|]).
  - destruct (len_ge _ _).
    + destruct (UseStore.previousGenerations s) as [|row rows].
      * exists 0%nat. split; [reflexivity|lia].
      * exists 1%nat. split; [reflexivity|lia].
    + exists 0%nat. split; [reflexivity|lia].
  - destruct (len_gt _ _).
    + exists 1%nat. split; [|lia].
      destruct (UseStore.previousGenerations s); reflexivity.
    + exists 0%nat. split; [reflexivity|lia].
Qed.

(** X13.  Any sequence of [step] and [incrementGeneration] returns; it
    advances the generation counter by one per update, keeps the number of
    cells, the rule table and the bound, and keeps the history uniform: if
    every stored generation was as long as the current one, that is still
    so afterwards. *)
Theorem run_keeps_rows_uniform (ops : list History.op) (s : UseStore.Store) :
  exists s', History.run ops s = Returns s' /\
    length (UseStore.cells s') = length (UseStore.cells s) /\
    UseStore.generation s' = UseStore.generation s + Z.of_nat (length ops) /\
    UseStore.ruleToggles s' = UseStore.ruleToggles s /\
    UseStore.maxVisibleGenerations s' = UseStore.maxVisibleGenerations s /\
    ((forall row, In row (UseStore.previousGenerations s) ->
        length row = length (UseStore.cells s)) ->
     forall row, In row (UseStore.previousGenerations s') ->
       length row = length (UseStore.cells s')).
Proof.
  revert s. induction ops as [|o ops IH]; intros s.
  - exists s. simpl. repeat split; try done. lia.
  - destruct (apply_returns o s)
      as (s1 & H1 & Hc & Hg & Ht & Hm & k & Hp & Hk).
    destruct (IH s1) as (s' & Hrun & Hc' & Hg' & Ht' & Hm' & Hu).
    exists s'. simpl. rewrite H1. simpl.
    split; [exact Hrun|]. split; [congruence|].
    split; [rewrite Hg', Hg; lia|]. split; [congruence|].
    split; [congruence|].
    intros Hrows. apply Hu. intros row Hin. rewrite Hp in Hin.
    rewrite Hc. apply list_elem_of_In in Hin.
    apply (subseteq_drop k) in Hin. apply elem_of_app in Hin as [Hin|Hin].
    + apply Hrows. by apply list_elem_of_In.
    + apply list_elem_of_singleton in Hin. by subst.
Qed.

(** The hypothesis of X13 on the history holds for a store with one
    stored generation. *)
Lemma run_keeps_rows_uniform_witness :
  exists s',
    History.run [History.Step; History.Append]
      (example_store [Some true; Some false] [[Some false; Some true]]
         (presetToggles 30) (Fin 5)) = Returns s' /\
    forall row, In row (UseStore.previousGenerations s') ->
      length row = length (UseStore.cells s').
Proof.
  destruct (run_keeps_rows_uniform [History.Step; History.Append]
              (example_store [Some true; Some false] [[Some false; Some true]]
                 (presetToggles 30) (Fin 5)))
    as (s' & Hrun & _ & _ & _ & _ & Hu).
  exists s'. split; [exact Hrun|]. apply Hu.
  intros row [<-|[]]. reflexivity.
Defined.

(** X14.  The simulation store never evicts: [n] steps return, append
    [n] generations to the history that was there, advance the counter by
    [n] and keep the number of cells. *)
Theorem simulation_history_grows (n : nat) (s : SimulationStore.Store) :
  exists s', History.run_sim n s = Returns s' /\
    length (SimulationStore.previousGenerations s')
    = (length (SimulationStore.previousGenerations s) + n)%nat /\
    take (length (SimulationStore.previousGenerations s))
      (SimulationStore.previousGenerations s')
    = SimulationStore.previousGenerations s /\
    SimulationStore.generation s'
    = SimulationStore.generation s + Z.of_nat n /\
    length (SimulationStore.cells s') = length (SimulationStore.cells s).
Proof.
  revert s. induction n as [|n IH]; intros s.
  - exists s. simpl. repeat split; try lia. apply firstn_all.
  - destruct (IH (SimulationStore.set_simulation
                    (nextCells (SimulationStore.cells s)
                       (SimulationStore.ruleToggles s))
                    (SimulationStore.previousGenerations s
                     ++ [SimulationStore.cells s])
                    (SimulationStore.generation s + 1) s))
      as (s' & Hrun & Hlen & Htake & Hg & Hc).
    cbn [SimulationStore.set_simulation SimulationStore.previousGenerations
         SimulationStore.generation SimulationStore.cells] in Hlen, Htake, Hg, Hc.
    rewrite length_app in Hlen, Htake. simpl in Hlen, Htake.
    exists s'. split; [exact Hrun|]. split; [lia|]. split.
    + apply (f_equal (take (length (SimulationStore.previousGenerations s))))
        in Htake.
      rewrite take_take in Htake.
      rewrite Nat.min_l in Htake by lia.
      rewrite Htake. by rewrite take_app_length.
    + split; [lia|]. by rewrite Hc, nextCells_length.
Qed.

Lemma apply_over_bound (o : History.op) (s : UseStore.Store) (M : Z) :
  UseStore.maxVisibleGenerations s = Fin M ->
  M <= Z.of_nat (length (UseStore.previousGenerations s)) ->
  (1 <= length (UseStore.previousGenerations s))%nat ->
  exists s', History.apply o s = Returns s' /\
    UseStore.maxVisibleGenerations s' = Fin M /\
    length (UseStore.previousGenerations s')
    = length (UseStore.previousGenerations s).
Proof.
  intros HM Hover Hne.
  destruct o; simpl; eexists; (split; [reflexivity|]); simpl;
    (split; [exact HM|]); rewrite HM; simpl.
  - destruct (Z.leb_spec M (Z.of_nat (length (UseStore.previousGenerations s))));
      [|lia].
    rewrite length_app. unfold shift. rewrite length_tl. simpl. lia.
  - rewrite length_app. simpl.
    destruct (Z.ltb_spec M
                (Z.of_nat (length (UseStore.previousGenerations s) + 1)));
      [|lia].
    unfold shift. rewrite length_tl, length_app. simpl. lia.
Qed.

(** X15.  A history that has reached or passed the bound never shrinks:
    with [M] at most the non-zero number of stored generations (as after a
    viewport change lowered [M]), every sequence of [step] and
    [incrementGeneration] leaves the number of stored generations
    unchanged. *)
Theorem history_over_bound_stays (ops : list History.op) (s : UseStore.Store)
    (M : Z) :
  UseStore.maxVisibleGenerations s = Fin M ->
  M <= Z.of_nat (length (UseStore.previousGenerations s)) ->
  (1 <= length (UseStore.previousGenerations s))%nat ->
  exists s', History.run ops s = Returns s' /\
    length (UseStore.previousGenerations s')
    = length (UseStore.previousGenerations s).
Proof.
  revert s. induction ops as [|o ops IH]; intros s HM Hover Hne.
  - by exists s.
  - destruct (apply_over_bound o s M HM Hover Hne) as (s1 & H1 & HM1 & Hl1).
    destruct (IH s1 HM1) as (s' & Hrun & Hl'); [lia..|].
    exists s'. simpl. rewrite H1. simpl. split; [exact Hrun|]. lia.
Qed.

(** The hypotheses of X15 hold for three stored generations under a bound
    of 1. *)
Lemma history_over_bound_stays_witness :
  exists s',
    History.run [History.Step; History.Step; History.Append]
      (example_store [Some true] [[Some true]; [Some false]; [Some true]]
         (presetToggles 30) (Fin 1)) = Returns s' /\
    length (UseStore.previousGenerations s') = 3%nat.
Proof.
  apply (history_over_bound_stays [History.Step; History.Step; History.Append]
           (example_store [Some true] [[Some true]; [Some false]; [Some true]]
              (presetToggles 30) (Fin 1)) 1).
  - reflexivity.
  - simpl. lia.
  - simpl. lia.
Defined.

Lemma apply_no_bound (o : History.op) (s : UseStore.Store) :
  UseStore.maxVisibleGenerations s = PosInf
  \/ UseStore.maxVisibleGenerations s = NaN ->
  exists s', History.apply o s = Returns s' /\
    UseStore.maxVisibleGenerations s' = UseStore.maxVisibleGenerations s /\
    UseStore.previousGenerations s'
    = UseStore.previousGenerations s ++ [UseStore.cells s].
Proof.
  intros HM.
  destruct o; simpl; eexists; (split; [reflexivity|]); simpl;
    (split; [done|]); by destruct HM as [-> | ->].
Qed.

(** X16.  When [cellSize + cellMargin] is 0 the bound [M] is [Infinity]
    (or [NaN] for a window of height 0), and then nothing is ever evicted:
    every update appends one generation. *)
Theorem history_grows_without_bound (win : Window) (w size margin : Z)
    (ops : list History.op) (s : UseStore.Store) :
  size + margin = 0 -> 0 <= innerHeight win ->
  UseStore.maxVisibleGenerations s
  = m_maxVisibleGenerations (calculateCanvasMetrics win w size margin) ->
  exists s', History.run ops s = Returns s' /\
    length (UseStore.previousGenerations s')
    = (length (UseStore.previousGenerations s) + length ops)%nat.
Proof.
  intros Hp Hh HM.
  assert (Hinf : UseStore.maxVisibleGenerations s = PosInf
                 \/ UseStore.maxVisibleGenerations s = NaN).
  { rewrite HM. simpl. unfold floor_div. rewrite Hp. simpl.
    destruct (Z.ltb_spec 0 (innerHeight win)); [by left|].
    destruct (Z.ltb_spec (innerHeight win) 0); [lia|by right]. }
  clear HM. revert s Hinf. induction ops as [|o ops IH]; intros s Hinf.
  - exists s. simpl. split; [done|lia].
  - destruct (apply_no_bound o s Hinf) as (s1 & H1 & HM1 & Hp1).
    destruct (IH s1) as (s' & Hrun & Hl'); [by rewrite HM1|].
    exists s'. simpl. rewrite H1. simpl. split; [exact Hrun|].
    rewrite Hl', Hp1, length_app. simpl. lia.
Qed.

(** The hypotheses of X16 hold for cells of size 0 in a window 768 high. *)
Lemma history_grows_without_bound_witness :
  exists s',
    History.run [History.Step; History.Append]
      (example_store [Some true] [] (presetToggles 30) PosInf) = Returns s' /\
    length (UseStore.previousGenerations s') = 2%nat.
Proof.
  apply (history_grows_without_bound
           {| innerWidth := 1024; innerHeight := 768 |} 1024 0 0
           [History.Step; History.Append]
           (example_store [Some true] [] (presetToggles 30) PosInf)).
  - reflexivity.
  - simpl. lia.
  - reflexivity.
Defined.

(** ** What the renderers show of a long history *)

Lemma slice_from_window {A} (m : Z) (l : list A) :
  slice_from (- m) l
  = if m <? 0 then drop (Z.to_nat (- m)) l
    else if m =? 0 then l
    else History.last_n (Z.to_nat m) l.
Proof.
  unfold slice_from, History.last_n.
  destruct (Z.ltb_spec m 0) as [Hneg|Hpos].
  - destruct (Z.ltb_spec (- m) 0); [lia|].
    destruct (Z.le_ge_cases (- m) (Z.of_nat (length l))) as [Hle|Hge].
    + by rewrite Z.min_l by lia.
    + rewrite Z.min_r by lia. rewrite Nat2Z.id.
      rewrite !drop_ge; [done|lia..].
  - destruct (Z.eqb_spec m 0) as [->|Hne].
    + simpl. by rewrite Z.min_l by lia.
    + destruct (Z.ltb_spec (- m) 0); [|lia]. f_equal. lia.
Qed.

Lemma drawnCells_window (state : Canvas2DRenderer.CellState) (m : Z)
    (x y : nat) :
  let prev := Canvas2DRenderer.previousGenerations state in
  let visible :=
    if m <? 0 then drop (Z.to_nat (- m)) prev
    else if m =? 0 then prev
    else History.last_n (Z.to_nat m) prev in
  In (x, y) (Canvas2DRenderer.drawnCells state m)
  <-> LiveCells.live_at (visible ++ [Canvas2DRenderer.cells state]) y x.
Proof.
  intros prev visible.
  unfold Canvas2DRenderer.drawnCells. fold prev.
  rewrite slice_from_window. fold visible.
  rewrite row_cells_in. unfold forEach. rewrite rows_cells_from_in.
  rewrite live_at_snoc. simpl. split.
  - intros [[[]|(n & -> & H)]|H]; [by left|by right].
  - intros [H|H]; [|by right]. left. right. by exists y.
Qed.

(** X17.  The rows the Canvas2D renderer paints for a bound [m]: the last
    [m] stored generations when [m] is positive, every stored generation
    when [m] is 0 (because [slice(-0)] is [slice(0)]), all but the first
    [-m] when [m] is negative; the current generation is painted in the
    row after them.  So up to [m + 1] rows are painted for a positive
    bound. *)
Theorem canvas_paints_window (state : Canvas2DRenderer.CellState) (m : Z)
    (x y : nat) :
  let prev := Canvas2DRenderer.previousGenerations state in
  let visible :=
    if m <? 0 then drop (Z.to_nat (- m)) prev
    else if m =? 0 then prev
    else History.last_n (Z.to_nat m) prev in
  (In (x, y) (Canvas2DRenderer.drawnCells state m)
   <-> LiveCells.live_at (visible ++ [Canvas2DRenderer.cells state]) y x) /\
  (0 < m -> Z.of_nat (length visible) = Z.min m (Z.of_nat (length prev))).
Proof.
  intros prev visible. split.
  - apply drawnCells_window.
  - intros Hm. unfold visible.
    destruct (Z.ltb_spec m 0); [lia|]. destruct (Z.eqb_spec m 0); [lia|].
    rewrite last_n_length. lia.
Qed.

(** The hypothesis of the second part of X17 holds for a bound of 1. *)
Lemma canvas_paints_window_witness :
  Z.of_nat (length (History.last_n (Z.to_nat 1)
                      (Canvas2DRenderer.previousGenerations full_state_2d)))
  = Z.min 1 (Z.of_nat (length
                         (Canvas2DRenderer.previousGenerations full_state_2d))).
Proof.
  apply (proj2 (canvas_paints_window full_state_2d 1 0 0)). lia.
Defined.

Section Encoded.

Variables (W H m : Z) (vis : list (list jsbool)).

Hypothesis rows_within :
  forall n g, vis !! n = Some g -> Z.of_nat (length g) <= W.
Hypothesis height_covers : Z.of_nat (length vis) <= H.
Hypothesis rows_visible : Z.of_nat (length vis) <= m.

(** The texel of a cell of an encoded window is live exactly when the cell
    is, when no row of the window is longer than the texture is wide. *)
Lemma encoded_rows_live (x y : nat) :
  WebGLComputeRenderer.display_live W
    (WebGLComputeRenderer.encode_rows W vis (replicate (Z.to_nat (H * W)) 0))
    m (Z.of_nat x) (Z.of_nat y) = true
  <-> LiveCells.live_at vis y x.
Proof using rows_within height_covers rows_visible.
  unfold WebGLComputeRenderer.encode_rows, forEach,
    WebGLComputeRenderer.display_live, WebGLComputeRenderer.texel, at_index.
  set (data0 := replicate (Z.to_nat (H * W)) 0).
  destruct (Z.ltb_spec (Z.of_nat x) 0); [lia|].
  simpl. split.
  - intros Hlive.
    destruct (Z.leb_spec W (Z.of_nat x)); [done|].
    destruct (Z.leb_spec m (Z.of_nat y)); [done|]. simpl in Hlive.
    destruct (Z.ltb_spec (Z.of_nat y * W + Z.of_nat x) 0); [nia|].
    destruct (encode_rows_from_trace W vis 0 data0
                (Z.to_nat (Z.of_nat y * W + Z.of_nat x)))
      as [E|(n & g & k & c & Hn & Hk & Hc & Haddr)].
    + rewrite E in Hlive. unfold data0 in Hlive.
      destruct (replicate (Z.to_nat (H * W)) 0
                  !! Z.to_nat (Z.of_nat y * W + Z.of_nat x)) as [v|] eqn:Hv;
        simpl in Hlive; [|done].
      apply lookup_replicate in Hv as [-> _]. done.
    + rewrite Z2Nat.id in Haddr by lia. simpl in Haddr.
      pose proof (rows_within n g Hn) as Hg. apply lookup_lt_Some in Hk as Hkl.
      destruct (same_cell_address W (Z.of_nat y) (Z.of_nat x)
                  (Z.of_nat n) (Z.of_nat k)) as [Hyn Hxk]; [lia|lia|lia|].
      assert (y = n) as -> by lia. assert (x = k) as -> by lia.
      by exists g, c.
  - intros (row & c & Hy & Hx & Hc).
    pose proof (rows_within y row Hy) as Hg.
    apply lookup_lt_Some in Hx as Hxl. apply lookup_lt_Some in Hy as Hyl.
    destruct (Z.leb_spec W (Z.of_nat x)); [lia|].
    destruct (Z.leb_spec m (Z.of_nat y)); [lia|]. simpl.
    destruct (Z.ltb_spec (Z.of_nat y * W + Z.of_nat x) 0); [nia|].
    rewrite (encode_rows_from_hit W vis 0 data0
               (Z.to_nat (Z.of_nat y * W + Z.of_nat x)) y row x c);
      try done.
    + rewrite Z2Nat.id by lia. simpl. lia.
    + unfold data0. rewrite length_replicate. nia.
Qed.

End Encoded.

Lemma last_n_lookup_in (rows : list (list jsbool)) (k n : nat)
    (g : list jsbool) :
  History.last_n k rows !! n = Some g -> In g rows.
Proof.
  intros Hn. unfold History.last_n in Hn.
  rewrite lookup_drop in Hn. apply list_elem_of_In.
  by eapply list_elem_of_lookup_2.
Qed.

Lemma last_n_lookup_uniform (rows : list (list jsbool)) (N k : nat) :
  (forall row, In row rows -> length row = N) ->
  forall n g, History.last_n k rows !! n = Some g -> length g = N.
Proof. intros Hrows n g Hn. apply Hrows. by eapply last_n_lookup_in. Qed.

Lemma pow2ceil_nonneg (n : Z) :
  0 <= n -> exists p, pow2ceil n = Fin p /\ n <= p.
Proof.
  intros Hn. destruct (decide (n = 0)) as [->|Hne].
  - by exists 0.
  - apply pow2ceil_covers. lia.
Qed.

(** What [updateTexture] uploads for a bound [m >= 1]: the window of the
    last [m] generations, encoded into a zeroed buffer. *)
Lemma texture_data_encoded (state : GLRenderer.CellState) (data : list Z) :
  let rows := GLRenderer.previousGenerations state
              ++ [GLRenderer.cells state] in
  let m := GLRenderer.vp_maxVisibleGenerations (GLRenderer.viewport state) in
  1 <= m ->
  WebGLComputeRenderer.texture_data state = Returns data ->
  exists W H,
    WebGLComputeRenderer.texture_size state = (Fin W, Fin H) /\
    Z.of_nat (length (GLRenderer.cells state)) <= W /\ m <= H /\
    data = WebGLComputeRenderer.encode_rows W
             (History.last_n (Z.to_nat m) rows)
             (replicate (Z.to_nat (H * W)) 0).
Proof.
  intros rows m Hm Hdata.
  unfold WebGLComputeRenderer.texture_data,
    WebGLComputeRenderer.texture_size in *. fold m in Hdata |- *.
  destruct (pow2ceil_covers m) as (H & HHm & HH); [lia|].
  destruct (pow2ceil_nonneg (Z.of_nat (length (GLRenderer.cells state))))
    as (W & HW & HWN); [lia|].
  rewrite HHm, HW in *. exists W, H. split; [done|]. split; [done|].
  split; [done|].
  change (to_glsizei (Fin W)) with W in *.
  change (mul_int (Fin H) W) with (Fin (H * W)) in Hdata.
  destruct (new_Uint8Array (Fin (H * W))) as [data0|] eqn:Halloc;
    simpl in Hdata; [|done].
  apply new_Uint8Array_returns in Halloc as [_ ->].
  injection Hdata as <-. fold rows. rewrite slice_from_window.
  destruct (Z.ltb_spec m 0); [lia|]. by destruct (Z.eqb_spec m 0); [lia|].
Qed.

(** The width of the texture covers the current generation. *)
Lemma texture_width_covers (state : GLRenderer.CellState) :
  Z.of_nat (length (GLRenderer.cells state))
  <= to_glsizei (fst (WebGLComputeRenderer.texture_size state)).
Proof.
  unfold WebGLComputeRenderer.texture_size. simpl.
  destruct (pow2ceil_nonneg (Z.of_nat (length (GLRenderer.cells state))))
    as (W & -> & HW); [lia|done].
Qed.

Lemma texture_window (state : GLRenderer.CellState) (data : list Z)
    (x y : nat) :
  let rows := GLRenderer.previousGenerations state
              ++ [GLRenderer.cells state] in
  let m := GLRenderer.vp_maxVisibleGenerations (GLRenderer.viewport state) in
  let W := to_glsizei (fst (WebGLComputeRenderer.texture_size state)) in
  1 <= m ->
  (forall row, In row (GLRenderer.previousGenerations state) ->
     Z.of_nat (length row) <= W) ->
  WebGLComputeRenderer.texture_data state = Returns data ->
  (WebGLComputeRenderer.display_live W data m (Z.of_nat x) (Z.of_nat y)
   = true
   <-> LiveCells.live_at (History.last_n (Z.to_nat m) rows) y x).
Proof.
  intros rows m W Hm Hrows Hdata.
  pose proof (texture_width_covers state) as Hcur. fold W in Hcur.
  assert (Hall : forall n g, History.last_n (Z.to_nat m) rows !! n = Some g ->
                   Z.of_nat (length g) <= W).
  { intros n g Hn. apply last_n_lookup_in in Hn.
    apply in_app_or in Hn as [Hin|[<-|[]]]; [by apply Hrows|done]. }
  destruct (texture_data_encoded state data Hm Hdata)
    as (W' & H & Hsize & _ & HH & ->).
  unfold W in *. rewrite Hsize in *. simpl in Hall |- *. fold rows.
  apply (encoded_rows_live W' H m); try done.
  - rewrite last_n_length. lia.
  - rewrite last_n_length. lia.
Qed.

Lemma texture_window_uniform (state : GLRenderer.CellState) (data : list Z)
    (x y : nat) :
  let rows := GLRenderer.previousGenerations state
              ++ [GLRenderer.cells state] in
  let m := GLRenderer.vp_maxVisibleGenerations (GLRenderer.viewport state) in
  1 <= m ->
  (forall row, In row (GLRenderer.previousGenerations state) ->
     length row = length (GLRenderer.cells state)) ->
  WebGLComputeRenderer.texture_data state = Returns data ->
  (WebGLComputeRenderer.display_live
     (to_glsizei (fst (WebGLComputeRenderer.texture_size state)))
     data m (Z.of_nat x) (Z.of_nat y) = true
   <-> LiveCells.live_at (History.last_n (Z.to_nat m) rows) y x).
Proof.
  intros rows m Hm Hrows Hdata. apply texture_window; try done.
  intros row Hin. rewrite (Hrows row Hin). apply texture_width_covers.
Qed.

(** X18.  The texture the compute renderer uploads, for a bound
    [m >= 1] and generations of one length: its rows are the last [m] of
    the stored generations followed by the current one, oldest first, and
    the texel the display shader fetches for (cell, row) is live exactly
    when that cell is.  A history of [m] or more generations loses its
    oldest visible row to the current generation. *)
Theorem texture_holds_window (state : GLRenderer.CellState) (data : list Z)
    (x y : nat) :
  let rows := GLRenderer.previousGenerations state
              ++ [GLRenderer.cells state] in
  let m := GLRenderer.vp_maxVisibleGenerations (GLRenderer.viewport state) in
  1 <= m ->
  (forall row, In row (GLRenderer.previousGenerations state) ->
     length row = length (GLRenderer.cells state)) ->
  WebGLComputeRenderer.texture_data state = Returns data ->
  (WebGLComputeRenderer.display_live
     (to_glsizei (fst (WebGLComputeRenderer.texture_size state)))
     data m (Z.of_nat x) (Z.of_nat y) = true
   <-> LiveCells.live_at (History.last_n (Z.to_nat m) rows) y x).
Proof. apply texture_window_uniform. Qed.

(** The hypotheses of X18 hold for a full history: one stored generation
    under a bound of 1. *)
Lemma texture_holds_window_witness :
  WebGLComputeRenderer.display_live 1 [0] 1 0 0 = true
  <-> LiveCells.live_at [[Some false]] 0 0.
Proof.
  apply (texture_holds_window full_state [0] 0 0).
  - simpl. lia.
  - intros row [<-|[]]. reflexivity.
  - reflexivity.
Defined.

Lemma full_window_shift (prev : list (list jsbool)) (cells : list jsbool)
    (k : nat) :
  (1 <= k <= length prev)%nat ->
  History.last_n k (prev ++ [cells])
  = drop 1 (History.last_n k prev ++ [cells]).
Proof.
  intros Hk. unfold History.last_n. rewrite length_app. simpl.
  rewrite drop_app_le by lia.
  rewrite (drop_app_le (drop (length prev - k) prev) [cells] 1)
    by (rewrite length_drop; lia).
  rewrite drop_drop. do 2 f_equal. lia.
Qed.

(** X19.  With [m >= 1] stored generations or more (a full history),
    and when no stored generation is longer than the texture is wide
    (the power of two at or above [cells.length]), the two renderers show
    the same window one row apart: the Canvas2D renderer paints
    (cell, row + 1) exactly when the texel for (cell, row) is live; its
    row 0, the oldest generation, is not in the texture at all. *)
Theorem full_history_is_one_row_apart
    (cpu : Canvas2DRenderer.CellState) (gpu : GLRenderer.CellState)
    (data : list Z) (x y : nat) :
  Canvas2DRenderer.cells cpu = GLRenderer.cells gpu ->
  Canvas2DRenderer.previousGenerations cpu
  = GLRenderer.previousGenerations gpu ->
  let m := GLRenderer.vp_maxVisibleGenerations (GLRenderer.viewport gpu) in
  let W := to_glsizei (fst (WebGLComputeRenderer.texture_size gpu)) in
  1 <= m <= Z.of_nat (length (GLRenderer.previousGenerations gpu)) ->
  (forall row, In row (GLRenderer.previousGenerations gpu) ->
     Z.of_nat (length row) <= W) ->
  WebGLComputeRenderer.texture_data gpu = Returns data ->
  (In (x, S y) (Canvas2DRenderer.drawnCells cpu m)
   <-> WebGLComputeRenderer.display_live W data m
         (Z.of_nat x) (Z.of_nat y) = true).
Proof.
  intros Hcells Hprev m W Hm Hrows Hdata.
  pose proof (texture_window gpu data x y) as Htex.
  cbv zeta in Htex. fold m W in Htex.
  specialize (Htex ltac:(lia) Hrows Hdata). rewrite Htex.
  pose proof (drawnCells_window cpu m x (S y)) as Hcanvas.
  simpl in Hcanvas.
  destruct (Z.ltb_spec m 0); [lia|]. destruct (Z.eqb_spec m 0); [lia|].
  rewrite Hcanvas, Hcells, Hprev.
  rewrite full_window_shift by lia.
  unfold LiveCells.live_at. by setoid_rewrite lookup_drop.
Qed.

(** The hypotheses of X19 hold for two stored generations, the older one
    shorter than the current one, under a bound of 2: the current
    generation is row 2 on the canvas and row 1 of the texture. *)
Lemma full_history_is_one_row_apart_witness :
  In (1%nat, 2%nat) (Canvas2DRenderer.drawnCells ragged_state_2d 2)
  <-> WebGLComputeRenderer.display_live 2 [255; 0; 0; 255] 2 1 1 = true.
Proof.
  apply (full_history_is_one_row_apart ragged_state_2d ragged_state
           [255; 0; 0; 255] 1 1 eq_refl eq_refl).
  - simpl. lia.
  - intros row [<-|[<-|[]]]; vm_compute; discriminate.
  - reflexivity.
Defined.

(** ** The compute shader *)

Lemma rule_bit_checked :
  forallb (fun r => forallb (fun p =>
             Bool.eqb (127 <? 255 * and32 (shr (Z.of_nat r) (Z.of_nat p)) 1)
                      (Z.testbit (Z.of_nat r) (Z.of_nat p)))
             (seq 0 8))
    (seq 0 256) = true.
Proof. vm_compute. reflexivity. Qed.

Lemma rule_bit (r p : Z) :
  0 <= r < 256 -> 0 <= p <= 7 ->
  (127 <? 255 * and32 (shr r p) 1) = Z.testbit r p.
Proof.
  intros Hr Hp. pose proof rule_bit_checked as H.
  rewrite forallb_forall in H. specialize (H (Z.to_nat r)).
  rewrite Z2Nat.id in H by lia.
  assert (Hin : In (Z.to_nat r) (seq 0 256)) by (apply in_seq; lia).
  apply H in Hin. rewrite forallb_forall in Hin.
  specialize (Hin (Z.to_nat p)). rewrite Z2Nat.id in Hin by lia.
  assert (Hin' : In (Z.to_nat p) (seq 0 8)) by (apply in_seq; lia).
  apply Hin in Hin'. by apply eqb_prop in Hin'.
Qed.

Lemma live_at_read (rows : list (list jsbool)) (row : list jsbool) (y x : nat) :
  rows !! y = Some row ->
  LiveCells.live_at rows y x <-> truthy (read row (Z.of_nat x)) = true.
Proof.
  intros Hy. rewrite read_lookup. unfold LiveCells.live_at, jsbool in *.
  split.
  - intros (row' & c & Hy' & Hx & Hc).
    assert (row' = row) as -> by congruence. by rewrite Hx.
  - intros H. destruct (row !! x) as [c|] eqn:Hx; [|done].
    by exists row, c.
Qed.

Section BottomRow.

Variables (W H : Z) (vis : list (list jsbool)) (oldest : list jsbool).

Hypothesis height_covers : 1 <= H.
Hypothesis first_row : vis !! 0%nat = Some oldest.

Let data := WebGLComputeRenderer.encode_rows W vis
              (replicate (Z.to_nat (H * W)) 0).

(** Row 0 of the encoded window is the oldest visible generation, up to
    the width of the texture, whatever the lengths of the rows: a cell
    at or beyond the width lands in a later row of the buffer, never in
    row 0; the padding to the right of a shorter row is dead. *)
Lemma bottom_row_texel (x : Z) :
  0 <= x < W ->
  WebGLComputeRenderer.texel_live W data x 0 = truthy (read oldest x).
Proof using height_covers first_row.
  intros Hx.
  unfold WebGLComputeRenderer.texel_live, WebGLComputeRenderer.texel,
    at_index, data, WebGLComputeRenderer.encode_rows, forEach.
  replace (0 * W + x) with x by lia.
  destruct (Z.ltb_spec x 0); [lia|].
  set (data0 := replicate (Z.to_nat (H * W)) 0).
  assert (Hlen : (Z.to_nat x < length data0)%nat).
  { unfold data0. rewrite length_replicate. nia. }
  rewrite <- (Z2Nat.id x) at 2 by lia. rewrite read_lookup.
  destruct (oldest !! Z.to_nat x) as [c|] eqn:Hc; simpl.
  - destruct (truthy c) eqn:Hlive.
    + rewrite (encode_rows_from_hit W vis 0 data0 (Z.to_nat x) 0 oldest
                 (Z.to_nat x) c);
        try done; try (rewrite Z2Nat.id by lia; simpl; lia).
    + destruct (encode_rows_from_trace W vis 0 data0 (Z.to_nat x))
        as [E|(n & g & k & c' & Hn & Hk & Hc' & Haddr)].
      * rewrite E. unfold data0 in Hlen |- *.
        rewrite length_replicate in Hlen. by rewrite lookup_replicate_2.
      * rewrite Z2Nat.id in Haddr by lia. simpl in Haddr.
        assert (n = 0%nat) as -> by nia.
        assert (k = Z.to_nat x) as -> by lia.
        rewrite first_row in Hn. injection Hn as <-.
        unfold jsbool in *. rewrite Hc in Hk. injection Hk as <-.
        by rewrite Hlive in Hc'.
  - destruct (encode_rows_from_trace W vis 0 data0 (Z.to_nat x))
      as [E|(n & g & k & c' & Hn & Hk & Hc' & Haddr)].
    + rewrite E. unfold data0 in Hlen |- *.
      rewrite length_replicate in Hlen. by rewrite lookup_replicate_2.
    + rewrite Z2Nat.id in Haddr by lia. simpl in Haddr.
      assert (n = 0%nat) as -> by nia.
      assert (k = Z.to_nat x) as -> by lia.
      rewrite first_row in Hn. injection Hn as <-.
      unfold jsbool in *. by rewrite Hc in Hk.
Qed.

End BottomRow.

(** Where row 0 of the window comes from: it is the current generation
    when the history is empty or the bound is 1, and a stored generation
    otherwise. *)
Lemma window_first_row (prev : list (list jsbool)) (cells oldest : list jsbool)
    (k : nat) :
  (1 <= k)%nat ->
  History.last_n k (prev ++ [cells]) !! 0%nat = Some oldest ->
  (prev = [] \/ k = 1%nat -> oldest = cells) /\
  (prev <> [] -> (1 < k)%nat -> In oldest prev).
Proof.
  intros Hk Hold. unfold History.last_n in Hold.
  rewrite lookup_drop, length_app in Hold. simpl in Hold.
  rewrite Nat.add_0_r in Hold. split.
  - intros Hcase.
    assert (Hi : (length prev + 1 - k = length prev)%nat).
    { destruct Hcase as [-> | ->]; simpl; lia. }
    rewrite Hi, lookup_app_r, Nat.sub_diag in Hold by lia.
    by injection Hold.
  - intros Hne Hk'.
    assert (Hlen : (0 < length prev)%nat) by (destruct prev; [done|simpl; lia]).
    rewrite lookup_app_l in Hold by lia.
    apply list_elem_of_In. by eapply list_elem_of_lookup_2.
Qed.

(** X20.  The compute pass steps the oldest visible generation.  When the
    number of cells is a power of two (the texture is as wide as the
    generation) and the oldest visible generation is as long as the
    current one, the bottom row the compute shader writes is the host's
    step with the table of [setPresetRule(rule)], applied to row 0 of the
    uploaded texture.  Row 0 is the oldest generation of the window: the
    current generation when the history is empty or the bound is 1, a
    stored generation otherwise. *)
Theorem compute_shader_steps_oldest_row (state : GLRenderer.CellState)
    (data : list Z) (oldest : list jsbool) (r : Z) (x : nat) :
  let rows := GLRenderer.previousGenerations state
              ++ [GLRenderer.cells state] in
  let m := GLRenderer.vp_maxVisibleGenerations (GLRenderer.viewport state) in
  let N := Z.of_nat (length (GLRenderer.cells state)) in
  0 <= r < 256 -> 1 <= m ->
  pow2ceil N = Fin N ->
  WebGLComputeRenderer.texture_data state = Returns data ->
  History.last_n (Z.to_nat m) rows !! 0%nat = Some oldest ->
  length oldest = length (GLRenderer.cells state) ->
  (x < length (GLRenderer.cells state))%nat ->
  (127 <? WebGLComputeRenderer.compute_fragment r N data (Z.of_nat x) 0)
  = truthy (next_cell oldest (presetToggles r) (Z.of_nat x)) /\
  (GLRenderer.previousGenerations state = [] \/ m = 1 ->
   oldest = GLRenderer.cells state) /\
  (GLRenderer.previousGenerations state <> [] -> 1 < m ->
   In oldest (GLRenderer.previousGenerations state)).
Proof.
  intros rows m N Hr Hm Hpow Hdata Hold Hlen Hx. split.
  - destruct (texture_data_encoded state data Hm Hdata)
      as (W & H & Hsize & HW & HH & ->).
    unfold WebGLComputeRenderer.texture_size in Hsize. fold N in Hsize.
    rewrite Hpow in Hsize. injection Hsize as <- _. fold rows.
    set (vis := History.last_n (Z.to_nat m) rows) in *.
    pose proof (bottom_row_texel N H vis oldest ltac:(lia) Hold) as Htexel.
    unfold WebGLComputeRenderer.compute_fragment, rem.
    change (0 <? 0) with false. cbv iota.
    assert (HN : 0 < N) by lia.
    rewrite !Z.rem_mod_nonneg by lia.
    pose proof (Z.mod_pos_bound (Z.of_nat x - 1 + N) N HN).
    pose proof (Z.mod_pos_bound (Z.of_nat x + 1) N HN).
    rewrite !Htexel by lia.
    unfold next_cell, rem. rewrite Hlen. fold N.
    rewrite !Z.rem_mod_nonneg by lia.
    set (p := neighbourhood _ _ _).
    assert (Hp : 0 <= p <= 7) by apply neighbourhood_range.
    rewrite (proj1 (preset_table_read r p Hr Hp)).
    change ((if truthy (read oldest ((Z.of_nat x - 1 + N) mod N))
             then 4 else 0)
            + (if truthy (read oldest (Z.of_nat x)) then 2 else 0)
            + (if truthy (read oldest ((Z.of_nat x + 1) mod N))
               then 1 else 0)) with p.
    rewrite rule_bit by done. by destruct (Z.testbit r p).
  - destruct (window_first_row (GLRenderer.previousGenerations state)
                (GLRenderer.cells state) oldest (Z.to_nat m)
                ltac:(lia) Hold) as [Hcur Hstored].
    split.
    + intros [Hempty|Hone]; apply Hcur; [by left|right; lia].
    + intros Hne Hm'. apply Hstored; [done|lia].
Qed.

(** The hypotheses of X20 hold for rule 30 on four cells with one stored
    generation: the shader steps the stored generation, not the current
    one. *)
Lemma compute_shader_steps_oldest_row_witness :
  (127 <? WebGLComputeRenderer.compute_fragment 30 4
            [0; 255; 0; 0; 255; 255; 255; 0; 0; 0; 0; 0; 0; 0; 0; 0] 0 0)
  = truthy (next_cell [Some false; Some true; Some false; Some false]
              (presetToggles 30) 0) /\
  In [Some false; Some true; Some false; Some false]
    (GLRenderer.previousGenerations wide_state).
Proof.
  destruct (compute_shader_steps_oldest_row wide_state
              [0; 255; 0; 0; 255; 255; 255; 0; 0; 0; 0; 0; 0; 0; 0; 0]
              [Some false; Some true; Some false; Some false] 30 0)
    as (H1 & _ & H3).
  - lia.
  - simpl. lia.
  - reflexivity.
  - reflexivity.
  - reflexivity.
  - reflexivity.
  - simpl. lia.
  - split; [exact H1|]. apply H3; [discriminate|simpl; lia].
Defined.

(** X21.  The compute shader wraps at the texture's width, not at the
    number of cells.  When the number of cells is not a power of two the
    texture is wider than the generation; when the oldest visible
    generation, which is row 0 of the texture, is as long as the current
    one, the end cells of the bottom row get a dead padding texel as
    their outer neighbour, where the host's [step] takes the cell at the
    other end. *)
Theorem compute_shader_wraps_at_texture_width (state : GLRenderer.CellState)
    (data : list Z) (oldest : list jsbool) (r W : Z) :
  let rows := GLRenderer.previousGenerations state
              ++ [GLRenderer.cells state] in
  let m := GLRenderer.vp_maxVisibleGenerations (GLRenderer.viewport state) in
  let N := Z.of_nat (length (GLRenderer.cells state)) in
  0 <= r < 256 -> 1 <= m ->
  fst (WebGLComputeRenderer.texture_size state) = Fin W -> N < W ->
  WebGLComputeRenderer.texture_data state = Returns data ->
  History.last_n (Z.to_nat m) rows !! 0%nat = Some oldest ->
  length oldest = length (GLRenderer.cells state) ->
  (127 <? WebGLComputeRenderer.compute_fragment r W data 0 0)
  = Z.testbit r (neighbourhood undefined (read oldest 0) (read oldest 1)) /\
  (127 <? WebGLComputeRenderer.compute_fragment r W data (N - 1) 0)
  = Z.testbit r (neighbourhood (read oldest (N - 2)) (read oldest (N - 1))
                   undefined) /\
  next_cell oldest (presetToggles r) 0
  = Some (Z.testbit r (neighbourhood (read oldest (N - 1)) (read oldest 0)
                         (read oldest 1))).
Proof.
  intros rows m N Hr Hm Hwidth Hwider Hdata Hold Hlen.
  destruct (texture_data_encoded state data Hm Hdata)
    as (W' & H & Hsize & HW & HH & ->).
  rewrite Hsize in Hwidth. injection Hwidth as ->. fold rows.
  assert (HN : 3 <= N).
  { unfold WebGLComputeRenderer.texture_size in Hsize. fold N in Hsize.
    injection Hsize as Hsize _.
    destruct (decide (N = 0)) as [E|]; [rewrite E in Hsize|];
      [vm_compute in Hsize; injection Hsize as <-; lia|].
    destruct (decide (N = 1)) as [E|]; [rewrite E in Hsize|];
      [vm_compute in Hsize; injection Hsize as <-; lia|].
    destruct (decide (N = 2)) as [E|]; [rewrite E in Hsize|];
      [vm_compute in Hsize; injection Hsize as <-; lia|].
    lia. }
  set (vis := History.last_n (Z.to_nat m) rows) in *.
  pose proof (bottom_row_texel W H vis oldest ltac:(lia) Hold) as Htexel.
  assert (Hleft0 : (0 - 1 + W) mod W = W - 1).
  { replace (0 - 1 + W) with (W - 1) by lia. apply Z.mod_small. lia. }
  assert (Hright0 : (0 + 1) mod W = 1) by (apply Z.mod_small; lia).
  assert (HleftN : (N - 1 - 1 + W) mod W = N - 2).
  { replace (N - 1 - 1 + W) with (N - 2 + 1 * W) by lia.
    rewrite Z_mod_plus_full. apply Z.mod_small. lia. }
  assert (HrightN : (N - 1 + 1) mod W = N).
  { replace (N - 1 + 1) with N by lia. apply Z.mod_small. lia. }
  assert (Hpad : forall k, N <= k -> read oldest k = undefined).
  { intros k Hk. apply read_beyond. lia. }
  split; [|split].
  - unfold WebGLComputeRenderer.compute_fragment, rem.
    change (0 <? 0) with false. cbv iota.
    rewrite !Z.rem_mod_nonneg by lia. rewrite Hleft0, Hright0.
    rewrite !Htexel by lia. rewrite (Hpad (W - 1)) by lia.
    apply rule_bit; [done|]. apply neighbourhood_range.
  - unfold WebGLComputeRenderer.compute_fragment, rem.
    change (0 <? 0) with false. cbv iota.
    rewrite !Z.rem_mod_nonneg by lia. rewrite HleftN, HrightN.
    rewrite !Htexel by lia. rewrite (Hpad N) by lia.
    apply rule_bit; [done|]. apply neighbourhood_range.
  - unfold next_cell, rem. rewrite Hlen. fold N.
    rewrite !Z.rem_mod_nonneg by lia.
    replace ((0 - 1 + N) mod N) with (N - 1).
    2:{ replace (0 - 1 + N) with (N - 1) by lia.
        symmetry. apply Z.mod_small. lia. }
    replace ((0 + 1) mod N) with 1 by (symmetry; apply Z.mod_small; lia).
    exact (proj1 (preset_table_read r _ Hr (neighbourhood_range _ _ _))).
Qed.

(** The hypotheses of X21 hold for rule 16 on the three cells "dead, dead,
    live": the shader leaves cell 0 dead, the host's step makes it live. *)
Lemma compute_shader_wraps_at_texture_width_witness :
  (127 <? WebGLComputeRenderer.compute_fragment 16 4 [0; 0; 255; 0] 0 0)
  = false /\
  next_cell [Some false; Some false; Some true] (presetToggles 16) 0
  = Some true.
Proof.
  destruct (compute_shader_wraps_at_texture_width edge_state [0; 0; 255; 0]
              [Some false; Some false; Some true] 16 4) as (H1 & _ & H3).
  - lia.
  - simpl. lia.
  - reflexivity.
  - simpl. lia.
  - reflexivity.
  - reflexivity.
  - reflexivity.
  - split; [exact H1|exact H3].
Defined.

(** ** The life cycle of the compute renderer *)

Ltac only_last :=
  let h := fresh "h" in
  let Hd := fresh "Hd" in
  intros h Hd;
  do 8 (destruct h as [|h];
        [first [reflexivity | cbv in Hd; discriminate Hd]|]);
  cbv in Hd; discriminate Hd.

(** One case of a thrown [initialize]. *)
Ltac thrown_shape :=
  cbn [fst snd]; split; [reflexivity|]; split;
  [intros ? [= <-]; repeat split; try done;
   intros _; eexists; split; [reflexivity|]; only_last
  |discriminate].

(** X22.  How [initialize] of the compute renderer ends on a canvas that
    has not handed out a WebGL2 context before, by what the canvas and
    the driver answer, call by call: no WebGL2 context, a [createShader]
    or [createProgram] call that answers [null], a shader that does not
    compile, a program that does not link, or success.  When it throws
    after the context was obtained, the renderer keeps the context, holds
    no texture, framebuffer or buffer, and at most the object that failed
    was deleted: the shaders and the program made before it are never
    deleted.  When it returns, the three shaders are deleted, both
    programs are held, and the buffer, the two textures and the two
    framebuffers are whatever their [create] calls answered, [null]
    included: [initialize] does not check those. *)
Theorem compute_initialize_outcome (canvas : Dom.Canvas) :
  (forall c, Dom.mode canvas <> Dom.HasWebGL2 c) ->
  let run := WebGLComputeRenderer.initialize canvas WebGLComputeRenderer.new in
  snd run
  = match Dom.getContext_webgl2 canvas with
    | None => Throws WebGL2NotSupported
    | Some c =>
        let d := GL.driver c in
        if negb (GL.creates_objects d 1) then Throws CreateShaderFailed
        else if negb (GL.compiles d GL.VertexSource)
        then Throws ShaderCompileError
        else if negb (GL.creates_objects d 2) then Throws CreateShaderFailed
        else if negb (GL.compiles d GL.DisplaySource)
        then Throws ShaderCompileError
        else if negb (GL.creates_objects d 3) then Throws CreateShaderFailed
        else if negb (GL.compiles d GL.ComputeSource)
        then Throws ShaderCompileError
        else if negb (GL.creates_objects d 4) then Throws CreateProgramFailed
        else if negb (GL.links d GL.DisplaySource)
        then Throws ProgramLinkError
        else if negb (GL.creates_objects d 5) then Throws CreateProgramFailed
        else if negb (GL.links d GL.ComputeSource)
        then Throws ProgramLinkError
        else Returns tt
    end /\
  (forall e, snd run = Throws e ->
     GLRenderer.textures (fst run) = [] /\
     GLRenderer.framebuffers (fst run) = [] /\
     GLRenderer.quadBuffer (fst run) = None /\
     (e <> WebGL2NotSupported ->
      exists c, GLRenderer.gl (fst run) = Some c /\
        forall h, GL.is_deleted h c = true -> S h = GL.next_handle c)) /\
  (snd run = Returns tt ->
   exists c,
     GLRenderer.gl (fst run) = Some c /\
     GL.next_handle c = 11%nat /\
     GLRenderer.displayProgram (fst run) = Some 4%nat /\
     GLRenderer.computeProgram (fst run) = Some 5%nat /\
     (let made n := if GL.creates_objects (GL.driver c) n then Some n
                    else None in
      GLRenderer.quadBuffer (fst run) = made 6%nat /\
      GLRenderer.textures (fst run) = [made 7%nat; made 8%nat] /\
      GLRenderer.framebuffers (fst run) = [made 9%nat; made 10%nat]) /\
     forall h, GL.is_deleted h c = true <-> (1 <= h <= 3)%nat).
Proof.
  destruct canvas as [w h c2d drv md]. cbn [Dom.mode]. intros Hmode.
  destruct md as [|c|c]; [| |by destruct (Hmode c)].
  2:{ (split; [reflexivity|]); (split; [|discriminate]);
      intros e [= <-]; repeat split; done. }
  destruct drv as [[co comp lk]|].
  2:{ (split; [reflexivity|]); (split; [|discriminate]);
      intros e [= <-]; repeat split; done. }
  cbv zeta.
  destruct (WebGLComputeRenderer.initialize _ _) as [r o] eqn:H.
  unfold WebGLComputeRenderer.initialize, Dom.getContext_webgl2 in H.
  cbn [Dom.mode Dom.webgl2 Dom.width Dom.height] in H.
  unfold Dom.getContext_webgl2.
  cbn [Dom.mode Dom.webgl2 GL.driver GL.fresh GL.creates_objects GL.compiles GL.links].
  do 15 (stepped H co comp lk thrown_shape).
  all: vm_compute in H; answers H co comp lk; injection H as <- <-;
    cbn [fst snd]; (split; [reflexivity|]); (split; [discriminate|]);
    intros _; eexists; (split; [reflexivity|]);
    cbn [GL.driver GL.creates_objects GL.next_handle]; answered co;
    do 3 (split; [reflexivity|]);
    (split; [repeat split; reflexivity|]);
    intros x;
    do 4 (destruct x as [|x];
          [vm_compute; split; first [discriminate | lia | reflexivity]|]);
    vm_compute; (split; [discriminate|lia]).
Qed.

(** The hypothesis of X22 holds for a canvas without a context whose
    driver answers every call: [initialize] returns. *)
Lemma compute_initialize_outcome_witness :
  snd (WebGLComputeRenderer.initialize good_canvas WebGLComputeRenderer.new)
  = Returns tt.
Proof.
  destruct (compute_initialize_outcome good_canvas) as [H _].
  - intros c. discriminate.
  - exact H.
Defined.

Section Deleting.

Import GL GLRenderer.

Lemma is_deleted_delete (h x : handle) (c : Context) :
  is_deleted x (delete h c) = (Nat.eqb x h || is_deleted x c) /\
  draws (delete h c) = draws c.
Proof.
  unfold delete, is_deleted.
  repeat (case_bool_decide; simpl); done.
Qed.

(** What [if (h) gl.delete...(h)] leaves deleted. *)
Lemma delete_if_deletes (h : option handle) (r : t) (c : Context) :
  gl r = Some c ->
  exists c', delete_if h r = (set_gl (Some c') r, Returns tt) /\
    (forall x, h = Some x -> is_deleted x c' = true) /\
    (forall x, is_deleted x c = true -> is_deleted x c' = true) /\
    draws c' = draws c.
Proof.
  intros Hgl. destruct h as [x|]; simpl.
  - rewrite (call_on_context _ r c Hgl). eexists. split; [reflexivity|].
    split; [|split].
    + intros y [= <-]. rewrite (proj1 (is_deleted_delete x x c)).
      by rewrite Nat.eqb_refl.
    + intros y Hy. rewrite (proj1 (is_deleted_delete x y c)), Hy.
      apply orb_true_r.
    + apply is_deleted_delete; exact 0%nat.
  - exists c. split; [|done]. unfold ret. f_equal.
    destruct r; simpl in *; by subst.
Qed.

Lemma delete_each_deletes (hs : list (option handle)) (r : t) (c : Context) :
  gl r = Some c ->
  exists c', delete_each hs r = (set_gl (Some c') r, Returns tt) /\
    (forall x, In (Some x) hs -> is_deleted x c' = true) /\
    (forall x, is_deleted x c = true -> is_deleted x c' = true) /\
    draws c' = draws c.
Proof.
  revert r c. induction hs as [|h hs IH]; intros r c Hgl; simpl.
  - exists c. split; [|done]. unfold ret. f_equal.
    destruct r; simpl in *; by subst.
  - unfold then_.
    destruct (delete_if_deletes h r c Hgl) as (c1 & -> & Hh & Hm1 & Hd1).
    destruct (IH (set_gl (Some c1) r) c1 eq_refl)
      as (c2 & -> & Hhs & Hm2 & Hd2).
    exists c2. rewrite set_gl_set_gl. split; [done|]. split; [|split].
    + intros x [Hx|Hx]; [apply Hm2; by apply Hh|by apply Hhs].
    + intros x Hx. by apply Hm2, Hm1.
    + congruence.
Qed.

End Deleting.

(** X23.  [dispose] of the compute renderer, on a renderer that holds a
    context, returns and deletes every object the renderer holds: both
    programs, the buffer, the textures and the framebuffers; what was
    deleted before stays deleted and nothing is drawn.  The renderer's
    own fields are not touched: it still holds the context and the
    deleted objects. *)
Theorem compute_dispose_deletes_held (r : GLRenderer.t) (c : GL.Context) :
  GLRenderer.gl r = Some c ->
  exists c',
    WebGLComputeRenderer.dispose r
    = (GLRenderer.set_gl (Some c') r, Returns tt) /\
    (forall h,
       GLRenderer.displayProgram r = Some h
       \/ GLRenderer.computeProgram r = Some h
       \/ GLRenderer.quadBuffer r = Some h
       \/ In (Some h) (GLRenderer.textures r)
       \/ In (Some h) (GLRenderer.framebuffers r) ->
       GL.is_deleted h c' = true) /\
    (forall h, GL.is_deleted h c = true -> GL.is_deleted h c' = true) /\
    GL.draws c' = GL.draws c.
Proof.
  intros Hgl.
  unfold WebGLComputeRenderer.dispose, WebGLComputeRenderer.cleanup,
    then_ at 1, get.
  rewrite Hgl. unfold then_.
  destruct (delete_if_deletes (GLRenderer.displayProgram r) r c Hgl)
    as (c1 & -> & H1 & M1 & D1).
  destruct (delete_if_deletes (GLRenderer.computeProgram r)
              (GLRenderer.set_gl (Some c1) r) c1 eq_refl)
    as (c2 & -> & H2 & M2 & D2).
  destruct (delete_if_deletes (GLRenderer.quadBuffer r)
              (GLRenderer.set_gl (Some c2) (GLRenderer.set_gl (Some c1) r))
              c2 eq_refl)
    as (c3 & -> & H3 & M3 & D3).
  rewrite !set_gl_set_gl.
  destruct (delete_each_deletes (GLRenderer.textures r)
              (GLRenderer.set_gl (Some c3) r) c3 eq_refl)
    as (c4 & -> & H4 & M4 & D4).
  destruct (delete_each_deletes (GLRenderer.framebuffers r)
              (GLRenderer.set_gl (Some c4) (GLRenderer.set_gl (Some c3) r))
              c4 eq_refl)
    as (c5 & -> & H5 & M5 & D5).
  rewrite !set_gl_set_gl. exists c5. split; [done|]. split; [|split].
  - intros h [H|[H|[H|[H|H]]]].
    + by apply M5, M4, M3, M2, H1.
    + by apply M5, M4, M3, H2.
    + by apply M5, M4, H3.
    + by apply M5, H4.
    + by apply H5.
  - intros h H. by apply M5, M4, M3, M2, M1.
  - congruence.
Qed.

(** The hypothesis of X23 holds for the renderer initialized on a canvas
    whose driver accepts everything. *)
Lemma compute_dispose_deletes_held_witness :
  exists c',
    WebGLComputeRenderer.dispose initialized_compute
    = (GLRenderer.set_gl (Some c') initialized_compute, Returns tt) /\
    GL.is_deleted 7%nat c' = true.
Proof.
  destruct (compute_dispose_deletes_held initialized_compute
              (default (GL.fresh good_driver 0 0)
                 (GLRenderer.gl initialized_compute)))
    as (c' & Hrun & Hheld & _).
  - vm_compute. reflexivity.
  - exists c'. split; [exact Hrun|]. apply Hheld.
    right. right. right. left. vm_compute. by left.
Defined.

(** ** Disposing the WebGL renderer *)

Lemma webgl_dispose_without_context (r : GLRenderer.t) :
  GLRenderer.gl r = None -> WebGLRenderer.dispose r = (r, Returns tt).
Proof.
  intros H. unfold WebGLRenderer.dispose, then_, get. by rewrite H.
Qed.

(** X24.  [dispose] of the WebGL renderer always returns; on a renderer
    that holds a context it clears the context, both programs, the buffer
    and both slots of the texture and framebuffer pairs; a second
    [dispose] changes nothing. *)
Theorem webgl_dispose_resets (r : GLRenderer.t) :
  exists r',
    WebGLRenderer.dispose r = (r', Returns tt) /\
    WebGLRenderer.dispose r' = (r', Returns tt) /\
    GLRenderer.gl r' = None /\
    (GLRenderer.gl r = None -> r' = r) /\
    (GLRenderer.gl r <> None ->
     GLRenderer.displayProgram r' = None /\
     GLRenderer.computeProgram r' = None /\
     GLRenderer.quadBuffer r' = None /\
     GLRenderer.textures r' = [None; None] /\
     GLRenderer.framebuffers r' = [None; None] /\
     GLRenderer.generation r' = GLRenderer.generation r /\
     GLRenderer.currentTexture r' = GLRenderer.currentTexture r).
Proof.
  destruct (GLRenderer.gl r) as [c|] eqn:Hgl.
  - unfold WebGLRenderer.dispose at 1, then_ at 1, get. rewrite Hgl.
    unfold then_.
    destruct (delete_if_returns (GLRenderer.displayProgram r) r c Hgl)
      as [c1 ->].
    destruct (delete_if_returns (GLRenderer.computeProgram r)
                (GLRenderer.set_gl (Some c1) r) c1 eq_refl) as [c2 ->].
    destruct (delete_if_returns (GLRenderer.quadBuffer r)
                (GLRenderer.set_gl (Some c2) (GLRenderer.set_gl (Some c1) r))
                c2 eq_refl) as [c3 ->].
    rewrite !set_gl_set_gl.
    destruct (delete_each_returns (GLRenderer.textures r)
                (GLRenderer.set_gl (Some c3) r) c3 eq_refl) as [c4 ->].
    destruct (delete_each_returns (GLRenderer.framebuffers r)
                (GLRenderer.set_gl (Some c4) (GLRenderer.set_gl (Some c3) r))
                c4 eq_refl) as [c5 ->].
    unfold modify. eexists. split; [reflexivity|].
    split; [by apply webgl_dispose_without_context|].
    split; [reflexivity|]. split; [done|].
    intros _. repeat split; reflexivity.
  - exists r. rewrite webgl_dispose_without_context by done.
    split; [done|]. split; [done|]. split; [done|]. split; [done|].
    intros H. by destruct H.
Qed.

(** ** The renderer factory *)

(** X25.  The WebGL2 probe runs at most once: the first call of
    [isWebGL2Supported] stores its answer, and every later call returns
    that answer without probing, whatever the browser would answer by
    then; no call throws. *)
Theorem support_probe_is_cached (w : RendererFactory.World) :
  exists w' b,
    RendererFactory.isWebGL2Supported w = (w', Returns b) /\
    b = FactorySpec.supported w /\
    RendererFactory.webGLSupportCache w' = Some b /\
    forall p,
      RendererFactory.isWebGL2Supported (with_probe p w')
      = (with_probe p w', Returns b).
Proof.
  unfold RendererFactory.isWebGL2Supported, FactorySpec.supported, then_, get,
    try_catch, with_probe.
  destruct (RendererFactory.webGLSupportCache w) as [b|] eqn:Hcache.
  - exists w, b. simpl. rewrite Hcache. repeat split.
  - destruct (RendererFactory.probe w); simpl; do 2 eexists;
      repeat split; reflexivity.
Qed.

(** X26.  A renderer the factory returns for a canvas is initialized.  A
    compute renderer made on a canvas that had no context yet has its
    texture pair set up, unless a [createTexture] or [createFramebuffer]
    call answered [null], which [initialize] does not check.  A Canvas2D
    renderer holds the canvas and a 2D context with image smoothing off.
    The factory with a canvas never returns the plain WebGL renderer. *)
Theorem factory_renderer_is_initialized
    (preferredType : option RendererType) (c : Dom.Canvas)
    (w w' : RendererFactory.World) (b : RendererFactory.BaseRenderer) :
  RendererFactory.createRenderer preferredType (Some c) w = (w', Returns b) ->
  match b with
  | RendererFactory.WebGLCompute r =>
      WebGLComputeRenderer.initialize c WebGLComputeRenderer.new
      = (r, Returns tt) /\
      (Dom.mode c = Dom.NoContext ->
       ~ In None (GLRenderer.textures r ++ GLRenderer.framebuffers r) ->
       PingPong.sound r)
  | RendererFactory.Canvas2D r =>
      Canvas2DRenderer.canvas r = Some c /\
      exists context, Canvas2DRenderer.ctx r = Some context /\
        Dom.imageSmoothingEnabled context = false
  | RendererFactory.WebGL _ => False
  end.
Proof.
  assert (H2d : forall c0 w0 w1 b0,
            RendererFactory.createCanvas2D (Some c0) w0 = (w1, Returns b0) ->
            Canvas2DRenderer.getContext_2d c0 <> None /\
            match b0 with
            | RendererFactory.Canvas2D r =>
                Canvas2DRenderer.canvas r = Some c0 /\
                exists context, Canvas2DRenderer.ctx r = Some context /\
                  Dom.imageSmoothingEnabled context = false
            | _ => False
            end).
  { intros c0 w0 w1 b0 Hrun.
    destruct (createCanvas2D_outcome (Some c0) w0) as (w2 & o & Ho & _ & Hc).
    rewrite Hrun in Ho. injection Ho as <- <-.
    destruct (Canvas2DRenderer.getContext_2d c0) as [context|];
      [|discriminate Hc].
    destruct Hc as (r & [= ->] & Hcanvas & Hctx).
    split; [done|]. split; [done|]. by eexists. }
  unfold RendererFactory.createRenderer, then_ at 1.
  destruct (gpu_selected_returns preferredType w) as (w1 & -> & _ & _).
  destruct (FactorySpec.chooses_gpu preferredType w).
  - unfold try_catch.
    destruct (createGPU_outcome (Some c) w1) as (w2 & _ & _ & ->).
    destruct (WebGLComputeRenderer.initialize c WebGLComputeRenderer.new)
      as [r [[]|e]] eqn:Hinit.
    + intros [= _ <-]. split; [done|]. intros Hmode Hnn.
      by eapply compute_initialize_sound.
    + unfold then_ at 1, RendererFactory.emit, modify. simpl.
      intros Hrun. apply H2d in Hrun as [Hctx Hb].
      rewrite canvas_after_gpu_2d in Hctx.
      destruct (Dom.getContext_webgl2 c) eqn:Hgl; [by destruct Hctx|].
      unfold RendererFactory.canvas_after_gpu in Hb. rewrite Hgl in Hb.
      by destruct b.
  - intros Hrun. apply H2d in Hrun as [_ Hb]. by destruct b.
Qed.

(** The hypothesis of X26 holds for a canvas with a working WebGL2
    driver on a page that supports WebGL2. *)
Lemma factory_renderer_is_initialized_witness :
  PingPong.sound initialized_compute.
Proof.
  apply (factory_renderer_is_initialized (Some webgl) good_canvas
           (fresh_world RendererFactory.ProbeContext)
           {| RendererFactory.webGLSupportCache := Some true;
              RendererFactory.probe := RendererFactory.ProbeContext;
              RendererFactory.devicePixelRatio := 1;
              RendererFactory.trace := [RendererFactory.ConstructedGPU] |}
           (RendererFactory.WebGLCompute initialized_compute)).
  - vm_compute. reflexivity.
  - reflexivity.
  - vm_compute. intros H. repeat destruct H as [H|H]; try discriminate H.
    exact H.
Defined.

(** ** The split stores *)

(** X27.  In the split stores every viewport action that returns leaves
    the two stores in agreement: the simulation store's [maxCells] is an
    array length [k], its generation has exactly [k] cells, the render
    store's [renderWidth] is [k] cells wide, and rule table, history and
    counter of the simulation store are untouched. *)
Theorem split_stores_agree (win : Window) (x : Z)
    (rs rs' : RenderStore.Store * SimulationStore.Store) :
  RenderStore.updateCanvasSize win x rs = Returns rs'
  \/ RenderStore.setCellSize win x rs = Returns rs'
  \/ RenderStore.setCellMargin win x rs = Returns rs' ->
  exists k,
    SimulationStore.maxCells (snd rs') = Fin k /\
    RenderStore.renderWidth (fst rs')
    = Fin (k * (RenderStore.cellSize (fst rs')
                + RenderStore.cellMargin (fst rs'))) /\
    0 <= k < 2 ^ 32 /\
    Z.of_nat (length (SimulationStore.cells (snd rs'))) = k /\
    SimulationStore.ruleToggles (snd rs')
    = SimulationStore.ruleToggles (snd rs) /\
    SimulationStore.previousGenerations (snd rs')
    = SimulationStore.previousGenerations (snd rs) /\
    SimulationStore.generation (snd rs')
    = SimulationStore.generation (snd rs).
Proof.
  unfold RenderStore.updateCanvasSize, RenderStore.setCellSize,
    RenderStore.setCellMargin, SimulationStore.updateMaxCells.
  intros [H|[H|H]]; revert H;
    match goal with
    | |- context [resizeCells ?m ?c] =>
        destruct (resizeCells m c) as [c'|] eqn:Hr; simpl; [|done];
        intros [= <-];
        apply resizeCells_returns in Hr as (k & Hm & Hk & ->);
        exists k; simpl in Hm |- *; rewrite Hm;
        repeat (split; [done|]); split; [|done];
        unfold recenter, forEach;
        rewrite recenter_from_length, length_replicate; lia
    end.
Qed.

(** The hypothesis of X27 holds for a window of 316 pixels: four cells of
    4 pixels. *)
Lemma split_stores_agree_witness :
  exists k,
    RenderStore.renderWidth
      (RenderStore.set_viewport 4 0
         (calculateCanvasMetrics_render
            {| innerWidth := 316; innerHeight := 400 |} 316 4 0))
    = Fin (k * (4 + 0)) /\
    0 <= k < 2 ^ 32.
Proof.
  destruct (split_stores_agree {| innerWidth := 316; innerHeight := 400 |} 316
              (RenderStore.set_viewport 4 0
                 (calculateCanvasMetrics_render
                    {| innerWidth := 316; innerHeight := 400 |} 316 4 0),
               example_sim_store [Some true; Some false] []
                 (replicate 8 (Some false)))
              _ (or_introl eq_refl)) as (k & _ & H2 & H3 & _).
  exists k. split; [exact H2|exact H3].
Defined.

(** ** Frames of the compute renderer *)

(** X28.  From a successful [initialize] of the compute renderer on a
    canvas that had no context yet, when no [createTexture] or
    [createFramebuffer] call answered [null]: through any number of
    frames on any snapshots, whether a frame returns or throws, the
    texture pair stays set up (two live textures, each attached to its
    own live framebuffer) and no draw ever samples the texture it
    writes. *)
Theorem compute_frames_stay_sound (canvas : Dom.Canvas) (r : GLRenderer.t)
    (states : list GLRenderer.CellState) :
  Dom.mode canvas = Dom.NoContext ->
  WebGLComputeRenderer.initialize canvas WebGLComputeRenderer.new
  = (r, Returns tt) ->
  ~ In None (GLRenderer.textures r ++ GLRenderer.framebuffers r) ->
  PingPong.sound
    (fst (PingPong.render_all WebGLComputeRenderer.render states r)).
Proof.
  intros Hmode Hinit Hnn.
  apply render_all_keeps; [apply compute_render_keeps|].
  by eapply compute_initialize_sound.
Qed.

(** The hypotheses of X28 hold for a canvas whose driver accepts
    everything. *)
Lemma compute_frames_stay_sound_witness :
  PingPong.sound
    (fst (PingPong.render_all WebGLComputeRenderer.render
            [example_state; full_state; example_state] initialized_compute)).
Proof.
  apply (compute_frames_stay_sound good_canvas initialized_compute
           [example_state; full_state; example_state]).
  - reflexivity.
  - vm_compute. reflexivity.
  - vm_compute. intros H. repeat destruct H as [H|H]; try discriminate H.
    exact H.
Defined.

(** ** The ring of cells *)

Lemma read_rotate (cells : list jsbool) (k : nat) (x : Z) :
  0 <= x < Z.of_nat (length cells) ->
  read (rotate k cells) x
  = read cells ((Z.of_nat k + x) mod Z.of_nat (length cells)).
Proof.
  intros Hx. set (N := Z.of_nat (length cells)) in *.
  pose proof (Z.mod_pos_bound (Z.of_nat k + x) N ltac:(lia)) as Hb.
  rewrite <- (Z2Nat.id x) at 1 by lia.
  rewrite <- (Z2Nat.id ((Z.of_nat k + x) mod N)) by lia.
  rewrite !read_lookup. f_equal.
  unfold jsbool in *. rewrite lookup_rotate_r by lia.
  f_equal. unfold rotate_nat_add. fold N. by rewrite Z2Nat.id by lia.
Qed.

(** The rule loop does not depend on where the ring is cut. *)
Lemma nextCells_rotate (cells t : list jsbool) (k : nat) :
  nextCells (rotate k cells) t = rotate k (nextCells cells t).
Proof.
  apply list_eq. intros i.
  destruct (decide (i < length cells)%nat) as [Hi|Hi].
  - set (N := Z.of_nat (length cells)).
    assert (HN : 0 < N) by lia.
    rewrite nextCells_lookup by (rewrite length_rotate; lia).
    rewrite lookup_rotate_r by (rewrite nextCells_length; lia).
    rewrite nextCells_length.
    pose proof (Z.mod_pos_bound (Z.of_nat k + Z.of_nat i) N HN) as Hj.
    rewrite nextCells_lookup by (unfold rotate_nat_add; fold N; lia).
    f_equal. unfold next_cell, rem. rewrite length_rotate. fold N.
    unfold rotate_nat_add. fold N. rewrite Z2Nat.id by lia.
    set (j := (Z.of_nat k + Z.of_nat i) mod N) in *.
    rewrite !Z.rem_mod_nonneg by lia.
    pose proof (Z.mod_pos_bound (Z.of_nat i - 1 + N) N HN).
    pose proof (Z.mod_pos_bound (Z.of_nat i + 1) N HN).
    rewrite !read_rotate by (fold N; lia). fold N.
    rewrite !Zplus_mod_idemp_r. fold j.
    replace ((j - 1 + N) mod N)
      with ((Z.of_nat k + (Z.of_nat i - 1 + N)) mod N).
    2:{ unfold j.
        replace (Z.of_nat k + (Z.of_nat i - 1 + N))
          with (Z.of_nat k + Z.of_nat i + (N - 1)) by lia.
        replace ((Z.of_nat k + Z.of_nat i) mod N - 1 + N)
          with ((Z.of_nat k + Z.of_nat i) mod N + (N - 1)) by lia.
        by rewrite Zplus_mod_idemp_l. }
    replace ((j + 1) mod N) with ((Z.of_nat k + (Z.of_nat i + 1)) mod N).
    2:{ unfold j. rewrite Zplus_mod_idemp_l. f_equal. lia. }
    reflexivity.
  - rewrite !lookup_ge_None_2; [done|..].
    + rewrite length_rotate, nextCells_length. lia.
    + rewrite nextCells_length, length_rotate. lia.
Qed.

(** X29.  [step] commutes with rotating the ring of cells: because the
    neighbours wrap around, stepping the generation rotated by [k] gives
    the stepped generation rotated by [k], for every rule table and in
    both stores. *)
Theorem step_commutes_with_rotation (k : nat) (s s1 s2 : UseStore.Store)
    (sim sim1 sim2 : SimulationStore.Store) :
  (UseStore.step s = Returns s1 ->
   UseStore.step
     (UseStore.set_simulation (rotate k (UseStore.cells s))
        (UseStore.previousGenerations s) (UseStore.generation s) s)
   = Returns s2 ->
   UseStore.cells s2 = rotate k (UseStore.cells s1)) /\
  (SimulationStore.step sim = Returns sim1 ->
   SimulationStore.step
     (SimulationStore.set_simulation (rotate k (SimulationStore.cells sim))
        (SimulationStore.previousGenerations sim)
        (SimulationStore.generation sim) sim)
   = Returns sim2 ->
   SimulationStore.cells sim2 = rotate k (SimulationStore.cells sim1)).
Proof.
  split; intros [= <-] [= <-]; simpl; apply nextCells_rotate.
Qed.

(** The hypotheses of X29 hold for rule 30 on four cells rotated by one. *)
Lemma step_commutes_with_rotation_witness :
  exists s1 s2,
    UseStore.step
      (example_store [Some false; Some true; Some false; Some false] []
         (presetToggles 30) (Fin 5)) = Returns s1 /\
    UseStore.step
      (example_store [Some true; Some false; Some false; Some false] []
         (presetToggles 30) (Fin 5)) = Returns s2 /\
    UseStore.cells s2 = rotate 1 (UseStore.cells s1).
Proof.
  do 2 eexists. split; [reflexivity|]. split; [reflexivity|].
  refine (proj1 (step_commutes_with_rotation 1
            (example_store [Some false; Some true; Some false; Some false] []
               (presetToggles 30) (Fin 5)) _ _
            (example_sim_store [] [] []) (example_sim_store [] [] [])
            (example_sim_store [] [] [])) _ _).
  - reflexivity.
  - reflexivity.
Defined.
